(** * Matrix offload server and client: a shallow embedding

    The development follows [server.cpp] and [client/main.cpp].

    - [Machine]: fixed-width integers ([uint32_t], [int], [size_t]) as [Z]
      with their wrap-around written out.
    - [Float32]: a [float] is held as its 32-bit pattern; comparisons go
      through the IEEE-754 reading of the pattern ([spec_float]).
    - [Winsock]: the byte stream of a socket, [send] and [recv] on it,
      byte order, and the world a session handler runs in.
    - [Server]: [ClientState], the worker, the four codec functions,
      [handle_client] and the listener of [main].
    - [Client]: argument handling of the client's [main], its codec
      functions, [generate_random_matrix], [print_matrix], the exchange
      with the server and [main].
    - [Terms]: the vocabulary of the statements.

    The second part states and proves the properties: C1 to C10, then,
    under "Further properties of the code", X1 to X29. *)

From Stdlib Require Import ZArith List Bool Lia String Ascii DecimalString.
From Stdlib Require Import DecimalPos.
From Stdlib Require Import Floats.SpecFloat.
From stdpp Require Import base option list.

Local Open Scope Z_scope.

(* ===================================================================== *)
(** ** Fixed-width integers *)
(* ===================================================================== *)

Module Machine.

Definition two32 : Z := 4294967296.
Definition two31 : Z := 2147483648.
Definition two64 : Z := 18446744073709551616.

(** Conversion to [uint32_t]. *)
Definition to_u32 (z : Z) : Z := z mod two32.

(** Conversion to [int] (two's complement, 32 bits). *)
Definition to_i32 (z : Z) : Z := (z + two31) mod two32 - two31.

(** Conversion to [size_t] (64 bits on the x64 target of the sources). *)
Definition to_size_t (z : Z) : Z := z mod two64.

Definition is_u32 (z : Z) : Prop := 0 <= z < two32.

End Machine.

(* ===================================================================== *)
(** ** Single-precision floats as bit patterns *)
(* ===================================================================== *)

Module Float32.

(** IEEE-754 binary32 reading of a 32-bit pattern: 1 sign bit, 8 exponent
    bits, 23 fraction bits. *)
Definition decode (bits : Z) : spec_float :=
  let s := Z.testbit bits 31 in
  let e := Z.land (Z.shiftr bits 23) 255 in
  let m := Z.land bits 8388607 in
  if e =? 0 then
    match m with
    | Zpos p => S754_finite s p (-149)
    | _ => S754_zero s
    end
  else if e =? 255 then
    if m =? 0 then S754_infinity s else S754_nan
  else
    match m + 8388608 with
    | Zpos p => S754_finite s p (e - 150)
    | _ => S754_nan
    end.

(** [-std::numeric_limits<float>::infinity()] *)
Definition neg_infinity : Z := 4286578688.

(** The C++ operators [a > b] and [a <= b] on [float]. *)
Definition gt (a b : Z) : bool := SFltb (decode b) (decode a).
Definition le (a b : Z) : bool := SFleb (decode a) (decode b).

Definition is_nan (a : Z) : bool :=
  match decode a with S754_nan => true | _ => false end.

End Float32.

(* ===================================================================== *)
(** ** Sockets: the byte stream under the codec *)
(* ===================================================================== *)

Module Winsock.
Import Machine.

Definition SOCKET_ERROR : Z := -1.
Definition WSAECONNRESET : Z := 10054.

(** How the inbound stream ends once its bytes are used up: the peer
    shut the connection down, or the transport reports an error. *)
Inductive rx_end : Type :=
| PeerShutdown
| RxError (code : Z).

(** One connected stream socket.  [rx] holds the bytes the peer has sent
    and will send, [rx_chunk] bounds what one [recv] without
    [MSG_WAITALL] hands over, [tx] collects what has been sent,
    [tx_chunk] bounds what one [send] accepts, and [tx_error], when set,
    makes every [send] fail with that code. *)
Record Socket : Type := mkSocket {
  rx : list Z;
  rx_fin : rx_end;
  rx_chunk : positive;
  tx : list Z;
  tx_chunk : positive;
  tx_error : option Z;
  last_error : Z
}.

(** Lines written to [std::cerr] by the server, by the place that writes
    them. *)
Inductive log_line : Type :=
| LogSendU32Failed (context : string) (code : Z)
| LogSendU32Incomplete (context : string) (sent : Z)
| LogRecvU32Disconnected (context : string)
| LogRecvU32Failed (context : string) (code : Z)
| LogConnectionReset
| LogRecvU32Incomplete (context : string) (received : Z)
| LogSendFloatsFailed (context : string) (code : Z)
| LogRecvFloatsFailed (context : string) (code : Z)
| LogConnectionResetFloats
| LogRecvFloatsDisconnected (context : string)
| LogInvalidMatrixSize (size : Z)
| LogStartBeforeConfig
| LogStartWhileProcessing
| LogUnknownCommand (command : Z)
| LogDisconnecting.

(** What a session does, in program order. *)
Inductive event : Type :=
| EvRecv (len : Z) (waitall : bool) (ret : Z)
| EvSend (len : Z) (ret : Z)
| EvJoin
| EvSpawn
| EvLog (line : log_line)
| EvShutdown
| EvClose.

(** The surroundings of one session handler: its socket, for each worker
    run still to be started whether its copy will throw
    [std::bad_alloc], for each command still to be read whether a
    running worker completes before it, and the events so far. *)
Record World : Type := mkWorld {
  sock : Socket;
  faults : list bool;
  sched : list bool;
  trace : list event
}.

(** Computations on the world; [None] stands for no outcome: undefined
    behaviour, or a loop that does not end. *)
Definition M (A : Type) : Type := World -> option (A * World).

Definition ret {A} (a : A) : M A := fun w => Some (a, w).
Definition bind {A B} (c : M A) (k : A -> M B) : M B :=
  fun w => match c w with
           | None => None
           | Some (a, w') => k a w'
           end.
Definition undefined {A} : M A := fun _ => None.

Definition emit (e : event) : M unit :=
  fun w => Some (tt, mkWorld (sock w) (faults w) (sched w) (trace w ++ [e])).
Definition get_sock : M Socket := fun w => Some (sock w, w).
Definition put_sock (s : Socket) : M unit :=
  fun w => Some (tt, mkWorld s (faults w) (sched w) (trace w)).
Definition next_fault : M bool :=
  fun w => match faults w with
           | [] => Some (false, w)
           | b :: rest => Some (b, mkWorld (sock w) rest (sched w) (trace w))
           end.
Definition next_sched : M bool :=
  fun w => match sched w with
           | [] => Some (false, w)
           | b :: rest => Some (b, mkWorld (sock w) (faults w) rest (trace w))
           end.

Definition set_rx (bytes : list Z) (s : Socket) : Socket :=
  mkSocket bytes (rx_fin s) (rx_chunk s) (tx s) (tx_chunk s) (tx_error s) (last_error s).
Definition set_tx (bytes : list Z) (s : Socket) : Socket :=
  mkSocket (rx s) (rx_fin s) (rx_chunk s) bytes (tx_chunk s) (tx_error s) (last_error s).
Definition set_last_error (code : Z) (s : Socket) : Socket :=
  mkSocket (rx s) (rx_fin s) (rx_chunk s) (tx s) (tx_chunk s) (tx_error s) code.

Definition len (bytes : list Z) : Z := Z.of_nat (length bytes).

(** [recv(sock, buf, len, flags)] on the stream: the return value, the
    bytes written to [buf], and the socket afterwards.  With
    [MSG_WAITALL] the call returns [n] bytes unless the stream ends
    first; without it the call returns at least one byte and at most
    [rx_chunk]. *)
Definition recv_sock (n : Z) (waitall : bool) (s : Socket) : Z * list Z * Socket :=
  let k :=
    if waitall then Z.min n (len (rx s))
    else Z.min n (Z.min (len (rx s)) (Z.pos (rx_chunk s))) in
  if (0 <? n) && ((k =? 0) || (waitall && (k <? n))) then
    match rx_fin s with
    | PeerShutdown => (k, take (Z.to_nat k) (rx s), set_rx (drop (Z.to_nat k) (rx s)) s)
    | RxError code => (SOCKET_ERROR, [], set_last_error code s)
    end
  else (Z.max 0 k, take (Z.to_nat k) (rx s), set_rx (drop (Z.to_nat k) (rx s)) s).

(** [send(sock, buf, len, 0)]: the return value and the socket
    afterwards. *)
Definition send_sock (bytes : list Z) (s : Socket) : Z * Socket :=
  match tx_error s with
  | Some code => (SOCKET_ERROR, set_last_error code s)
  | None =>
      let k := Z.min (len bytes) (Z.pos (tx_chunk s)) in
      (k, set_tx (tx s ++ take (Z.to_nat k) bytes) s)
  end.

Definition recv (n : Z) (waitall : bool) : M (Z * list Z) :=
  bind get_sock (fun s =>
    let '(r, bytes, s') := recv_sock n waitall s in
    bind (put_sock s') (fun _ =>
    bind (emit (EvRecv n waitall r)) (fun _ => ret (r, bytes)))).

Definition send (bytes : list Z) : M Z :=
  bind get_sock (fun s =>
    let '(r, s') := send_sock bytes s in
    bind (put_sock s') (fun _ =>
    bind (emit (EvSend (len bytes) r)) (fun _ => ret r))).

Definition WSAGetLastError : M Z :=
  bind get_sock (fun s => ret (last_error s)).

Definition log (line : log_line) : M unit := emit (EvLog line).

(** *** Byte order *)

(** A 32-bit object in the memory of the little-endian host. *)
Definition host_store (v : Z) : list Z :=
  [v mod 256; (v / 256) mod 256; (v / 65536) mod 256; (v / 16777216) mod 256].

Definition host_load (bytes : list Z) : Z :=
  foldr (fun b acc => b + 256 * acc) 0 bytes.

(** [htonl] and [ntohl] swap the four bytes on this host. *)
Definition htonl (v : Z) : Z :=
  (v mod 256) * 16777216 + ((v / 256) mod 256) * 65536
  + ((v / 65536) mod 256) * 256 + (v / 16777216) mod 256.
Definition ntohl (v : Z) : Z := htonl v.

(** The big-endian reading of four bytes, and the big-endian bytes of a
    value: what the wire format prescribes. *)
Definition be_decode (b0 b1 b2 b3 : Z) : Z :=
  b0 * 16777216 + b1 * 65536 + b2 * 256 + b3.
Definition be_bytes (v : Z) : list Z :=
  [(v / 16777216) mod 256; (v / 65536) mod 256; (v / 256) mod 256; v mod 256].

(** A [std::vector<float>] seen through [reinterpret_cast<char*>]. *)
Definition bytes_of_floats (data : list Z) : list Z :=
  flat_map host_store data.

Fixpoint floats_of_bytes (bytes : list Z) : list Z :=
  match bytes with
  | b0 :: b1 :: b2 :: b3 :: rest => host_load [b0; b1; b2; b3] :: floats_of_bytes rest
  | _ => []
  end.

(** [data.resize(count)]: elements are kept, new ones are zero. *)
Definition resize (count : Z) (data : list Z) : list Z :=
  take (Z.to_nat count) data ++ replicate (Z.to_nat count - length data) 0.

Declare Scope session_scope.
Delimit Scope session_scope with session.
Notation "x <- c ;; k" := (bind c (fun x => k))
  (at level 100, c at next level, right associativity) : session_scope.
Notation "c ;; k" := (bind c (fun _ => k))
  (at level 100, right associativity) : session_scope.

End Winsock.

(* ===================================================================== *)
(** ** The server: session state and worker ([server.cpp]) *)
(* ===================================================================== *)

Module Server.
Import Machine Winsock.
Local Open Scope session_scope.

(** Protocol constants. *)
Definition CMD_CONFIG_DATA : Z := 1.
Definition CMD_START_COMP : Z := 2.
Definition CMD_GET_STATUS : Z := 3.
Definition RESP_ACK : Z := 10.
Definition RESP_STATUS_PENDING : Z := 11.
Definition RESP_RESULT : Z := 12.
Definition RESP_ERROR : Z := 13.

(** A [std::thread] handle.  The body of a worker thread is applied to
    the session at one point of the run: a handle that is [Running] has
    not yet had its effect, one that is [Finished] has; both are
    joinable.  [Running] records whether the copy at the start of the
    run will throw [std::bad_alloc]. *)
Inductive thread : Type :=
| NotJoinable
| Running (bad_alloc : bool)
| Finished.

Definition joinable (t : thread) : bool :=
  match t with NotJoinable => false | _ => true end.

(** [struct ClientState]; the socket is kept by the handler. *)
Record ClientState : Type := mkClientState {
  matrixSize : Z;
  numThreads : Z;
  matrixData : list Z;
  resultData : list Z;
  dataReceived : bool;
  processingStarted : bool;
  processingDone : bool;
  errorOccurred : bool;
  workerThread : thread
}.

Definition initial_state : ClientState :=
  {| matrixSize := 0; numThreads := 1; matrixData := []; resultData := [];
     dataReceived := false; processingStarted := false;
     processingDone := false; errorOccurred := false;
     workerThread := NotJoinable |}.

Definition set_matrixSize (v : Z) (s : ClientState) : ClientState :=
  mkClientState v (numThreads s) (matrixData s) (resultData s) (dataReceived s)
    (processingStarted s) (processingDone s) (errorOccurred s) (workerThread s).
Definition set_numThreads (v : Z) (s : ClientState) : ClientState :=
  mkClientState (matrixSize s) v (matrixData s) (resultData s) (dataReceived s)
    (processingStarted s) (processingDone s) (errorOccurred s) (workerThread s).
Definition set_matrixData (v : list Z) (s : ClientState) : ClientState :=
  mkClientState (matrixSize s) (numThreads s) v (resultData s) (dataReceived s)
    (processingStarted s) (processingDone s) (errorOccurred s) (workerThread s).
Definition set_resultData (v : list Z) (s : ClientState) : ClientState :=
  mkClientState (matrixSize s) (numThreads s) (matrixData s) v (dataReceived s)
    (processingStarted s) (processingDone s) (errorOccurred s) (workerThread s).
Definition set_dataReceived (v : bool) (s : ClientState) : ClientState :=
  mkClientState (matrixSize s) (numThreads s) (matrixData s) (resultData s) v
    (processingStarted s) (processingDone s) (errorOccurred s) (workerThread s).
Definition set_processingStarted (v : bool) (s : ClientState) : ClientState :=
  mkClientState (matrixSize s) (numThreads s) (matrixData s) (resultData s)
    (dataReceived s) v (processingDone s) (errorOccurred s) (workerThread s).
Definition set_processingDone (v : bool) (s : ClientState) : ClientState :=
  mkClientState (matrixSize s) (numThreads s) (matrixData s) (resultData s)
    (dataReceived s) (processingStarted s) v (errorOccurred s) (workerThread s).
Definition set_errorOccurred (v : bool) (s : ClientState) : ClientState :=
  mkClientState (matrixSize s) (numThreads s) (matrixData s) (resultData s)
    (dataReceived s) (processingStarted s) (processingDone s) v (workerThread s).
Definition set_workerThread (v : thread) (s : ClientState) : ClientState :=
  mkClientState (matrixSize s) (numThreads s) (matrixData s) (resultData s)
    (dataReceived s) (processingStarted s) (processingDone s) (errorOccurred s) v.

(* ------------------------------------------------------------------- *)
(** *** Matrix processing *)

(** The inner loop of [process_matrix_rows]: [n] iterations remain, the
    next column is [j].  Reading outside the vector is undefined
    behaviour, modelled by [None]. *)
Fixpoint row_max_loop (n : nat) (matrix : list Z) (rowStartIndex j maxVal : Z)
  : option Z :=
  match n with
  | O => Some maxVal
  | S n' =>
      match matrix !! Z.to_nat (to_size_t (rowStartIndex + j)) with
      | None => None
      | Some x =>
          row_max_loop n' matrix rowStartIndex (j + 1)
            (if Float32.gt x maxVal then x else maxVal)
      end
  end.

(** The outer loop: [n] rows remain, the next row is [i]. *)
Fixpoint process_rows_loop (n : nat) (matrix : list Z) (size i : Z)
  : option (list Z) :=
  match n with
  | O => Some matrix
  | S n' =>
      let rowStartIndex := to_size_t (to_size_t i * size) in
      match row_max_loop (Z.to_nat size) matrix rowStartIndex 0 Float32.neg_infinity with
      | None => None
      | Some maxVal =>
          if to_u32 i <? size then
            let idx := Z.to_nat (to_size_t (rowStartIndex + to_size_t i)) in
            if (idx <? length matrix)%nat
            then process_rows_loop n' (<[idx := maxVal]> matrix) size (i + 1)
            else None
          else process_rows_loop n' matrix size (i + 1)
      end
  end.

Definition process_matrix_rows (matrix : list Z) (size startRow endRow : Z)
  : option (list Z) :=
  process_rows_loop (Z.to_nat (endRow - startRow)) matrix size startRow.

(** The spawning loop of [perform_computation]: [n] iterations remain,
    the counter is [i]; [workers] collects the row ranges handed to
    [std::thread], in spawning order. *)
Fixpoint spawn_loop (n : nat) (i size rowsPerThread extraRows startRow : Z)
    (workers : list (Z * Z)) : list (Z * Z) :=
  match n with
  | O => workers
  | S n' =>
      let rowsForThisThread :=
        to_i32 (rowsPerThread + (if to_u32 i <? to_u32 extraRows then 1 else 0)) in
      if (rowsForThisThread >? 0) && (to_u32 startRow <? size) then
        let endRow := to_i32 (Z.min (to_u32 (startRow + rowsForThisThread)) size) in
        spawn_loop n' (i + 1) size rowsPerThread extraRows endRow
          (workers ++ [(startRow, endRow)])
      else
        spawn_loop n' (i + 1) size rowsPerThread extraRows startRow workers
  end.

Definition threads_to_use (numThreads : Z) : Z := Z.max 1 numThreads.

Definition spawn_workers (size numThreads : Z) : list (Z * Z) :=
  let threads := threads_to_use numThreads in
  let rowsPerThread := to_i32 (size / threads) in
  let extraRows := to_i32 (size mod threads) in
  spawn_loop (Z.to_nat threads) 0 size rowsPerThread extraRows 0 [].

(** The row tasks run on the shared result buffer.  They are applied one
    after the other in spawning order (no task touches a row of another;
    [row_order_irrelevant] below shows that the order in which the rows
    are taken does not change the outcome); undefined behaviour in one
    of them is undefined behaviour of the run. *)
Fixpoint run_workers (workers : list (Z * Z)) (size : Z) (matrix : list Z)
  : option (list Z) :=
  match workers with
  | [] => Some matrix
  | (startRow, endRow) :: rest =>
      match process_matrix_rows matrix size startRow endRow with
      | None => None
      | Some matrix' => run_workers rest size matrix'
      end
  end.

(** [perform_computation].  Both branches of the size test leave
    [resultData] equal to [matrixData].  [bad_alloc] says whether that
    copy throws; the handlers then set the failure flags.  A failure to
    create a thread is outside the model. *)
Definition perform_computation (bad_alloc : bool) (state : ClientState)
  : option ClientState :=
  if bad_alloc then
    Some (set_processingStarted false
           (set_processingDone false (set_errorOccurred true state)))
  else
    let state1 :=
      if (length (resultData state) =? length (matrixData state))%nat
      then set_resultData (matrixData state) state
      else set_resultData (matrixData state) state in
    let size := matrixSize state1 in
    let workers := spawn_workers size (numThreads state1) in
    match run_workers workers size (resultData state1) with
    | None => None
    | Some result =>
        Some (set_processingStarted false
               (set_errorOccurred false
                 (set_processingDone true (set_resultData result state1))))
    end.

(* ------------------------------------------------------------------- *)
(** *** Network helpers *)

Definition send_uint32 (value : Z) (context : string) : M bool :=
  let netValue := htonl value in
  bytesSent <- send (host_store netValue) ;;
  if bytesSent =? SOCKET_ERROR then
    error_code <- WSAGetLastError ;;
    log (LogSendU32Failed context error_code) ;;
    ret false
  else if negb (bytesSent =? 4) then
    log (LogSendU32Incomplete context bytesSent) ;;
    ret false
  else ret true.

(** [recv_uint32(sock, value, context)]: [value] is passed by reference
    and [recv] writes into it, so the result carries the new content of
    [value] next to the returned [bool]. *)
Definition recv_uint32 (value : Z) (context : string) : M (bool * Z) :=
  r <- recv 4 true ;;
  let '(bytesReceived, bytes) := r in
  let value := host_load (bytes ++ drop (length bytes) (host_store value)) in
  if bytesReceived =? 4 then ret (true, ntohl value)
  else if bytesReceived =? 0 then
    log (LogRecvU32Disconnected context) ;;
    ret (false, value)
  else if bytesReceived =? SOCKET_ERROR then
    error_code <- WSAGetLastError ;;
    log (LogRecvU32Failed context error_code) ;;
    (if error_code =? WSAECONNRESET then log LogConnectionReset else ret tt) ;;
    ret (false, value)
  else
    log (LogRecvU32Incomplete context bytesReceived) ;;
    ret (false, value).

(** The loop of [send_floats]; a loop that makes no progress has no
    outcome. *)
Fixpoint send_floats_loop (fuel : nat) (buffer : list Z) (totalBytes bytesSent : Z)
    (context : string) : M bool :=
  if bytesSent <? totalBytes then
    match fuel with
    | O => undefined
    | S fuel' =>
        result <- send (take (Z.to_nat (to_i32 (totalBytes - bytesSent)))
                          (drop (Z.to_nat bytesSent) buffer)) ;;
        if result =? SOCKET_ERROR then
          error_code <- WSAGetLastError ;;
          log (LogSendFloatsFailed context error_code) ;;
          ret false
        else
          send_floats_loop fuel' buffer totalBytes (to_size_t (bytesSent + result)) context
    end
  else ret true.

Definition send_floats (data : list Z) (context : string) : M bool :=
  let totalBytes := to_size_t (len data * 4) in
  if totalBytes =? 0 then ret true
  else send_floats_loop (Z.to_nat totalBytes) (bytes_of_floats data) totalBytes 0 context.

(** The loop of [recv_floats]; [received] is the part of the buffer
    already filled. *)
Fixpoint recv_floats_loop (fuel : nat) (received : list Z) (totalBytes bytesReceived : Z)
    (context : string) : M (bool * list Z) :=
  if bytesReceived <? totalBytes then
    match fuel with
    | O => undefined
    | S fuel' =>
        r <- recv (to_i32 (totalBytes - bytesReceived)) false ;;
        let '(result, bytes) := r in
        if result =? SOCKET_ERROR then
          error_code <- WSAGetLastError ;;
          log (LogRecvFloatsFailed context error_code) ;;
          (if error_code =? WSAECONNRESET then log LogConnectionResetFloats else ret tt) ;;
          ret (false, received)
        else if result =? 0 then
          log (LogRecvFloatsDisconnected context) ;;
          ret (false, received)
        else
          recv_floats_loop fuel' (received ++ bytes) totalBytes
            (to_size_t (bytesReceived + result)) context
    end
  else ret (true, received).

(** [recv_floats(sock, data, count, context)]: the returned list is the
    content of [data] afterwards. *)
Definition recv_floats (data : list Z) (count : Z) (context : string)
  : M (bool * list Z) :=
  if count =? 0 then ret (true, [])
  else
    let data := resize count data in
    let totalBytes := to_size_t (count * 4) in
    let buffer := bytes_of_floats data in
    r <- recv_floats_loop (Z.to_nat totalBytes) [] totalBytes 0 context ;;
    let '(ok, received) := r in
    ret (ok, floats_of_bytes (received ++ drop (length received) buffer)).

(* ------------------------------------------------------------------- *)
(** *** Client handler *)

(** [if (state.workerThread.joinable()) state.workerThread.join();]
    Joining a worker that has not completed waits for its run. *)
Definition join_worker (state : ClientState) : M ClientState :=
  match workerThread state with
  | NotJoinable => ret state
  | Finished => emit EvJoin ;; ret (set_workerThread NotJoinable state)
  | Running bad_alloc =>
      emit EvJoin ;;
      match perform_computation bad_alloc state with
      | None => undefined
      | Some state' => ret (set_workerThread NotJoinable state')
      end
  end.

(** A running worker completes on its own. *)
Definition worker_finish (state : ClientState) : M ClientState :=
  match workerThread state with
  | Running bad_alloc =>
      match perform_computation bad_alloc state with
      | None => undefined
      | Some state' => ret (set_workerThread Finished state')
      end
  | _ => ret state
  end.

(** [case CMD_CONFIG_DATA]; the [bool] is [keep_connection]. *)
Definition handle_config (state : ClientState) : M (ClientState * bool) :=
  r <- recv_uint32 (matrixSize state) "recv matrix size" ;;
  let '(ok1, size) := r in
  let state := set_matrixSize size state in
  if negb ok1 then ret (state, false) else
  r <- recv_uint32 (numThreads state) "recv num threads" ;;
  let '(ok2, threads) := r in
  let state := set_numThreads threads state in
  if negb ok2 then ret (state, false) else
  if (matrixSize state =? 0) || (matrixSize state >? 3000) then
    log (LogInvalidMatrixSize (matrixSize state)) ;;
    _ <- send_uint32 RESP_ERROR "send invalid size error" ;;
    ret (state, false)
  else
    let dataSize := to_size_t (to_size_t (matrixSize state) * matrixSize state) in
    r <- recv_floats (matrixData state) dataSize "recv matrix data" ;;
    let '(ok3, data) := r in
    let state := set_matrixData data state in
    if negb ok3 then ret (state, false) else
    let state := set_dataReceived true state in
    let state := set_processingStarted false state in
    let state := set_processingDone false state in
    let state := set_errorOccurred false state in
    state <- join_worker state ;;
    ok <- send_uint32 RESP_ACK "send config ACK" ;;
    ret (state, ok).

(** [case CMD_START_COMP] *)
Definition handle_start (state : ClientState) : M (ClientState * bool) :=
  if negb (dataReceived state) then
    log LogStartBeforeConfig ;;
    ok <- send_uint32 RESP_ERROR "send start-before-config error" ;;
    ret (state, ok)
  else if processingStarted state then
    log LogStartWhileProcessing ;;
    ok <- send_uint32 RESP_ACK "send duplicate start ACK" ;;
    ret (state, ok)
  else
    state <- join_worker state ;;
    let state := set_processingStarted true state in
    let state := set_processingDone false state in
    let state := set_errorOccurred false state in
    bad_alloc <- next_fault ;;
    emit EvSpawn ;;
    let state := set_workerThread (Running bad_alloc) state in
    ok <- send_uint32 RESP_ACK "send start ACK" ;;
    ret (state, ok).

(** [case CMD_GET_STATUS] *)
Definition handle_status (state : ClientState) : M (ClientState * bool) :=
  let '(response_code, send_data) :=
    if errorOccurred state then (RESP_ERROR, false)
    else if processingDone state then (RESP_RESULT, true)
    else if processingStarted state then (RESP_STATUS_PENDING, false)
    else (RESP_ERROR, false) in
  ok <- send_uint32 response_code "send status response" ;;
  if negb ok then ret (state, false) else
  if send_data then
    ok1 <- send_uint32 (matrixSize state) "send result size" ;;
    if negb ok1 then ret (state, false) else
    ok2 <- send_floats (resultData state) "send result data" ;;
    if negb ok2 then ret (state, false) else
    ret (state, true)
  else ret (state, true).

(** [default:] *)
Definition handle_unknown (command : Z) (state : ClientState) : M (ClientState * bool) :=
  log (LogUnknownCommand command) ;;
  ok <- send_uint32 RESP_ERROR "send unknown command error" ;;
  ret (state, ok).

(** The [switch (command)]. *)
Definition dispatch (command : Z) (state : ClientState) : M (ClientState * bool) :=
  if command =? CMD_CONFIG_DATA then handle_config state
  else if command =? CMD_START_COMP then handle_start state
  else if command =? CMD_GET_STATUS then handle_status state
  else handle_unknown command state.

(** One turn of [while (keep_connection)].  The local [command] is not
    initialised; its content before the read is taken as 0 and is never
    used when the read fails. *)
Definition handle_command (state : ClientState) : M (ClientState * bool) :=
  r <- recv_uint32 0 "waiting for command" ;;
  let '(ok, command) := r in
  if negb ok then ret (state, false)
  else dispatch command state.

(** Before a command is read, a running worker may complete. *)
Definition worker_progress (state : ClientState) : M ClientState :=
  b <- next_sched ;;
  if b then worker_finish state else ret state.

Fixpoint handle_client_loop (fuel : nat) (state : ClientState) : M ClientState :=
  match fuel with
  | O => undefined
  | S fuel' =>
      state <- worker_progress state ;;
      r <- handle_command state ;;
      let '(state, keep_connection) := r in
      if keep_connection then handle_client_loop fuel' state else ret state
  end.

(** [handle_client]: the loop, then the cleanup; [state] is destroyed
    when the function returns, and its destructor joins the worker.
    Every turn that goes on to another has taken four bytes off the
    stream, which bounds the number of turns. *)
Definition handle_client : M ClientState :=
  s <- get_sock ;;
  state <- handle_client_loop (S (length (rx s))) initial_state ;;
  log LogDisconnecting ;;
  emit EvShutdown ;;
  emit EvClose ;;
  join_worker state.

(** Scenario: N = 3, T = 2 on [[1,2,3],[4,5,6],[7,8,9]]. *)
Definition f1 : Z := 1065353216.
Definition f2 : Z := 1073741824.
Definition f3 : Z := 1077936128.
Definition f4 : Z := 1082130432.
Definition f5 : Z := 1084227584.
Definition f6 : Z := 1086324736.
Definition f7 : Z := 1088421888.
Definition f8 : Z := 1090519040.
Definition f9 : Z := 1091567616.

Definition configured (n t : Z) (data : list Z) : ClientState :=
  set_dataReceived true
    (set_matrixData data (set_numThreads t (set_matrixSize n initial_state))).

(* ------------------------------------------------------------------- *)
(** *** The listener *)

Definition WSAEINTR : Z := 10004.
Definition WSAEMFILE : Z := 10024.
Definition WSAECONNABORTED : Z := 10053.
Definition WSAENOBUFS : Z := 10055.

(** What the calls before the accept loop return: [WSAStartup],
    whether [socket] returns a socket, [bind] and [listen]. *)
Record Startup : Type := mkStartup {
  WSAStartup : Z;
  socket_valid : bool;
  bind_result : Z;
  listen_result : Z
}.

(** One return of [accept]: a client socket, with whether a
    [std::thread] can be created for it, or [INVALID_SOCKET] with the
    error code. *)
Inductive accept_result : Type :=
| Accepted (clientSocket : Z) (thread_created : bool)
| AcceptError (error_code : Z).

(** What [main] does to sockets and threads. *)
Inductive main_event : Type :=
| Detached (clientSocket : Z)
| ClosedClient (clientSocket : Z)
| Paused
| ClosedListener
| Cleanup.

(** [main] has returned a code, or it is in [accept]. *)
Inductive main_outcome : Type :=
| Returned (code : Z)
| InAccept.

Definition retried (error_code : Z) : bool :=
  (error_code =? WSAEINTR) || (error_code =? WSAECONNABORTED)
  || (error_code =? WSAEMFILE) || (error_code =? WSAENOBUFS).

(** The [while (true)] of [main] on the returns of [accept] in
    [accepts]; the [bool] says whether the loop was left by [break]. *)
Fixpoint accept_loop (accepts : list accept_result) : list main_event * bool :=
  match accepts with
  | [] => ([], false)
  | Accepted clientSocket thread_created :: rest =>
      let '(events, broke) := accept_loop rest in
      ((if thread_created then Detached clientSocket else ClosedClient clientSocket)
         :: events, broke)
  | AcceptError error_code :: rest =>
      if retried error_code then
        let '(events, broke) := accept_loop rest in (Paused :: events, broke)
      else ([], true)
  end.

Definition main (env : Startup) (accepts : list accept_result)
  : list main_event * main_outcome :=
  if negb (WSAStartup env =? 0) then ([], Returned 1)
  else if negb (socket_valid env) then ([Cleanup], Returned 1)
  else if bind_result env =? SOCKET_ERROR then ([ClosedListener; Cleanup], Returned 1)
  else if listen_result env =? SOCKET_ERROR then ([ClosedListener; Cleanup], Returned 1)
  else
    let '(events, broke) := accept_loop accepts in
    if broke then (events ++ [ClosedListener; Cleanup], Returned 0)
    else (events, InAccept).

End Server.

(* ===================================================================== *)
(** ** The client ([client/main.cpp]) *)
(* ===================================================================== *)

Module Client.
Import Machine Winsock.
Local Open Scope session_scope.

Definition LOG_PREFIX : string := "[Client] ".
Definition DEFAULT_MATRIX_SIZE : Z := 5.
Definition DEFAULT_NUM_THREADS : Z := 2.

(** A call either returns or throws [std::runtime_error(what)]. *)
Inductive result (A : Type) : Type :=
| Returns (a : A)
| Throws (what : string).
Arguments Returns {A} a.
Arguments Throws {A} what.

(** [std::to_string] on an integer. *)
Definition to_string (z : Z) : string :=
  DecimalString.NilZero.string_of_int (Z.to_int z).

Section SystemMessages.

(** [FormatMessageA]: the system's text for an error code, if any. *)
Variable FormatMessage : Z -> option string.

Definition GetWSAErrorStringClient (errorCode : Z) : string :=
  let msg := match FormatMessage errorCode with
             | Some s => s
             | None => "Unknown error"%string
             end in
  (msg ++ " (" ++ to_string errorCode ++ ")")%string.

Definition recv_uint32_or_throw (context : string) : M (result Z) :=
  r <- recv 4 true ;;
  let '(bytesReceived, bytes) := r in
  let value := host_load (bytes ++ drop (length bytes) (host_store 0)) in
  if bytesReceived =? 4 then ret (Returns (ntohl value))
  else if bytesReceived =? 0 then
    ret (Throws (LOG_PREFIX ++ "recv_uint32 (" ++ context
                   ++ "): Server disconnected gracefully.")%string)
  else if bytesReceived =? SOCKET_ERROR then
    error_code <- WSAGetLastError ;;
    ret (Throws (LOG_PREFIX ++ "recv_uint32 failed (" ++ context ++ "): "
                   ++ GetWSAErrorStringClient error_code)%string)
  else
    ret (Throws (LOG_PREFIX ++ "recv_uint32 received incomplete data (" ++ context
                   ++ "): " ++ to_string bytesReceived ++ "/" ++ to_string 4)%string).

End SystemMessages.

(** *** Command line *)

(** [unsigned long] has 32 bits on the Windows target. *)
Definition ULONG_MAX : Z := 4294967295.

Inductive stoul_result : Type :=
| invalid_argument
| out_of_range
| converted (v : Z).

Definition isspace (c : ascii) : bool :=
  let n := Z.of_nat (nat_of_ascii c) in
  (n =? 32) || ((9 <=? n) && (n <=? 13)).

Definition digit_value (c : ascii) : option Z :=
  let n := Z.of_nat (nat_of_ascii c) in
  if (48 <=? n) && (n <=? 57) then Some (n - 48) else None.

Fixpoint skip_space (s : string) : string :=
  match s with
  | String c rest => if isspace c then skip_space rest else s
  | EmptyString => s
  end.

(** The decimal digits at the front of [s]: their value, or [None] when
    there is none. *)
Fixpoint read_digits (s : string) (acc : option Z) : option Z :=
  match s with
  | String c rest =>
      match digit_value c with
      | Some d => read_digits rest (Some (10 * default 0 acc + d))
      | None => acc
      end
  | EmptyString => acc
  end.

(** [std::stoul(str)]: [strtoul] in base 10 with its two exceptions. *)
Definition stoul (str : string) : stoul_result :=
  let s := skip_space str in
  let '(negative, s) :=
    match s with
    | String "-"%char rest => (true, rest)
    | String "+"%char rest => (false, rest)
    | _ => (false, s)
    end in
  match read_digits s None with
  | None => invalid_argument
  | Some v =>
      if v >? ULONG_MAX then out_of_range
      else converted (if negative then (- v) mod (ULONG_MAX + 1) else v)
  end.

(** The head of [main]: [matrixSize] and [numThreads] from [argv]. *)
Definition main_args (argv : list string) : Z * Z :=
  let argc := Z.of_nat (length argv) in
  let matrixSize := DEFAULT_MATRIX_SIZE in
  let numThreads := DEFAULT_NUM_THREADS in
  let matrixSize :=
    if argc >? 1 then
      match stoul (nth 1 argv ""%string) with
      | converted v => to_u32 v
      | _ => matrixSize
      end
    else matrixSize in
  let numThreads :=
    if argc >? 2 then
      match stoul (nth 2 argv ""%string) with
      | converted v => to_u32 v
      | _ => numThreads
      end
    else numThreads in
  let matrixSize :=
    if (matrixSize =? 0) || (matrixSize >? 5000) then DEFAULT_MATRIX_SIZE
    else matrixSize in
  let numThreads :=
    if (numThreads =? 0) || (numThreads >? 128) then DEFAULT_NUM_THREADS
    else numThreads in
  (matrixSize, numThreads).

(* ------------------------------------------------------------------- *)
(** *** The exchange with the server *)

Definition CMD_CONFIG_DATA : Z := 1.
Definition CMD_START_COMP : Z := 2.
Definition CMD_GET_STATUS : Z := 3.
Definition RESP_ACK : Z := 10.
Definition RESP_STATUS_PENDING : Z := 11.
Definition RESP_RESULT : Z := 12.
Definition RESP_ERROR : Z := 13.

(** Calls that may throw, in sequence: the first exception ends the
    sequence. *)
Definition throw {A} (what : string) : M (result A) := ret (Throws what).

Definition try_bind {A B} (c : M (result A)) (k : A -> M (result B)) : M (result B) :=
  r <- c ;;
  match r with
  | Returns a => k a
  | Throws what => ret (Throws what)
  end.

Notation "x <-! c ;; k" := (try_bind c (fun x => k))
  (at level 100, c at next level, right associativity) : session_scope.

(** What [print_matrix] writes to the console, piece by piece: the
    title line, the note for an empty matrix, a cell formatted with
    ["%8.2f "], the text [" Error "], the dots after a cut row, the end
    of a line, the line of dots after the last row, and the closing
    rule. *)
Inductive printed : Type :=
| Title (title : string) (size : Z)
| EmptyMatrix
| Cell (x : Z)
| ErrorCell
| Dots
| EndLine
| DotsLine
| Rule.

Definition print_limit : Z := 10.

(** The inner loop of [print_matrix]: [n] columns remain, the next is
    [j]. *)
Fixpoint print_columns (n : nat) (matrix : list Z) (size i j : Z) : list printed :=
  match n with
  | O => []
  | S n' =>
      let index := to_size_t (to_size_t i * size + j) in
      (if index <? len matrix then Cell (nth (Z.to_nat index) matrix 0) else ErrorCell)
        :: print_columns n' matrix size i (to_u32 (j + 1))
  end.

(** The outer loop: [n] rows remain, the next is [i]. *)
Fixpoint print_rows (n : nat) (matrix : list Z) (size i : Z) : list printed :=
  match n with
  | O => []
  | S n' =>
      print_columns (Z.to_nat (Z.min size print_limit)) matrix size i 0
      ++ (if size >? print_limit then [Dots] else [])
      ++ [EndLine]
      ++ print_rows n' matrix size (to_u32 (i + 1))
  end.

Definition print_matrix (matrix : list Z) (size : Z) (title : string) : list printed :=
  Title title size
    :: (if (size =? 0) || (len matrix =? 0) then [EmptyMatrix]
        else
          print_rows (Z.to_nat (Z.min size print_limit)) matrix size 0
          ++ (if size >? print_limit then [DotsLine] else [])
          ++ [Rule]).

Section Exchange.

Variable FormatMessage : Z -> option string.

(** The values [distrib(gen)] returns, in the order of the calls. *)
Variable draw : nat -> Z.

Definition send_uint32_or_throw (value : Z) (context : string) : M (result unit) :=
  let netValue := htonl value in
  bytesSent <- send (host_store netValue) ;;
  if bytesSent =? SOCKET_ERROR then
    error_code <- WSAGetLastError ;;
    throw (LOG_PREFIX ++ "send_uint32 failed (" ++ context ++ "): "
             ++ GetWSAErrorStringClient FormatMessage error_code)%string
  else if negb (bytesSent =? 4) then
    throw (LOG_PREFIX ++ "send_uint32 sent incomplete data (" ++ context ++ "): "
             ++ to_string bytesSent ++ "/" ++ to_string 4)%string
  else ret (Returns tt).

(** The loop of [send_floats_or_throw]. *)
Fixpoint send_floats_or_throw_loop (fuel : nat) (buffer : list Z)
    (totalBytes bytesSent : Z) (context : string) : M (result unit) :=
  if bytesSent <? totalBytes then
    match fuel with
    | O => undefined
    | S fuel' =>
        result <- send (take (Z.to_nat (to_i32 (totalBytes - bytesSent)))
                          (drop (Z.to_nat bytesSent) buffer)) ;;
        if result =? SOCKET_ERROR then
          error_code <- WSAGetLastError ;;
          throw (LOG_PREFIX ++ "send_floats failed (" ++ context ++ "): "
                   ++ GetWSAErrorStringClient FormatMessage error_code)%string
        else
          send_floats_or_throw_loop fuel' buffer totalBytes
            (to_size_t (bytesSent + result)) context
    end
  else ret (Returns tt).

Definition send_floats_or_throw (data : list Z) (context : string) : M (result unit) :=
  let totalBytes := to_size_t (len data * 4) in
  if totalBytes =? 0 then ret (Returns tt)
  else send_floats_or_throw_loop (Z.to_nat totalBytes) (bytes_of_floats data)
         totalBytes 0 context.

(** The loop of [recv_floats_or_throw]; [received] is the part of the
    buffer already filled. *)
Fixpoint recv_floats_or_throw_loop (fuel : nat) (received : list Z)
    (totalBytes bytesReceived : Z) (context : string) : M (result (list Z)) :=
  if bytesReceived <? totalBytes then
    match fuel with
    | O => undefined
    | S fuel' =>
        r <- recv (to_i32 (totalBytes - bytesReceived)) false ;;
        let '(result, bytes) := r in
        if result =? SOCKET_ERROR then
          error_code <- WSAGetLastError ;;
          throw (LOG_PREFIX ++ "recv_floats failed (" ++ context ++ "): "
                   ++ GetWSAErrorStringClient FormatMessage error_code)%string
        else if result =? 0 then
          throw (LOG_PREFIX ++ "recv_floats (" ++ context
                   ++ "): Server disconnected before all data received ("
                   ++ to_string bytesReceived ++ "/" ++ to_string totalBytes ++ ").")%string
        else
          recv_floats_or_throw_loop fuel' (received ++ bytes) totalBytes
            (to_size_t (bytesReceived + result)) context
    end
  else ret (Returns received).

(** [recv_floats_or_throw(sock, data, count, context)]: what it returns
    is the content of [data] afterwards. *)
Definition recv_floats_or_throw (data : list Z) (count : Z) (context : string)
  : M (result (list Z)) :=
  if count =? 0 then ret (Returns [])
  else
    let data := resize count data in
    let totalBytes := to_size_t (count * 4) in
    let buffer := bytes_of_floats data in
    received <-! recv_floats_or_throw_loop (Z.to_nat totalBytes) [] totalBytes 0 context ;;
    ret (Returns (floats_of_bytes (received ++ drop (length received) buffer))).

(** [generate_random_matrix(matrix, size)]: the content of [matrix]
    afterwards. *)
Definition generate_random_matrix (size : Z) : list Z :=
  if size =? 0 then []
  else draw <$> seq 0 (Z.to_nat (to_size_t (to_size_t size * size))).

Definition max_poll_attempts : Z := 120.

(** What the polling loop has when it is left: [result_received],
    [resultSize] and [resultMatrix]. *)
Definition polled : Type := bool * Z * list Z.

(** The polling loop of [main].  The pause after a pending reply does
    nothing to the connection. *)
Fixpoint poll_loop (fuel : nat) (result_received : bool) (resultSize : Z)
    (resultMatrix : list Z) (poll_attempts : Z) : M (result polled) :=
  if negb result_received && (poll_attempts <? max_poll_attempts) then
    match fuel with
    | O => undefined
    | S fuel' =>
        let poll_attempts := to_i32 (poll_attempts + 1) in
        _ <-! send_uint32_or_throw CMD_GET_STATUS "send command status" ;;
        response <-! recv_uint32_or_throw FormatMessage "recv status response" ;;
        if response =? RESP_RESULT then
          resultSize <-! recv_uint32_or_throw FormatMessage "recv result size" ;;
          if (resultSize >? 0)
             && (to_size_t (to_size_t resultSize * resultSize) <=? 100000000) then
            resultMatrix <-! recv_floats_or_throw resultMatrix
                               (to_size_t (to_size_t resultSize * resultSize))
                               "recv result data" ;;
            poll_loop fuel' true resultSize resultMatrix poll_attempts
          else if resultSize =? 0 then
            poll_loop fuel' true resultSize [] poll_attempts
          else
            throw (LOG_PREFIX ++ "Received implausible result matrix size: "
                     ++ to_string resultSize)%string
        else if response =? RESP_STATUS_PENDING then
          poll_loop fuel' result_received resultSize resultMatrix poll_attempts
        else if response =? RESP_ERROR then
          throw (LOG_PREFIX ++ "Server reported an error during processing.")%string
        else
          throw (LOG_PREFIX ++ "Received unexpected status response: "
                   ++ to_string response)%string
    end
  else ret (Returns (result_received, resultSize, resultMatrix)).

(** The [try] block of [main] from [generate_random_matrix] on.  What
    goes to the console ([print_matrix], the progress lines) is not part
    of the world. *)
Definition exchange (matrixSize numThreads : Z) : M (result polled) :=
  let originalMatrix := generate_random_matrix matrixSize in
  _ <-! send_uint32_or_throw CMD_CONFIG_DATA "send command config" ;;
  _ <-! send_uint32_or_throw matrixSize "send matrix size" ;;
  _ <-! send_uint32_or_throw numThreads "send num threads" ;;
  _ <-! send_floats_or_throw originalMatrix "send matrix data" ;;
  response <-! recv_uint32_or_throw FormatMessage "recv config ack" ;;
  if negb (response =? RESP_ACK) then
    throw (LOG_PREFIX ++ "Server did not ACK config. Response: " ++ to_string response)%string
  else
  _ <-! send_uint32_or_throw CMD_START_COMP "send command start" ;;
  response <-! recv_uint32_or_throw FormatMessage "recv start ack" ;;
  if negb (response =? RESP_ACK) then
    throw (LOG_PREFIX ++ "Server did not ACK start. Response: " ++ to_string response)%string
  else
  poll_loop (Z.to_nat max_poll_attempts) false 0 [] 0.

(** What the calls before the exchange return: [WSAStartup], [socket]
    (the error code when it returns [INVALID_SOCKET]), [inet_pton] and
    [connect] (the error code when it fails). *)
Record Startup : Type := mkStartup {
  WSAStartup : Z;
  socket_error : option Z;
  inet_pton : Z;
  connect_error : option Z
}.

(** The [try] block of [main]; the [bool] says whether [connectSocket]
    holds a socket when the block is left. *)
Definition try_block (env : Startup) (matrixSize numThreads : Z)
  : M (bool * result polled) :=
  if negb (WSAStartup env =? 0) then
    ret (false, Throws (LOG_PREFIX ++ "WSAStartup failed: " ++ to_string (WSAStartup env))%string)
  else
    match socket_error env with
    | Some code =>
        ret (false, Throws (LOG_PREFIX ++ "Socket creation failed: "
                              ++ GetWSAErrorStringClient FormatMessage code)%string)
    | None =>
        if inet_pton env <=? 0 then
          emit EvClose ;;
          ret (true, Throws (LOG_PREFIX ++ "Invalid server IP address format")%string)
        else
          match connect_error env with
          | Some error_code =>
              emit EvClose ;;
              ret (true, Throws (LOG_PREFIX ++ "Connect failed: "
                                   ++ GetWSAErrorStringClient FormatMessage error_code)%string)
          | None =>
              r <- exchange matrixSize numThreads ;;
              ret (true, r)
          end
    end.

(** [main]: the exit code. *)
Definition main (env : Startup) (argv : list string) : M Z :=
  let '(matrixSize, numThreads) := main_args argv in
  r <- try_block env matrixSize numThreads ;;
  let '(connected, outcome) := r in
  let exitCode :=
    match outcome with
    | Returns (true, _, _) => 0
    | _ => 1
    end in
  (if connected : bool then emit EvShutdown ;; emit EvClose else ret tt) ;;
  ret exitCode.

End Exchange.

End Client.


(* ===================================================================== *)
(** ** Vocabulary of the properties *)
(* ===================================================================== *)

Module Terms.
Import Machine Winsock Server.

(** Row [i] of a row-major square matrix of side [size], and its cell in
    column [j]. *)
Definition row (matrix : list Z) (size i : Z) : list Z :=
  take (Z.to_nat size) (drop (Z.to_nat (i * size)) matrix).

Definition cell (matrix : list Z) (size i j : Z) : option Z :=
  matrix !! Z.to_nat (i * size + j).

(** What the scan of [process_matrix_rows] leaves in [maxVal] after the
    cells [cells], started from [init]. *)
Definition scan_max (cells : list Z) (init : Z) : Z :=
  fold_left (fun maxVal x => if Float32.gt x maxVal then x else maxVal) cells init.

(** [v] is a maximum of [cells]: one of the cells, and no cell exceeds it. *)
Definition is_maximum_of (v : Z) (cells : list Z) : Prop :=
  v ∈ cells ∧ ∀ x, x ∈ cells → Float32.le x v = true.

Definition nan_free (cells : list Z) : Prop :=
  Forall (fun x => Float32.is_nan x = false) cells.

(** The cells of a buffer are 32-bit patterns. *)
Definition patterns (cells : list Z) : Prop :=
  Forall (fun x => 0 <= x < two32) cells.

(** A quiet NaN. *)
Definition quiet_nan : Z := 2143289344.

(** Row partition: with [q] rows per chunk and [r] chunks of one more,
    chunk [k] starts at row [chunk_start q r k]. *)
Definition chunk_start (q r k : Z) : Z := k * q + Z.min k r.

Definition chunk (q r k : Z) : Z * Z :=
  (chunk_start q r k, chunk_start q r (k + 1)).

(** The update of one row on a matrix of side [n]. *)
Definition fix_row (matrix : list Z) (n i : nat) : list Z :=
  <[(i * n + i)%nat := scan_max (take n (drop (i * n) matrix)) Float32.neg_infinity]> matrix.

(** [updated orig n lo hi m]: [m] is [orig] with the diagonal cells of the
    rows [lo <= r < hi] replaced by the scan of the row of [orig]. *)
Definition updated (orig : list Z) (n lo hi : nat) (m : list Z) : Prop :=
  length m = length orig /\
  forall r c, (r < n)%nat -> (c < n)%nat ->
    m !! (r * n + c)%nat
    = if decide ((lo <= r < hi)%nat /\ c = r)
      then Some (scan_max (take n (drop (r * n) orig)) Float32.neg_infinity)
      else orig !! (r * n + c)%nat.

(** The world after one [recv] that handed over [n] bytes, after one
    [send] that accepted all of [bytes], and after one log line. *)
Definition took (n : Z) (waitall : bool) (w : World) : World :=
  mkWorld (set_rx (drop (Z.to_nat n) (rx (sock w))) (sock w))
    (faults w) (sched w) (trace w ++ [EvRecv n waitall n]).

Definition gave (bytes : list Z) (w : World) : World :=
  mkWorld (set_tx (tx (sock w) ++ bytes) (sock w))
    (faults w) (sched w) (trace w ++ [EvSend (len bytes) (len bytes)]).

Definition noted (e : event) (w : World) : World :=
  mkWorld (sock w) (faults w) (sched w) (trace w ++ [e]).

(** Sends succeed and take at least four bytes at a time. *)
Definition tx_ready (w : World) : Prop :=
  tx_error (sock w) = None /\ 4 <= Z.pos (tx_chunk (sock w)).

Definition is_byte (b : Z) : Prop := 0 <= b < 256.

Definition is_send (e : event) : Prop :=
  match e with EvSend _ _ => True | _ => False end.

Definition is_recv (e : event) : Prop :=
  match e with EvRecv _ _ _ => True | _ => False end.

(** From [w] to [w'] the bytes [bytes] went out, in one or more [send]
    calls, and nothing else happened. *)
Definition sent_on (bytes : list Z) (w w' : World) : Prop :=
  sock w' = set_tx (tx (sock w) ++ bytes) (sock w)
  /\ faults w' = faults w /\ sched w' = sched w
  /\ exists evs, trace w' = trace w ++ evs /\ Forall is_send evs.

(** From [w] to [w'] the next [n] bytes of the stream were taken, in one
    or more [recv] calls, and nothing else happened. *)
Definition taken_from (n : nat) (w w' : World) : Prop :=
  sock w' = set_rx (drop n (rx (sock w))) (sock w)
  /\ faults w' = faults w /\ sched w' = sched w
  /\ exists evs, trace w' = trace w ++ evs /\ Forall is_recv evs.

(** The reply to a status poll, by the phase flags. *)
Definition status_reply (state : ClientState) : list Z :=
  if errorOccurred state then be_bytes RESP_ERROR
  else if processingDone state then
    be_bytes RESP_RESULT ++ be_bytes (matrixSize state)
    ++ bytes_of_floats (resultData state)
  else if processingStarted state then be_bytes RESP_STATUS_PENDING
  else be_bytes RESP_ERROR.

(** What holds of a session between two commands. *)
Definition consistent (state : ClientState) : Prop :=
  0 <= numThreads state < two32
  /\ (dataReceived state = true ->
      1 <= matrixSize state <= 3000
      /\ length (matrixData state)
         = Z.to_nat (matrixSize state * matrixSize state))
  /\ (processingDone state = true ->
      dataReceived state = true
      /\ length (resultData state) = length (matrixData state))
  /\ (forall bad_alloc, workerThread state = Running bad_alloc ->
      dataReceived state = true
      /\ processingStarted state = true
      /\ processingDone state = false).

(** A world whose peer sends [bytes] and then shuts the connection down. *)
Definition world_of (bytes : list Z) : World :=
  mkWorld (mkSocket bytes PeerShutdown 1460 [] 1460 None 0) [] [] [].

(** A session in state Done: the 1 x 1 matrix [[7.0]] has been processed. *)
Definition done_example : ClientState :=
  {| matrixSize := 1; numThreads := 1; matrixData := [f7]; resultData := [f7];
     dataReceived := true; processingStarted := false;
     processingDone := true; errorOccurred := false;
     workerThread := Finished |}.

(** [after] is [before] once its worker thread has been joined. *)
Definition after_join (before after : ClientState) : Prop :=
  matrixSize after = matrixSize before
  /\ numThreads after = numThreads before
  /\ matrixData after = matrixData before
  /\ dataReceived after = dataReceived before
  /\ workerThread after = NotJoinable
  /\ match workerThread before with
     | Running bad_alloc =>
         processingStarted after = false
         /\ processingDone after = negb bad_alloc
         /\ errorOccurred after = bad_alloc
         /\ (bad_alloc = false ->
             length (resultData after) = length (matrixData before))
     | _ =>
         processingStarted after = processingStarted before
         /\ processingDone after = processingDone before
         /\ errorOccurred after = errorOccurred before
         /\ resultData after = resultData before
     end.

(** The session once a CONFIG_DATA has been received, before the join. *)
Definition received (N T : Z) (data : list Z) (state : ClientState) : ClientState :=
  set_errorOccurred false
    (set_processingDone false
      (set_processingStarted false
        (set_dataReceived true
          (set_matrixData data (set_numThreads T (set_matrixSize N state)))))).

(** The session once a START_COMP has spawned a worker. *)
Definition started (bad_alloc : bool) (state : ClientState) : ClientState :=
  set_workerThread (Running bad_alloc)
    (set_errorOccurred false
      (set_processingDone false (set_processingStarted true state))).

Definition after_fault (w : World) : World :=
  mkWorld (sock w) (tail (faults w)) (sched w) (trace w).

(** The world after a [recv] that failed with [code]. *)
Definition failed_recv (n : Z) (waitall : bool) (code : Z) (w : World) : World :=
  mkWorld (set_last_error code (sock w)) (faults w) (sched w)
    (trace w ++ [EvRecv n waitall SOCKET_ERROR]).

(** [value] with its first bytes in memory overwritten by [bytes]. *)
Definition overwritten (value : Z) (bytes : list Z) : Z :=
  host_load (bytes ++ drop (length bytes) (host_store value)).

(** Why a four-byte read fails, in the words of the wire codec. *)
Inductive error_kind : Type :=
| PeerClosed
| TruncatedFrame
| TransportError.

(** The failure a stream with fewer than four bytes left will produce. *)
Definition stream_failure (w : World) : error_kind :=
  match rx_fin (sock w) with
  | RxError _ => TransportError
  | PeerShutdown =>
      match rx (sock w) with
      | [] => PeerClosed
      | _ => TruncatedFrame
      end
  end.

(** A world whose inbound stream holds [bytes] and then fails with
    [code]. *)
Definition world_failing (bytes : list Z) (code : Z) : World :=
  mkWorld (mkSocket bytes (RxError code) 1460 [] 1460 None 0) [] [] [].

(** What the client's [recv_uint32_or_throw] throws on a stream with
    fewer than four bytes left. *)
Definition client_what (FormatMessage : Z -> option string) (context : string)
    (w : World) : string :=
  match stream_failure w with
  | PeerClosed =>
      (Client.LOG_PREFIX ++ "recv_uint32 (" ++ context
         ++ "): Server disconnected gracefully.")%string
  | TransportError =>
      (Client.LOG_PREFIX ++ "recv_uint32 failed (" ++ context ++ "): "
         ++ Client.GetWSAErrorStringClient FormatMessage
              match rx_fin (sock w) with
              | RxError code => code
              | PeerShutdown => 0
              end)%string
  | TruncatedFrame =>
      (Client.LOG_PREFIX ++ "recv_uint32 received incomplete data ("
         ++ context ++ "): " ++ Client.to_string (len (rx (sock w)))
         ++ "/" ++ Client.to_string 4)%string
  end.

(** A session whose worker, started on [[7.0]], has not completed. *)
Definition running_example : ClientState :=
  started false (configured 1 1 [f7]).

(** [n] status polls in a row, and the frame that answers a poll of a
    session that is done. *)
Definition polls (n : nat) : list Z :=
  concat (replicate n (be_bytes CMD_GET_STATUS)).

Definition result_frame (state : ClientState) : list Z :=
  be_bytes RESP_RESULT ++ be_bytes (matrixSize state)
  ++ bytes_of_floats (resultData state).

Definition after_sched (w : World) : World :=
  mkWorld (sock w) (faults w) (tail (sched w)) (trace w).

(** Positional argument [k] of the command line as a number, when it is
    there and [std::stoul] converts it. *)
Definition arg_value (argv : list string) (k : nat) : option Z :=
  if (k <? length argv)%nat then
    match Client.stoul (nth k argv ""%string) with
    | Client.converted v => Some v
    | _ => None
    end
  else None.

(** The value the client uses: the argument when it lies in [1, bound],
    the default otherwise. *)
Definition effective (bound default : Z) (arg : option Z) : Z :=
  match arg with
  | Some v => if (1 <=? v) && (v <=? bound) then v else default
  | None => default
  end.


(** [process_matrix_rows] applied to single rows, in the order [rows]:
    the row steps of the worker threads as some schedule interleaves
    them. *)
Fixpoint run_rows (rows : list nat) (size : Z) (matrix : list Z) : option (list Z) :=
  match rows with
  | [] => Some matrix
  | i :: rest =>
      match process_matrix_rows matrix size (Z.of_nat i) (Z.of_nat i + 1) with
      | None => None
      | Some matrix' => run_rows rest size matrix'
      end
  end.

(** [m] is [orig] with the diagonal cells of the rows in [done] replaced
    by the scan of the row of [orig]. *)
Definition updated_in (orig : list Z) (n : nat) (done : list nat) (m : list Z) : Prop :=
  length m = length orig /\
  forall r c, (r < n)%nat -> (c < n)%nat ->
    m !! (r * n + c)%nat
    = if decide (r ∈ done /\ c = r)
      then Some (scan_max (take n (drop (r * n) orig)) Float32.neg_infinity)
      else orig !! (r * n + c)%nat.

(** The bytes of one whole client session on the 1 x 1 matrix [[7.0]]:
    CONFIG_DATA, START_COMP and two status polls. *)
Definition session_bytes : list Z :=
  be_bytes CMD_CONFIG_DATA ++ be_bytes 1 ++ be_bytes 1 ++ host_store f7
  ++ be_bytes CMD_START_COMP ++ be_bytes CMD_GET_STATUS ++ be_bytes CMD_GET_STATUS.

(** A world like [world_of] in which the worker completes before the
    command with the given number is read. *)
Definition world_scheduled (bytes : list Z) (completes_before : nat) : World :=
  mkWorld (mkSocket bytes PeerShutdown 1460 [] 1460 None 0) []
    (replicate completes_before false ++ [true]) [].

(** The frame of a CONFIG_DATA, the bytes a client sends in a session
    with [k] status polls, and the replies of a server whose result is
    ready after [pending] polls. *)
Definition config_frame (N T : Z) (data : list Z) : list Z :=
  be_bytes CMD_CONFIG_DATA ++ be_bytes N ++ be_bytes T ++ bytes_of_floats data.

Definition request_bytes (N T : Z) (data : list Z) (k : nat) : list Z :=
  config_frame N T data ++ be_bytes CMD_START_COMP ++ polls k.

Definition pendings (k : nat) : list Z :=
  concat (replicate k (be_bytes RESP_STATUS_PENDING)).

Definition reply_bytes (N : Z) (result : list Z) (pending : nat) : list Z :=
  be_bytes RESP_ACK ++ be_bytes RESP_ACK ++ pendings pending
  ++ be_bytes RESP_RESULT ++ be_bytes N ++ bytes_of_floats result.

(** A row-major matrix of side [n] with every diagonal cell replaced by
    the scan of its row. *)
Definition with_row_maxima (data : list Z) (n : nat) : list Z :=
  imap (fun idx x =>
          if decide (idx `mod` n = idx `div` n)%nat
          then scan_max (take n (drop (idx `div` n * n) data)) Float32.neg_infinity
          else x) data.

(** What the listener does with one return of [accept] that does not
    end it. *)
Definition handled (a : accept_result) : main_event :=
  match a with
  | Accepted clientSocket true => Detached clientSocket
  | Accepted clientSocket false => ClosedClient clientSocket
  | AcceptError _ => Paused
  end.

(** A return of [accept] after which the listener goes on. *)
Definition survivable (a : accept_result) : Prop :=
  match a with
  | Accepted _ _ => True
  | AcceptError error_code => retried error_code = true
  end.

(** The startup calls of the server's [main] all succeed. *)
Definition listening (env : Server.Startup) : Prop :=
  Server.WSAStartup env = 0 /\ socket_valid env = true
  /\ bind_result env <> SOCKET_ERROR /\ listen_result env <> SOCKET_ERROR.

(** The value of a decimal numeral read from the left, started from
    [acc]. *)
Fixpoint uint_value (d : Decimal.uint) (acc : Z) : Z :=
  match d with
  | Decimal.Nil => acc
  | Decimal.D0 d => uint_value d (10 * acc)
  | Decimal.D1 d => uint_value d (10 * acc + 1)
  | Decimal.D2 d => uint_value d (10 * acc + 2)
  | Decimal.D3 d => uint_value d (10 * acc + 3)
  | Decimal.D4 d => uint_value d (10 * acc + 4)
  | Decimal.D5 d => uint_value d (10 * acc + 5)
  | Decimal.D6 d => uint_value d (10 * acc + 6)
  | Decimal.D7 d => uint_value d (10 * acc + 7)
  | Decimal.D8 d => uint_value d (10 * acc + 8)
  | Decimal.D9 d => uint_value d (10 * acc + 9)
  end.

(** The cells of row [i] of a matrix of side [size] that fit the console:
    the first ten at most. *)
Definition shown_row (matrix : list Z) (size : Z) (i : nat) : list Client.printed :=
  (fun j : nat => Client.Cell (nth (i * Z.to_nat size + j) matrix 0))
    <$> seq 0 (Z.to_nat (Z.min size Client.print_limit)).

End Terms.

(* ===================================================================== *)
(** * Properties *)
(* ===================================================================== *)

Import Machine Winsock Server Terms.
Local Open Scope session_scope.

(** ** Integers and floats *)

Lemma to_u32_id z : 0 <= z < two32 -> to_u32 z = z.
Proof. intros H. unfold to_u32. now apply Z.mod_small. Qed.

Lemma to_i32_id z : - two31 <= z < two31 -> to_i32 z = z.
Proof.
  intros H. unfold to_i32. rewrite Z.mod_small; unfold two31, two32 in *; lia.
Qed.

Lemma to_size_t_id z : 0 <= z < two64 -> to_size_t z = z.
Proof. intros H. unfold to_size_t. now apply Z.mod_small. Qed.

Example decode_neg_infinity : Float32.decode Float32.neg_infinity = S754_infinity true.
Proof. reflexivity. Qed.

(** 1.0f, 2.0f and a quiet NaN. *)
Example decode_one : Float32.decode 1065353216 = S754_finite false 8388608 (-23).
Proof. reflexivity. Qed.
Example gt_two_one : Float32.gt 1073741824 1065353216 = true.
Proof. reflexivity. Qed.
Example nan_pattern : Float32.is_nan 2143289344 = true.
Proof. reflexivity. Qed.

(** *** Order facts about the comparison *)

Lemma SFleb_refl x : x <> S754_nan -> SFleb x x = true.
Proof.
  intros Hx. destruct x as [s|s| |s m e]; try congruence; unfold SFleb; simpl.
  - reflexivity.
  - now destruct s.
  - destruct s; rewrite Z.compare_refl;
      change (Pos.compare_cont Eq m m) with (Pos.compare m m);
      now rewrite Pos.compare_refl.
Qed.

Lemma SFleb_neg_infinity x : x <> S754_nan -> SFleb (S754_infinity true) x = true.
Proof.
  intros Hx. destruct x as [s|s| |s m e]; try congruence; unfold SFleb; simpl;
    try reflexivity; now destruct s.
Qed.

(** Without NaN the order is total: when [x > y] is false, [x <= y]. *)
Lemma SFltb_false_leb x y :
  x <> S754_nan -> y <> S754_nan -> SFltb y x = false -> SFleb x y = true.
Proof.
  intros Hx Hy. unfold SFltb, SFleb.
  destruct x as [sx|sx| |sx mx ex], y as [sy|sy| |sy my ey]; try congruence;
    simpl; try (destruct sx, sy; simpl; congruence); try (destruct sx; simpl; congruence);
    try (destruct sy; simpl; congruence).
  change (Pos.compare_cont Eq my mx) with (Pos.compare my mx).
  change (Pos.compare_cont Eq mx my) with (Pos.compare mx my).
  rewrite (Z.compare_antisym ey ex), (Pos.compare_antisym my mx).
  destruct sx, sy; simpl; try congruence;
    destruct (ey ?= ex); simpl; try congruence;
    destruct (my ?= mx)%positive; simpl; congruence.
Qed.

Lemma SFleb_ltb_trans y c x :
  SFleb y c = true -> SFltb c x = true -> SFleb y x = true.
Proof.
  unfold SFleb, SFltb.
  destruct y as [sy|sy| |sy my ey], c as [sc|sc| |sc mc ec], x as [sx|sx| |sx mx ex];
    simpl; try congruence;
    try (destruct sy; simpl; congruence);
    try (destruct sx; simpl; congruence);
    try (destruct sc; simpl; congruence);
    try (destruct sy, sc; simpl; congruence);
    try (destruct sy, sx; simpl; congruence);
    try (destruct sc, sx; simpl; congruence);
    try (destruct sy, sc, sx; simpl; congruence).
  change (Pos.compare_cont Eq my mc) with (Pos.compare my mc).
  change (Pos.compare_cont Eq mc mx) with (Pos.compare mc mx).
  change (Pos.compare_cont Eq my mx) with (Pos.compare my mx).
  destruct sy, sc, sx; simpl; try congruence;
    destruct (Z.compare_spec ey ec), (Z.compare_spec ec ex), (Z.compare_spec ey ex);
    simpl; try congruence; try lia;
    destruct (Pos.compare_spec my mc), (Pos.compare_spec mc mx), (Pos.compare_spec my mx);
    simpl; try congruence; lia.
Qed.


(** ** The worker *)

Example spawn_3_2 : spawn_workers 3 2 = [(0, 2); (2, 3)].
Proof. reflexivity. Qed.

Example spawn_4_8 : spawn_workers 4 8 = [(0, 1); (1, 2); (2, 3); (3, 4)].
Proof. reflexivity. Qed.

Example scenario_3_2 :
  resultData <$> perform_computation false
                   (configured 3 2 [f1; f2; f3; f4; f5; f6; f7; f8; f9])
  = Some [f3; f2; f3; f4; f6; f6; f7; f8; f9].
Proof. vm_compute. reflexivity. Qed.

(** *** The row partition *)

Section Partition.

Variables N T : Z.
Hypothesis HN : 1 <= N <= 3000.
Hypothesis HT : 1 <= T < two32.

Let q := N / T.
Let r := N mod T.

Lemma partition_div_mod : N = T * q + r /\ 0 <= r < T /\ 0 <= q <= 3000.
Proof.
  subst q r. pose proof (Z.div_mod N T ltac:(lia)).
  pose proof (Z.mod_pos_bound N T ltac:(lia)).
  assert (0 <= N / T) by (apply Z.div_pos; lia).
  assert (N / T <= N) by (apply Z.div_le_upper_bound; nia).
  lia.
Qed.

Lemma chunk_start_succ k :
  0 <= k -> chunk_start q r (k + 1) = chunk_start q r k + (q + (if k <? r then 1 else 0)).
Proof.
  intros Hk. unfold chunk_start. destruct (Z.ltb_spec k r); lia.
Qed.

Lemma chunk_start_le k : 0 <= k <= T -> chunk_start q r k <= N.
Proof.
  intros Hk. destruct partition_div_mod as (HNq & Hr & Hq).
  unfold chunk_start. nia.
Qed.

Lemma chunk_start_lt k : 0 <= k < Z.min T N -> chunk_start q r k < N.
Proof.
  intros Hk. destruct partition_div_mod as (HNq & Hr & Hq).
  unfold chunk_start.
  destruct (Z.eq_dec q 0) as [Hq0|Hq0].
  - rewrite Hq0 in *. lia.
  - nia.
Qed.

Lemma small_quotient : N < T -> q = 0 /\ r = N.
Proof.
  intros H. subst q r. rewrite Z.div_small, Z.mod_small by lia. lia.
Qed.

Lemma spawn_loop_chunks n : forall i workers,
  0 <= i -> i + Z.of_nat n <= T ->
  spawn_loop n i N q r (chunk_start q r i) workers
  = workers ++ (chunk q r <$> seqZ i (Z.max 0 (Z.min (i + Z.of_nat n) (Z.min T N) - i))).
Proof.
  destruct partition_div_mod as (HNq & Hr & Hq).
  induction n as [|n IH]; intros i workers Hi Hn.
  - simpl. replace (Z.max 0 _) with 0 by lia. simpl. now rewrite app_nil_r.
  - cbn [spawn_loop].
    rewrite (to_u32_id i) by (unfold two32 in *; lia).
    rewrite (to_u32_id r) by (unfold two32 in *; lia).
    rewrite (to_i32_id (q + _)) by (unfold two31; destruct (i <? r); lia).
    assert (Hcs : 0 <= chunk_start q r i <= N).
    { split; [unfold chunk_start; nia | apply chunk_start_le; lia]. }
    rewrite (to_u32_id (chunk_start q r i)) by (unfold two32; lia).
    destruct (Z_lt_le_dec i (Z.min T N)) as [Hlt|Hge].
    + pose proof (chunk_start_lt i ltac:(lia)) as Hs.
      assert (Hrows : 0 < q + (if i <? r then 1 else 0)).
      { destruct (Z.ltb_spec i r); [lia|].
        destruct (Z_lt_le_dec N T) as [HNT|HNT]; [destruct (small_quotient HNT); lia|].
        assert (1 <= q) by nia. lia. }
      replace (q + (if i <? r then 1 else 0) >? 0) with true by (symmetry; apply Z.gtb_lt; lia).
      replace (chunk_start q r i <? N) with true by (symmetry; apply Z.ltb_lt; lia).
      cbn [andb].
      rewrite <- chunk_start_succ by lia.
      pose proof (chunk_start_le (i + 1) ltac:(lia)) as Hle.
      assert (0 <= chunk_start q r (i + 1)) by (unfold chunk_start; nia).
      rewrite (to_u32_id (chunk_start q r (i + 1))) by (unfold two32; lia).
      rewrite Z.min_l by lia.
      rewrite to_i32_id by (unfold two31; lia).
      rewrite IH by lia.
      rewrite <- app_assoc. f_equal.
      rewrite (seqZ_cons i) by lia. cbn [fmap list_fmap app]. unfold chunk at 1. 
      do 2 f_equal. all: try lia. f_equal; lia.
    + destruct (Z_lt_le_dec N T) as [HNT|HNT]; [|lia].
      destruct (small_quotient HNT) as [Hq0 Hr0].
      replace (i <? r) with false by (symmetry; apply Z.ltb_ge; lia).
      replace (q + 0 >? 0) with false by (symmetry; rewrite Hq0; reflexivity).
      cbn [andb].
      replace (chunk_start q r i) with (chunk_start q r (i + 1))
        by (unfold chunk_start; lia).
      rewrite IH by lia.
      replace (Z.max 0 (Z.min (i + 1 + Z.of_nat n) (Z.min T N) - (i + 1))) with 0 by lia.
      replace (Z.max 0 (Z.min (i + Z.of_nat (S n)) (Z.min T N) - i)) with 0 by lia.
      reflexivity.
Qed.

Lemma spawn_workers_chunks :
  spawn_workers N T = chunk q r <$> seqZ 0 (Z.min T N).
Proof.
  destruct partition_div_mod as (HNq & Hr & Hq).
  unfold spawn_workers, threads_to_use. rewrite Z.max_r by lia. fold q r.
  rewrite (to_i32_id q), (to_i32_id r) by (unfold two31, two32 in *; lia).
  assert (Hcs0 : chunk_start q r 0 = 0) by (unfold chunk_start; lia).
  pose proof (spawn_loop_chunks (Z.to_nat T) 0 [] ltac:(lia) ltac:(lia)) as H.
  rewrite Hcs0 in H. rewrite H.
  rewrite Z2Nat.id by lia. simpl. f_equal. f_equal. lia.
Qed.

End Partition.

Lemma spawn_workers_lookup N T k :
  1 <= N <= 3000 -> 1 <= T < two32 ->
  spawn_workers N T !! k
  = if Z.of_nat k <? Z.min T N then Some (chunk (N / T) (N mod T) (Z.of_nat k)) else None.
Proof.
  intros HN HT. rewrite spawn_workers_chunks by assumption.
  rewrite list_lookup_fmap.
  destruct (Z.ltb_spec (Z.of_nat k) (Z.min T N)).
  - now rewrite lookup_seqZ_lt by lia.
  - now rewrite lookup_seqZ_ge by lia.
Qed.

Lemma chunk_start_mono q r k k' :
  0 <= q -> k <= k' -> chunk_start q r k <= chunk_start q r k'.
Proof. intros Hq Hk. unfold chunk_start. nia. Qed.

Lemma chunk_start_total N T :
  1 <= N <= 3000 -> 1 <= T < two32 ->
  chunk_start (N / T) (N mod T) (Z.min T N) = N.
Proof.
  intros HN HT. destruct (partition_div_mod N T HN HT) as (HNq & Hr & Hq).
  unfold chunk_start. destruct (Z_lt_le_dec N T) as [H|H].
  - destruct (small_quotient N T HN H) as [-> ->]. lia.
  - rewrite Z.min_l by lia. lia.
Qed.

Lemma chunk_cover q r (n : nat) row :
  0 <= q -> 0 <= r -> 0 <= row < chunk_start q r (Z.of_nat n) ->
  exists k, (k < n)%nat /\
    chunk_start q r (Z.of_nat k) <= row < chunk_start q r (Z.of_nat k + 1).
Proof.
  intros Hq Hr. induction n as [|n IH]; intros Hrow.
  - unfold chunk_start in Hrow. lia.
  - destruct (Z_lt_le_dec row (chunk_start q r (Z.of_nat n))) as [Hlt|Hge].
    + destruct IH as (k & Hk & Hin); [lia|]. exists k. split; [lia|exact Hin].
    + exists n. split; [lia|]. replace (Z.of_nat n + 1) with (Z.of_nat (S n)) by lia. lia.
Qed.

(** C5.  For 1 <= N <= 3000 and T >= 1 the worker spawns min(T, N) row
    chunks; chunk k has N/T rows plus one if k < N mod T, and at least
    one row; the chunks start at row 0, each starts where the one before
    ends, the last ends at row N, earlier chunks lie below later ones,
    and every row of [0, N) is in a chunk. *)
Theorem worker_chunks_partition N T :
  1 <= N <= 3000 -> 1 <= T < two32 ->
  let workers := spawn_workers N T in
  let q := N / T in
  let r := N mod T in
  length workers = Z.to_nat (Z.min T N)
  /\ (forall k startRow endRow, workers !! k = Some (startRow, endRow) ->
        endRow - startRow = q + (if Z.of_nat k <? r then 1 else 0)
        /\ 0 < endRow - startRow)
  /\ (forall startRow endRow, workers !! 0%nat = Some (startRow, endRow) -> startRow = 0)
  /\ (forall k s e s' e',
        workers !! k = Some (s, e) -> workers !! S k = Some (s', e') -> s' = e)
  /\ (forall s e, last workers = Some (s, e) -> e = N)
  /\ (forall k k' s e s' e', (k < k')%nat ->
        workers !! k = Some (s, e) -> workers !! k' = Some (s', e') -> e <= s')
  /\ (forall row, 0 <= row < N ->
        exists k s e, workers !! k = Some (s, e) /\ s <= row < e).
Proof.
  intros HN HT workers q r.
  destruct (partition_div_mod N T HN HT) as (HNq & Hr & Hq). fold q r in HNq, Hr, Hq.
  assert (Hlen : length workers = Z.to_nat (Z.min T N)).
  { subst workers. rewrite spawn_workers_chunks by assumption.
    now rewrite length_fmap, length_seqZ. }
  assert (Hlk : forall k s e, workers !! k = Some (s, e) ->
            Z.of_nat k < Z.min T N /\ s = chunk_start q r (Z.of_nat k)
            /\ e = chunk_start q r (Z.of_nat k + 1)).
  { intros k s e H. subst workers. rewrite spawn_workers_lookup in H by assumption.
    destruct (Z.ltb_spec (Z.of_nat k) (Z.min T N)); [|discriminate].
    unfold chunk in H. fold q r in H. injection H as <- <-. auto. }
  split; [exact Hlen|].
  split.
  { intros k s e H. destruct (Hlk _ _ _ H) as (Hk & -> & ->).
    rewrite (chunk_start_succ N T) by lia. fold q r.
    split; [lia|].
    destruct (Z.ltb_spec (Z.of_nat k) r); [lia|].
    destruct (Z_lt_le_dec N T) as [HNT|HNT].
    - destruct (small_quotient N T HN HNT) as [Hq0 Hr0]. fold q in Hq0. fold r in Hr0. lia.
    - assert (1 <= q) by nia. lia. }
  split.
  { intros s e H. destruct (Hlk _ _ _ H) as (_ & -> & _). unfold chunk_start. lia. }
  split.
  { intros k s e s' e' H H'. destruct (Hlk _ _ _ H) as (_ & _ & ->).
    destruct (Hlk _ _ _ H') as (_ & -> & _). f_equal. lia. }
  split.
  { intros s e H. rewrite last_lookup in H.
    destruct (Hlk _ _ _ H) as (Hk & _ & ->).
    rewrite Hlen in *.
    replace (Z.of_nat (Init.Nat.pred (Z.to_nat (Z.min T N))) + 1) with (Z.min T N) by lia.
    now apply chunk_start_total. }
  split.
  { intros k k' s e s' e' Hkk H H'. destruct (Hlk _ _ _ H) as (_ & _ & ->).
    destruct (Hlk _ _ _ H') as (_ & -> & _). apply chunk_start_mono; lia. }
  intros row Hrow.
  destruct (chunk_cover q r (Z.to_nat (Z.min T N)) row) as (k & Hk & Hin); [lia | lia | |].
  { rewrite Z2Nat.id by lia. subst q r. rewrite (chunk_start_total N T) by assumption. lia. }
  exists k, (chunk_start q r (Z.of_nat k)), (chunk_start q r (Z.of_nat k + 1)).
  split; [|exact Hin].
  subst workers. rewrite spawn_workers_lookup by assumption.
  replace (Z.of_nat k <? Z.min T N) with true by (symmetry; apply Z.ltb_lt; lia).
  reflexivity.
Qed.

Lemma worker_chunks_partition_witness :
  let workers := spawn_workers 3 2 in
  let q := 3 / 2 in
  let r := 3 mod 2 in
  length workers = Z.to_nat (Z.min 2 3)
  /\ (forall k startRow endRow, workers !! k = Some (startRow, endRow) ->
        endRow - startRow = q + (if Z.of_nat k <? r then 1 else 0)
        /\ 0 < endRow - startRow)
  /\ (forall startRow endRow, workers !! 0%nat = Some (startRow, endRow) -> startRow = 0)
  /\ (forall k s e s' e',
        workers !! k = Some (s, e) -> workers !! S k = Some (s', e') -> s' = e)
  /\ (forall s e, last workers = Some (s, e) -> e = 3)
  /\ (forall k k' s e s' e', (k < k')%nat ->
        workers !! k = Some (s, e) -> workers !! k' = Some (s', e') -> e <= s')
  /\ (forall row, 0 <= row < 3 ->
        exists k s e, workers !! k = Some (s, e) /\ s <= row < e).
Proof.
  exact (worker_chunks_partition 3 2 ltac:(lia) ltac:(unfold two32; lia)).
Defined.

(** *** The scan of a row *)

Lemma decode_neg_infinity_inv y :
  0 <= y < two32 -> Float32.decode y = S754_infinity true -> y = Float32.neg_infinity.
Proof.
  intros Hy. unfold Float32.decode.
  change 255 with (Z.ones 8). change 8388607 with (Z.ones 23).
  rewrite !Z.land_ones, Z.shiftr_div_pow2 by lia.
  destruct (Z.eqb_spec ((y / 2 ^ 23) mod 2 ^ 8) 0) as [He|He].
  { destruct (y mod 2 ^ 23); discriminate. }
  destruct (Z.eqb_spec ((y / 2 ^ 23) mod 2 ^ 8) (Z.ones 8)) as [He'|He'].
  - destruct (Z.eqb_spec (y mod 2 ^ 23) 0) as [Hm|Hm]; [|discriminate].
    intros H. assert (Hs : Z.testbit y 31 = true) by congruence.
    clear H. apply Z.testbit_true in Hs; [|lia].
    unfold Float32.neg_infinity, two32 in *. change (Z.ones 8) with 255 in He'.
    change (2 ^ 23) with 8388608 in *. change (2 ^ 8) with 256 in *.
    change (2 ^ 31) with 2147483648 in *.
    Z.div_mod_to_equations. lia.
  - destruct (y mod 2 ^ 23 + 8388608); discriminate.
Qed.

Lemma SFleb_neg_infinity_inv x : SFleb x (S754_infinity true) = true -> x = S754_infinity true.
Proof.
  unfold SFleb. destruct x as [s|s| |s m e]; simpl; try discriminate.
  destruct s; [reflexivity|discriminate].
Qed.

Lemma is_nan_false x : Float32.is_nan x = false <-> Float32.decode x <> S754_nan.
Proof.
  unfold Float32.is_nan. destruct (Float32.decode x); split; congruence.
Qed.

Lemma scan_max_snoc cells x init :
  scan_max (cells ++ [x]) init
  = let v := scan_max cells init in if Float32.gt x v then x else v.
Proof. unfold scan_max. now rewrite fold_left_app. Qed.

Lemma scan_max_bound cells init :
  nan_free cells -> Float32.is_nan init = false ->
  let v := scan_max cells init in
  (v = init \/ v ∈ cells) /\ Float32.is_nan v = false
  /\ forall x, x ∈ cells -> Float32.le x v = true.
Proof.
  induction cells as [|x cells IH] using rev_ind; intros Hnan Hinit.
  - simpl. split; [now left|]. split; [assumption|]. intros x Hx. inversion Hx.
  - unfold nan_free in Hnan. apply Forall_app in Hnan as [Hnan' Hx].
    rewrite Forall_singleton in Hx.
    destruct (IH Hnan' Hinit) as (Hmem & Hv & Hle). clear IH.
    rewrite scan_max_snoc. cbv zeta.
    set (v := scan_max cells init) in *.
    destruct (Float32.gt x v) eqn:Hgt.
    + split; [right; apply elem_of_app; right; now apply list_elem_of_singleton|].
      split; [assumption|].
      intros y Hy. apply elem_of_app in Hy as [Hy|Hy].
      * unfold Float32.le, Float32.gt in *.
        eapply SFleb_ltb_trans; [apply Hle; exact Hy|exact Hgt].
      * apply list_elem_of_singleton in Hy as ->.
        apply SFleb_refl. now apply is_nan_false.
    + split; [destruct Hmem as [->|H]; [now left|right; apply elem_of_app; now left]|].
      split; [assumption|].
      intros y Hy. apply elem_of_app in Hy as [Hy|Hy]; [now apply Hle|].
      apply list_elem_of_singleton in Hy as ->.
      apply SFltb_false_leb; [now apply is_nan_false..|exact Hgt].
Qed.

Lemma scan_max_is_maximum cells :
  cells <> [] -> nan_free cells -> patterns cells ->
  is_maximum_of (scan_max cells Float32.neg_infinity) cells.
Proof.
  intros Hne Hnan Hpat.
  destruct (scan_max_bound cells Float32.neg_infinity Hnan eq_refl) as (Hmem & _ & Hle).
  split; [|exact Hle].
  destruct Hmem as [Heq|H]; [|exact H].
  destruct cells as [|x cells]; [congruence|].
  assert (Hx : x ∈ x :: cells) by apply list_elem_of_here.
  pose proof (Hle x Hx) as Hlex. rewrite Heq in Hlex.
  unfold Float32.le in Hlex. rewrite decode_neg_infinity in Hlex.
  apply SFleb_neg_infinity_inv in Hlex.
  apply decode_neg_infinity_inv in Hlex;
    [|exact (proj1 (Forall_forall _ _) Hpat x Hx)].
  rewrite Heq, <- Hlex. exact Hx.
Qed.

(** *** One row *)

Lemma row_max_loop_scan (matrix : list Z) (rs : nat) k : forall (j : nat) maxVal,
  (rs + j + k <= length matrix)%nat ->
  Z.of_nat (length matrix) < two64 ->
  row_max_loop k matrix (Z.of_nat rs) (Z.of_nat j) maxVal
  = Some (scan_max (take k (drop (rs + j) matrix)) maxVal).
Proof.
  induction k as [|k IH]; intros j maxVal Hlen Hbound.
  - reflexivity.
  - cbn [row_max_loop].
    rewrite to_size_t_id by lia.
    replace (Z.to_nat (Z.of_nat rs + Z.of_nat j)) with (rs + j)%nat by lia.
    destruct (lookup_lt_is_Some_2 matrix (rs + j)%nat ltac:(lia)) as [x Hx].
    rewrite Hx.
    replace (Z.of_nat j + 1) with (Z.of_nat (S j)) by lia.
    rewrite IH by lia.
    rewrite (drop_S _ _ _ Hx). cbn [take scan_max fold_left].
    replace (rs + S j)%nat with (S (rs + j)) by lia. reflexivity.
Qed.

Lemma process_rows_loop_step (matrix : list Z) (n i k : nat) :
  length matrix = (n * n)%nat -> (i < n)%nat -> (n <= 3000)%nat ->
  process_rows_loop (S k) matrix (Z.of_nat n) (Z.of_nat i)
  = process_rows_loop k (fix_row matrix n i) (Z.of_nat n) (Z.of_nat (S i)).
Proof.
  intros Hlen Hi Hn. cbn [process_rows_loop].
  assert (Hin : (i * n + n <= n * n)%nat) by nia.
  rewrite (to_size_t_id (Z.of_nat i)) by (unfold two64; lia).
  rewrite (to_size_t_id (Z.of_nat i * Z.of_nat n)) by (unfold two64; nia).
  replace (Z.of_nat i * Z.of_nat n) with (Z.of_nat (i * n)) by lia.
  rewrite Nat2Z.id.
  pose proof (row_max_loop_scan matrix (i * n) n 0 Float32.neg_infinity) as Hscan.
  rewrite Nat.add_0_r in Hscan. change (Z.of_nat 0) with 0 in Hscan. rewrite Hscan by (unfold two64; nia). clear Hscan.
  rewrite to_u32_id by (unfold two32; lia).
  replace (Z.of_nat i <? Z.of_nat n) with true by (symmetry; apply Z.ltb_lt; lia).
  rewrite to_size_t_id by (unfold two64; nia).
  replace (Z.to_nat (Z.of_nat (i * n) + Z.of_nat i)) with (i * n + i)%nat by lia.
  replace (i * n + i <? length matrix)%nat with true
    by (symmetry; apply Nat.ltb_lt; nia).
  replace (Z.of_nat i + 1) with (Z.of_nat (S i)) by lia.
  reflexivity.
Qed.

Lemma fix_row_length matrix n i : length (fix_row matrix n i) = length matrix.
Proof. unfold fix_row. apply length_insert. Qed.

Lemma updated_refl orig n lo : updated orig n lo lo orig.
Proof.
  split; [reflexivity|]. intros r c Hr Hc.
  destruct (decide _) as [[H _]|_]; [lia|reflexivity].
Qed.

Lemma updated_row orig n lo hi m r :
  updated orig n lo hi m -> length orig = (n * n)%nat ->
  (r < n)%nat -> ~ (lo <= r < hi)%nat ->
  take n (drop (r * n) m) = take n (drop (r * n) orig).
Proof.
  intros [Hlen Hcells] Hlo Hr Hout. apply list_eq. intros c.
  destruct (Nat.lt_ge_cases c n) as [Hc|Hc].
  - rewrite !lookup_take_lt, !lookup_drop by assumption.
    rewrite Hcells by assumption.
    destruct (decide _) as [[H _]|_]; [contradiction|reflexivity].
  - now rewrite !lookup_take_ge.
Qed.

Lemma updated_step orig n lo i m :
  updated orig n lo i m -> length orig = (n * n)%nat -> (lo <= i < n)%nat ->
  updated orig n lo (S i) (fix_row m n i).
Proof.
  intros Hu Hlen Hi. pose proof Hu as [Hlm Hcells].
  split; [now rewrite fix_row_length|].
  intros r c Hr Hc. unfold fix_row.
  rewrite (updated_row orig n lo i m i Hu Hlen) by lia.
  destruct (decide (r = i /\ c = i)) as [[-> ->]|Hne].
  - rewrite list_lookup_insert_eq by (rewrite Hlm, Hlen; nia).
    destruct (decide _) as [_|H]; [reflexivity|lia].
  - rewrite list_lookup_insert_ne.
    2:{ intros Heq. apply Hne.
        assert (r = i) by (destruct (lt_eq_lt_dec r i) as [[H|H]|H]; [nia|exact H|nia]).
        subst r. lia. }
    rewrite Hcells by assumption.
    destruct (decide _) as [[H1 H2]|H1], (decide _) as [[H3 H4]|H3];
      try reflexivity; lia.
Qed.

Lemma process_rows_loop_updated orig n lo k : forall i m,
  length orig = (n * n)%nat -> (n <= 3000)%nat ->
  (lo <= i)%nat -> (i + k <= n)%nat ->
  updated orig n lo i m ->
  exists m', process_rows_loop k m (Z.of_nat n) (Z.of_nat i) = Some m'
             /\ updated orig n lo (i + k) m'.
Proof.
  induction k as [|k IH]; intros i m Hlen Hn Hlo Hik Hu.
  - exists m. split; [reflexivity|]. now rewrite Nat.add_0_r.
  - rewrite process_rows_loop_step by (destruct Hu; lia).
    destruct (IH (S i) (fix_row m n i)) as (m' & Hrun & Hu'); try lia.
    { apply updated_step; [assumption..|lia]. }
    exists m'. split; [exact Hrun|].
    now replace (i + S k)%nat with (S i + k)%nat by lia.
Qed.

(** *** All rows *)

Lemma run_workers_chunks orig n q r cnt : forall k m,
  length orig = (n * n)%nat -> (n <= 3000)%nat -> 0 <= q -> 0 <= r -> 0 <= k ->
  chunk_start q r (k + Z.of_nat cnt) <= Z.of_nat n ->
  updated orig n 0 (Z.to_nat (chunk_start q r k)) m ->
  exists m',
    run_workers (chunk q r <$> seqZ k (Z.of_nat cnt)) (Z.of_nat n) m = Some m'
    /\ updated orig n 0 (Z.to_nat (chunk_start q r (k + Z.of_nat cnt))) m'.
Proof.
  induction cnt as [|cnt IH]; intros k m Hlen Hn Hq Hr Hk Hend Hu.
  - exists m. split; [reflexivity|]. now rewrite Z.add_0_r.
  - rewrite seqZ_cons by lia. cbn [fmap list_fmap run_workers chunk].
    unfold chunk at 1. unfold process_matrix_rows.
    assert (Hs : 0 <= chunk_start q r k) by (unfold chunk_start; nia).
    pose proof (chunk_start_mono q r k (k + 1) Hq ltac:(lia)) as Hse.
    pose proof (chunk_start_mono q r (k + 1) (k + Z.of_nat (S cnt)) Hq ltac:(lia)) as Hee.
    destruct (process_rows_loop_updated orig n 0
                (Z.to_nat (chunk_start q r (k + 1) - chunk_start q r k))
                (Z.to_nat (chunk_start q r k)) m) as (m1 & Hrun & Hu1);
      try assumption; try lia.
    rewrite Z2Nat.id in Hrun by lia. rewrite Hrun.
    replace (Z.to_nat (chunk_start q r k)
             + Z.to_nat (chunk_start q r (k + 1) - chunk_start q r k))%nat
      with (Z.to_nat (chunk_start q r (k + 1))) in Hu1 by lia.
    replace (Z.pred (Z.of_nat (S cnt))) with (Z.of_nat cnt) by lia.
    destruct (IH (Z.succ k) m1) as (m' & Hrest & Hu'); try assumption; try lia.
    { replace (Z.succ k + Z.of_nat cnt) with (k + Z.of_nat (S cnt)) by lia. exact Hend. }
    exists m'. split; [exact Hrest|].
    now replace (k + Z.of_nat (S cnt)) with (Z.succ k + Z.of_nat cnt) by lia.
Qed.

Lemma spawn_workers_zero size : spawn_workers size 0 = spawn_workers size 1.
Proof. reflexivity. Qed.

Lemma run_spawned_workers orig N T :
  1 <= N <= 3000 -> 0 <= T < two32 ->
  length orig = Z.to_nat (N * N) ->
  exists result,
    run_workers (spawn_workers N T) N orig = Some result
    /\ updated orig (Z.to_nat N) 0 (Z.to_nat N) result.
Proof.
  intros HN HT Hlen.
  assert (Hgen : forall T', 1 <= T' < two32 ->
            exists result,
              run_workers (spawn_workers N T') N orig = Some result
              /\ updated orig (Z.to_nat N) 0 (Z.to_nat N) result).
  { intros T' HT'.
    destruct (partition_div_mod N T' HN HT') as (HNq & Hr & Hq).
    rewrite spawn_workers_chunks by assumption.
    assert (H1 : length orig = (Z.to_nat N * Z.to_nat N)%nat) by (rewrite Hlen; lia).
    assert (H2 : chunk_start (N / T') (N mod T') (0 + Z.of_nat (Z.to_nat (Z.min T' N)))
                 <= Z.of_nat (Z.to_nat N)).
    { rewrite Z.add_0_l, !Z2Nat.id by lia.
      rewrite chunk_start_total by assumption. lia. }
    assert (H3 : updated orig (Z.to_nat N) 0
                   (Z.to_nat (chunk_start (N / T') (N mod T') 0)) orig).
    { replace (Z.to_nat (chunk_start (N / T') (N mod T') 0)) with 0%nat
        by (unfold chunk_start; lia).
      apply updated_refl. }
    destruct (run_workers_chunks orig (Z.to_nat N) (N / T') (N mod T')
                (Z.to_nat (Z.min T' N)) 0 orig H1 ltac:(lia) ltac:(lia) ltac:(lia)
                ltac:(lia) H2 H3) as (m' & Hrun & Hu).
    rewrite !Z2Nat.id in Hrun by lia. exists m'. split; [exact Hrun|].
    rewrite Z.add_0_l, Z2Nat.id in Hu by lia.
    now rewrite chunk_start_total in Hu by assumption. }
  destruct (Z.eq_dec T 0) as [->|HT0].
  - rewrite spawn_workers_zero. apply Hgen. unfold two32. lia.
  - apply Hgen. lia.
Qed.

(** *** The order of the rows does not matter *)

Lemma updated_in_row orig n done m r :
  updated_in orig n done m -> (r < n)%nat -> r ∉ done ->
  take n (drop (r * n) m) = take n (drop (r * n) orig).
Proof.
  intros [Hlen Hcells] Hr Hout. apply list_eq. intros c.
  destruct (Nat.lt_ge_cases c n) as [Hc|Hc].
  - rewrite !lookup_take_lt, !lookup_drop by assumption.
    rewrite Hcells by assumption.
    destruct (decide _) as [[H _]|_]; [contradiction|reflexivity].
  - now rewrite !lookup_take_ge.
Qed.

Lemma updated_in_step orig n done m i :
  updated_in orig n done m -> length orig = (n * n)%nat -> (i < n)%nat ->
  i ∉ done -> updated_in orig n (i :: done) (fix_row m n i).
Proof.
  intros Hu Hlen Hi Hout. pose proof Hu as [Hlm Hcells].
  split; [now rewrite fix_row_length|].
  intros r c Hr Hc. unfold fix_row.
  rewrite (updated_in_row orig n done m i Hu Hi Hout).
  destruct (decide (r = i /\ c = i)) as [[-> ->]|Hne].
  - rewrite list_lookup_insert_eq by (rewrite Hlm, Hlen; nia).
    destruct (decide _) as [_|H]; [reflexivity|].
    exfalso. apply H. split; [apply list_elem_of_here|reflexivity].
  - rewrite list_lookup_insert_ne.
    2:{ intros Heq. apply Hne.
        assert (r = i) by (destruct (lt_eq_lt_dec r i) as [[H|H]|H]; [nia|exact H|nia]).
        subst r. lia. }
    rewrite Hcells by assumption.
    destruct (decide (r ∈ done /\ c = r)) as [[H1 H2]|H1],
             (decide (r ∈ i :: done /\ c = r)) as [[H3 H4]|H3]; try reflexivity.
    + exfalso. apply H3. split; [now apply list_elem_of_further|exact H2].
    + exfalso. apply elem_of_cons in H3 as [->|H3]; [apply Hne; lia|].
      apply H1. now split.
Qed.

Lemma run_rows_updated orig n rows : forall done m,
  length orig = (n * n)%nat -> (n <= 3000)%nat ->
  NoDup (rows ++ done) -> Forall (fun i => (i < n)%nat) rows ->
  updated_in orig n done m ->
  exists m', run_rows rows (Z.of_nat n) m = Some m'
             /\ updated_in orig n (rev rows ++ done) m'.
Proof.
  induction rows as [|i rows IH]; intros done m Hlen Hn Hnd Hlt Hu.
  - exists m. split; [reflexivity|exact Hu].
  - cbn [run_rows]. apply Forall_cons in Hlt as [Hi Hlt].
    cbn [app] in Hnd. apply NoDup_cons in Hnd as [Hout Hnd].
    assert (Hout' : i ∉ done) by (intros H; apply Hout, elem_of_app; now right).
    unfold process_matrix_rows.
    replace (Z.to_nat (Z.of_nat i + 1 - Z.of_nat i)) with 1%nat by lia.
    rewrite process_rows_loop_step by (destruct Hu; lia).
    cbn [process_rows_loop].
    destruct (IH (i :: done) (fix_row m n i)) as (m' & Hrun & Hu'); try assumption.
    + apply NoDup_app. apply NoDup_app in Hnd as (H1 & H2 & H3).
      split; [exact H1|]. split.
      * intros x Hx Hx'. apply elem_of_cons in Hx' as [->|Hx'].
        -- apply Hout, elem_of_app. now left.
        -- exact (H2 x Hx Hx').
      * apply NoDup_cons. now split.
    + now apply updated_in_step.
    + exists m'. split; [exact Hrun|].
      cbn [rev]. now rewrite <- app_assoc.
Qed.

Lemma updated_in_all orig n done m m' :
  length orig = (n * n)%nat ->
  (forall r, (r < n)%nat -> r ∈ done) ->
  updated_in orig n done m -> updated orig n 0 n m' -> m = m'.
Proof.
  intros Hlen Hall [Hl1 H1] [Hl2 H2]. apply list_eq. intros idx.
  destruct (Nat.lt_ge_cases idx (n * n)) as [Hidx|Hidx].
  - assert (Hn : (0 < n)%nat) by nia.
    pose proof (Nat.div_mod_eq idx n) as Hdm.
    pose proof (Nat.mod_upper_bound idx n ltac:(lia)) as Hc.
    assert (Hr : (idx / n < n)%nat) by (apply Nat.Div0.div_lt_upper_bound; lia).
    set (r := (idx / n)%nat) in *. set (c := (idx mod n)%nat) in *.
    replace idx with (r * n + c)%nat by lia.
    rewrite H1, H2 by assumption.
    destruct (decide (r ∈ done /\ c = r)) as [[Ha Hb]|Ha],
             (decide ((0 <= r < n)%nat /\ c = r)) as [[Hc' Hd]|Hc'];
      try reflexivity.
    + exfalso. apply Hc'. split; [lia|exact Hb].
    + exfalso. apply Ha. split; [now apply Hall|exact Hd].
  - rewrite !lookup_ge_None_2 by lia. reflexivity.
Qed.

(** Whatever the order in which the rows are taken, one at a time, the
    buffer ends as it does when the chunks run one after the other. *)
Theorem row_order_irrelevant orig N T rows :
  1 <= N <= 3000 -> 0 <= T < two32 -> length orig = Z.to_nat (N * N) ->
  rows ≡ₚ seq 0 (Z.to_nat N) ->
  run_rows rows N orig = run_workers (spawn_workers N T) N orig.
Proof.
  intros HN HT Hlen Hperm.
  destruct (run_spawned_workers orig N T HN HT Hlen) as (result & Hrun & Hu).
  rewrite Hrun.
  assert (Hlen' : length orig = (Z.to_nat N * Z.to_nat N)%nat) by lia.
  destruct (run_rows_updated orig (Z.to_nat N) rows [] orig Hlen' ltac:(lia))
    as (m' & Hrows & Hu').
  - rewrite app_nil_r, Hperm. apply NoDup_seq.
  - rewrite Hperm. apply Forall_forall. intros i Hi.
    apply elem_of_seq in Hi. lia.
  - split; [reflexivity|]. intros r c _ _.
    destruct (decide _) as [[H _]|_]; [inversion H|reflexivity].
  - rewrite Z2Nat.id in Hrows by lia. rewrite Hrows. f_equal.
    eapply updated_in_all; [exact Hlen'| |exact Hu'|exact Hu].
    intros r Hr. rewrite app_nil_r. apply list_elem_of_In.
    apply -> in_rev. apply list_elem_of_In. rewrite Hperm.
    apply elem_of_seq. lia.
Qed.

(** The outcome of a run that does not throw. *)
Lemma perform_computation_run state :
  1 <= matrixSize state <= 3000 -> 0 <= numThreads state < two32 ->
  length (matrixData state) = Z.to_nat (matrixSize state * matrixSize state) ->
  exists result,
    perform_computation false state
    = Some (set_processingStarted false
             (set_errorOccurred false
               (set_processingDone true (set_resultData result state))))
    /\ updated (matrixData state) (Z.to_nat (matrixSize state))
         0 (Z.to_nat (matrixSize state)) result.
Proof.
  intros HN HT Hlen.
  destruct (run_spawned_workers (matrixData state) _ _ HN HT Hlen) as (result & Hrun & Hu).
  exists result. split; [|exact Hu].
  unfold perform_computation.
  destruct (length (resultData state) =? length (matrixData state))%nat;
    cbn [matrixSize numThreads resultData set_resultData]; now rewrite Hrun.
Qed.

(** Cells and rows in [Z] coordinates. *)
Lemma updated_cell orig N result i j :
  1 <= N -> 0 <= i < N -> 0 <= j < N ->
  updated orig (Z.to_nat N) 0 (Z.to_nat N) result ->
  cell result N i j
  = if decide (j = i)
    then Some (scan_max (row orig N i) Float32.neg_infinity)
    else cell orig N i j.
Proof.
  intros HN Hi Hj [_ Hcells]. unfold cell, row.
  replace (Z.to_nat (i * N + j)) with (Z.to_nat i * Z.to_nat N + Z.to_nat j)%nat by nia.
  rewrite Hcells by lia.
  replace (Z.to_nat (i * N)) with (Z.to_nat i * Z.to_nat N)%nat by nia.
  destruct (decide _) as [[_ H]|H], (decide (j = i)) as [H'|H']; try reflexivity; lia.
Qed.

Lemma row_nonempty orig N i :
  1 <= N -> 0 <= i < N -> length orig = Z.to_nat (N * N) -> row orig N i <> [].
Proof.
  intros HN Hi Hlen Hrow.
  apply (f_equal length) in Hrow. unfold row in Hrow.
  rewrite length_take, length_drop in Hrow. simpl in Hrow. nia.
Qed.

Lemma row_elem_of orig N i x :
  x ∈ row orig N i -> x ∈ orig.
Proof.
  unfold row. intros H. apply elem_of_take in H as (k & Hk & _).
  rewrite lookup_drop in Hk. eapply list_elem_of_lookup_2. exact Hk.
Qed.

Lemma row_patterns orig N i : patterns orig -> patterns (row orig N i).
Proof.
  unfold patterns. rewrite !Forall_forall. intros H x Hx.
  apply H. eapply row_elem_of. exact Hx.
Qed.

(** C1 (amended).  For a session with an N x N input of 32-bit patterns,
    1 <= N <= 3000, and T >= 1, the worker run returns; when it ends with
    done = 1 the result buffer has the length of the input, every cell off
    the diagonal equals the input cell, the diagonal cell of row i holds
    what the scan of input row i with [>] from minus infinity leaves, and
    for a row without NaN that value is a maximum of the row. *)
Theorem perform_computation_row_maxima state N T bad_alloc :
  matrixSize state = N -> numThreads state = T ->
  1 <= N <= 3000 -> 1 <= T < two32 ->
  length (matrixData state) = Z.to_nat (N * N) ->
  patterns (matrixData state) ->
  (exists state', perform_computation bad_alloc state = Some state')
  /\ forall state',
       perform_computation bad_alloc state = Some state' ->
       processingDone state' = true ->
       length (resultData state') = length (matrixData state)
       /\ forall i, 0 <= i < N ->
            (forall j, 0 <= j < N -> j <> i ->
               cell (resultData state') N i j = cell (matrixData state) N i j)
            /\ cell (resultData state') N i i
               = Some (scan_max (row (matrixData state) N i) Float32.neg_infinity)
            /\ (nan_free (row (matrixData state) N i) ->
                is_maximum_of (scan_max (row (matrixData state) N i) Float32.neg_infinity)
                  (row (matrixData state) N i)).
Proof.
  intros HN HT HNr HTr Hlen Hpat. subst N T.
  destruct (perform_computation_run state HNr ltac:(lia) Hlen) as (result & Hrun & Hu).
  split.
  { destruct bad_alloc; [eexists; reflexivity|]. rewrite Hrun. eauto. }
  intros state' Hsome Hdone.
  destruct bad_alloc.
  { unfold perform_computation in Hsome. injection Hsome as <-. discriminate Hdone. }
  rewrite Hrun in Hsome. injection Hsome as <-.
  cbn [resultData set_processingStarted set_errorOccurred set_processingDone set_resultData].
  split; [apply Hu|].
  intros i Hi. split; [|split].
  - intros j Hj Hji. rewrite (updated_cell (matrixData state)) by (assumption || lia).
    destruct (decide (j = i)); [contradiction|reflexivity].
  - rewrite (updated_cell (matrixData state)) by (assumption || lia).
    destruct (decide (i = i)); [reflexivity|contradiction].
  - intros Hnan. apply scan_max_is_maximum.
    + apply row_nonempty; [lia|assumption..].
    + exact Hnan.
    + now apply row_patterns.
Qed.

Lemma perform_computation_row_maxima_witness :
  let state := configured 3 2 [f1; f2; f3; f4; f5; f6; f7; f8; f9] in
  (exists state', perform_computation false state = Some state')
  /\ forall state',
       perform_computation false state = Some state' ->
       processingDone state' = true ->
       length (resultData state') = length (matrixData state)
       /\ forall i, 0 <= i < 3 ->
            (forall j, 0 <= j < 3 -> j <> i ->
               cell (resultData state') 3 i j = cell (matrixData state) 3 i j)
            /\ cell (resultData state') 3 i i
               = Some (scan_max (row (matrixData state) 3 i) Float32.neg_infinity)
            /\ (nan_free (row (matrixData state) 3 i) ->
                is_maximum_of (scan_max (row (matrixData state) 3 i) Float32.neg_infinity)
                  (row (matrixData state) 3 i)).
Proof.
  intros state.
  apply (perform_computation_row_maxima state 3 2 false);
    [reflexivity | reflexivity | lia | unfold two32; lia | reflexivity |].
  unfold patterns, state, two32. repeat constructor; vm_compute; congruence.
Defined.

(** C1 as stated fails on a 1 x 1 input that holds a NaN: the run ends
    with done = 1 and minus infinity on the diagonal, which is not a
    maximum of the row (it is not even one of its cells). *)
Lemma row_maximum_fails_on_nan :
  let state := configured 1 1 [quiet_nan] in
  exists state',
    perform_computation false state = Some state'
    /\ processingDone state' = true
    /\ cell (resultData state') 1 0 0 = Some Float32.neg_infinity
    /\ ~ is_maximum_of Float32.neg_infinity (row (matrixData state) 1 0).
Proof.
  eexists. split; [vm_compute; reflexivity|].
  split; [reflexivity|]. split; [reflexivity|].
  intros [Hin _]. vm_compute in Hin.
  apply list_elem_of_singleton in Hin. discriminate Hin.
Qed.

(** ** Byte order *)

Lemma be_bytes_decode v :
  0 <= v < two32 ->
  match be_bytes v with
  | [b0; b1; b2; b3] => be_decode b0 b1 b2 b3 = v
  | _ => False
  end.
Proof.
  intros Hv. unfold be_bytes, be_decode, two32 in *.
  Z.div_mod_to_equations. lia.
Qed.

Lemma host_load_bytes b0 b1 b2 b3 :
  is_byte b0 -> is_byte b1 -> is_byte b2 -> is_byte b3 ->
  let v := host_load [b0; b1; b2; b3] in
  v mod 256 = b0 /\ (v / 256) mod 256 = b1
  /\ (v / 65536) mod 256 = b2 /\ (v / 16777216) mod 256 = b3.
Proof.
  unfold is_byte, host_load. cbn [foldr]. intros H0 H1 H2 H3. cbv zeta.
  repeat split; Z.div_mod_to_equations; lia.
Qed.

Lemma ntohl_host_load b0 b1 b2 b3 :
  is_byte b0 -> is_byte b1 -> is_byte b2 -> is_byte b3 ->
  ntohl (host_load [b0; b1; b2; b3]) = be_decode b0 b1 b2 b3.
Proof.
  intros H0 H1 H2 H3.
  destruct (host_load_bytes b0 b1 b2 b3 H0 H1 H2 H3) as (E0 & E1 & E2 & E3).
  unfold ntohl, htonl, be_decode. now rewrite E0, E1, E2, E3.
Qed.

Lemma host_store_htonl v : host_store (htonl v) = be_bytes v.
Proof.
  unfold host_store, htonl, be_bytes.
  pose proof (Z.mod_pos_bound v 256 ltac:(lia)) as H0.
  pose proof (Z.mod_pos_bound (v / 256) 256 ltac:(lia)) as H1.
  pose proof (Z.mod_pos_bound (v / 65536) 256 ltac:(lia)) as H2.
  pose proof (Z.mod_pos_bound (v / 16777216) 256 ltac:(lia)) as H3.
  revert H0 H1 H2 H3.
  generalize (v mod 256) ((v / 256) mod 256) ((v / 65536) mod 256)
    ((v / 16777216) mod 256).
  intros c0 c1 c2 c3 H0 H1 H2 H3.
  repeat f_equal; Z.div_mod_to_equations; lia.
Qed.

Lemma be_bytes_are_bytes v : Forall is_byte (be_bytes v).
Proof.
  unfold be_bytes, is_byte. repeat constructor; Z.div_mod_to_equations; lia.
Qed.

Lemma ntohl_be_bytes v : 0 <= v < two32 -> ntohl (host_load (be_bytes v)) = v.
Proof.
  intros Hv. pose proof (be_bytes_decode v Hv) as Hd.
  pose proof (be_bytes_are_bytes v) as Hb. unfold be_bytes in *.
  apply Forall_cons in Hb as [H0 Hb]. apply Forall_cons in Hb as [H1 Hb].
  apply Forall_cons in Hb as [H2 Hb]. apply Forall_cons in Hb as [H3 _].
  now rewrite ntohl_host_load.
Qed.

Lemma host_load_store v : 0 <= v < two32 -> host_load (host_store v) = v.
Proof.
  intros Hv. unfold host_store, host_load, two32 in *. cbn [foldr].
  Z.div_mod_to_equations. lia.
Qed.

(** ** The codec on the stream *)

Lemma send_uint32_ok value context w :
  tx_ready w ->
  send_uint32 value context w = Some (true, gave (be_bytes value) w).
Proof.
  intros [Herr Hchunk].
  destruct w as [[rx0 fin rc tx0 tc te le] fl sc tr]. cbn in Herr, Hchunk. subst te.
  unfold send_uint32, send, bind, get_sock, put_sock, emit, ret, send_sock, gave.
  rewrite host_store_htonl.
  cbn [sock tx_error tx tx_chunk faults sched trace set_tx rx rx_fin rx_chunk last_error].
  change (len (be_bytes value)) with 4.
  rewrite Z.min_l by lia.
  reflexivity.
Qed.

Lemma gave_tx_ready bytes w : tx_ready w -> tx_ready (gave bytes w).
Proof. intros H. exact H. Qed.

Lemma took_tx_ready n b w : tx_ready w -> tx_ready (took n b w).
Proof. intros H. exact H. Qed.

Lemma noted_tx_ready e w : tx_ready w -> tx_ready (noted e w).
Proof. intros H. exact H. Qed.

Lemma bind_Some {A B} (c : M A) (k : A -> M B) w a w' :
  c w = Some (a, w') -> bind c k w = k a w'.
Proof. intros H. unfold bind. now rewrite H. Qed.

Lemma recv_sock_waitall n s :
  0 < n <= len (rx s) ->
  recv_sock n true s
  = (n, take (Z.to_nat n) (rx s), set_rx (drop (Z.to_nat n) (rx s)) s).
Proof.
  intros Hn. unfold recv_sock. rewrite Z.min_l by lia.
  replace (n =? 0) with false by (symmetry; apply Z.eqb_neq; lia).
  rewrite Z.ltb_irrefl. cbn [andb orb]. rewrite andb_false_r.
  now rewrite Z.max_r by lia.
Qed.

Lemma recv_waitall n w :
  0 < n <= len (rx (sock w)) ->
  recv n true w = Some ((n, take (Z.to_nat n) (rx (sock w))), took n true w).
Proof.
  intros Hn. unfold recv, bind, get_sock, put_sock, emit, ret.
  now rewrite recv_sock_waitall.
Qed.

Lemma recv_uint32_bytes value context w b0 b1 b2 b3 rest :
  rx (sock w) = b0 :: b1 :: b2 :: b3 :: rest ->
  is_byte b0 -> is_byte b1 -> is_byte b2 -> is_byte b3 ->
  recv_uint32 value context w
  = Some ((true, be_decode b0 b1 b2 b3), took 4 true w).
Proof.
  intros Hrx H0 H1 H2 H3. unfold recv_uint32.
  rewrite (bind_Some _ _ _ _ _ (recv_waitall 4 w ltac:(rewrite Hrx; unfold len; cbn [length]; lia))).
  rewrite Hrx. change (Z.to_nat 4) with 4%nat. unfold host_store.
  cbn [take length drop app]. change (4 =? 4) with true. cbv beta iota.
  unfold ret. now rewrite ntohl_host_load.
Qed.

Lemma recv_uint32_value value context w v rest :
  rx (sock w) = be_bytes v ++ rest -> 0 <= v < two32 ->
  recv_uint32 value context w = Some ((true, v), took 4 true w).
Proof.
  intros Hrx Hv. pose proof (be_bytes_decode v Hv) as Hd.
  pose proof (be_bytes_are_bytes v) as Hb. unfold be_bytes in *.
  apply Forall_cons in Hb as [H0 Hb]. apply Forall_cons in Hb as [H1 Hb].
  apply Forall_cons in Hb as [H2 Hb]. apply Forall_cons in Hb as [H3 _].
  cbn [app] in Hrx.
  rewrite (recv_uint32_bytes _ _ _ _ _ _ _ _ Hrx) by assumption.
  now rewrite Hd.
Qed.

Lemma took_rx n b w bytes rest :
  rx (sock w) = bytes ++ rest -> n = len bytes ->
  rx (sock (took n b w)) = rest.
Proof.
  intros Hrx ->. unfold took, len. cbn. rewrite Hrx, Nat2Z.id.
  apply drop_app_length.
Qed.

(** ** Float payloads *)

Lemma set_tx_nil s : set_tx (tx s ++ []) s = s.
Proof. destruct s. unfold set_tx. cbn. now rewrite app_nil_r. Qed.

Lemma set_rx_drop_0 s : set_rx (drop 0 (rx s)) s = s.
Proof. now destruct s. Qed.

Lemma sent_on_refl w : sent_on [] w w.
Proof.
  unfold sent_on. rewrite set_tx_nil. repeat split.
  exists []. split; [now rewrite app_nil_r|constructor].
Qed.

Lemma taken_from_refl w : taken_from 0 w w.
Proof.
  unfold taken_from. rewrite set_rx_drop_0. repeat split.
  exists []. split; [now rewrite app_nil_r|constructor].
Qed.

Lemma send_floats_loop_ok buffer total context fuel : forall bytesSent w,
  tx_error (sock w) = None -> total = len buffer ->
  0 <= bytesSent <= total -> total < two31 ->
  (Z.to_nat (total - bytesSent) <= fuel)%nat ->
  exists w',
    send_floats_loop fuel buffer total bytesSent context w = Some (true, w')
    /\ sent_on (drop (Z.to_nat bytesSent) buffer) w w'.
Proof.
  induction fuel as [|fuel IH]; intros bytesSent w Herr Htotal Hsent Hsmall Hfuel.
  - assert (bytesSent = total) as -> by lia.
    cbn [send_floats_loop]. rewrite Z.ltb_irrefl. exists w. split; [reflexivity|].
    rewrite drop_ge by (unfold len in Htotal; lia). apply sent_on_refl.
  - cbn [send_floats_loop].
    destruct (Z.ltb_spec bytesSent total) as [Hlt|Hge].
    2:{ exists w. split; [reflexivity|].
        rewrite drop_ge by (unfold len in Htotal; lia). apply sent_on_refl. }
    rewrite to_i32_id by (unfold two31 in *; lia).
    set (rest := drop (Z.to_nat bytesSent) buffer).
    assert (Hrest : len rest = total - bytesSent).
    { unfold len, rest in *. rewrite length_drop. lia. }
    rewrite (take_ge rest) by (unfold len in Hrest; lia).
    set (k := Z.min (len rest) (Z.pos (tx_chunk (sock w)))).
    assert (Hk : 1 <= k <= total - bytesSent) by lia.
    set (w1 := mkWorld (set_tx (tx (sock w) ++ take (Z.to_nat k) rest) (sock w))
                 (faults w) (sched w) (trace w ++ [EvSend (len rest) k])).
    assert (Hsend : send rest w = Some (k, w1)).
    { unfold send, bind, get_sock, put_sock, emit, ret, send_sock. now rewrite Herr. }
    rewrite (bind_Some _ _ _ _ _ Hsend).
    replace (k =? SOCKET_ERROR) with false
      by (symmetry; apply Z.eqb_neq; unfold SOCKET_ERROR; lia).
    rewrite to_size_t_id by (unfold two64, two31 in *; lia).
    assert (Herr1 : tx_error (sock w1) = None) by exact Herr.
    destruct (IH (bytesSent + k) w1 Herr1 Htotal ltac:(lia) Hsmall ltac:(lia))
      as (w' & Hrun & Hon).
    exists w'. split; [exact Hrun|].
    destruct Hon as (Hsock & Hf & Hs & evs & Htr & Hevs).
    unfold sent_on. rewrite Hsock, Hf, Hs, Htr.
    split; [|split; [reflexivity|split; [reflexivity|]]].
    + destruct w as [[? ? ? ? ? ? ?] ? ? ?]. unfold set_tx. cbn. f_equal.
      rewrite <- app_assoc. f_equal.
      replace (Z.to_nat (bytesSent + k)) with (Z.to_nat bytesSent + Z.to_nat k)%nat by lia.
      rewrite <- drop_drop. fold rest. apply take_drop.
    + exists (EvSend (len rest) k :: evs). split.
      * subst w1. cbn [trace]. now rewrite <- app_assoc.
      * constructor; [exact I|exact Hevs].
Qed.

Lemma bytes_of_floats_length data : len (bytes_of_floats data) = 4 * len data.
Proof.
  unfold len, bytes_of_floats. induction data as [|x data IH]; [reflexivity|].
  cbn [flat_map]. rewrite length_app. cbn [host_store length]. lia.
Qed.

Lemma send_floats_ok data context w :
  tx_error (sock w) = None -> 4 * len data < two31 ->
  exists w',
    send_floats data context w = Some (true, w')
    /\ sent_on (bytes_of_floats data) w w'.
Proof.
  intros Herr Hsmall. unfold send_floats.
  assert (0 <= len data) by (unfold len; lia).
  rewrite to_size_t_id by (unfold two64, two31 in *; lia).
  destruct (Z.eqb_spec (len data * 4) 0) as [H0|H0].
  - exists w. split; [reflexivity|].
    destruct data; [apply sent_on_refl|unfold len in H0; cbn in H0; lia].
  - pose proof (bytes_of_floats_length data) as Hlen.
    destruct (send_floats_loop_ok (bytes_of_floats data) (len data * 4) context
                (Z.to_nat (len data * 4)) 0 w Herr ltac:(lia) ltac:(lia) ltac:(lia)
                ltac:(lia)) as (w' & Hrun & Hon).
    exists w'. split; [exact Hrun|exact Hon].
Qed.

Lemma recv_floats_loop_ok total context fuel : forall received bytesReceived w,
  0 <= bytesReceived <= total -> total < two31 ->
  total - bytesReceived <= len (rx (sock w)) ->
  (Z.to_nat (total - bytesReceived) <= fuel)%nat ->
  exists w',
    recv_floats_loop fuel received total bytesReceived context w
    = Some ((true, received ++ take (Z.to_nat (total - bytesReceived)) (rx (sock w))), w')
    /\ taken_from (Z.to_nat (total - bytesReceived)) w w'.
Proof.
  induction fuel as [|fuel IH]; intros received got w Hgot Hsmall Havail Hfuel.
  - assert (got = total) as -> by lia.
    cbn [recv_floats_loop]. rewrite Z.ltb_irrefl, Z.sub_diag. exists w.
    split; [cbn; now rewrite app_nil_r|apply taken_from_refl].
  - cbn [recv_floats_loop].
    destruct (Z.ltb_spec got total) as [Hlt|Hge].
    2:{ assert (got = total) as -> by lia. rewrite Z.sub_diag. exists w.
        split; [cbn; now rewrite app_nil_r|apply taken_from_refl]. }
    rewrite to_i32_id by (unfold two31 in *; lia).
    remember (total - got) as n eqn:Hn.
    set (k := Z.min n (Z.min (len (rx (sock w))) (Z.pos (rx_chunk (sock w))))).
    assert (Hk : 1 <= k <= n) by lia.
    set (w1 := mkWorld (set_rx (drop (Z.to_nat k) (rx (sock w))) (sock w))
                 (faults w) (sched w) (trace w ++ [EvRecv n false k])).
    assert (Hrecv : recv n false w = Some ((k, take (Z.to_nat k) (rx (sock w))), w1)).
    { unfold recv, bind, get_sock, put_sock, emit, ret, recv_sock. fold k.
      replace (k =? 0) with false by (symmetry; apply Z.eqb_neq; lia).
      cbn [andb orb]. rewrite andb_false_r. now rewrite Z.max_r by lia. }
    rewrite (bind_Some _ _ _ _ _ Hrecv).
    replace (k =? SOCKET_ERROR) with false
      by (symmetry; apply Z.eqb_neq; unfold SOCKET_ERROR; lia).
    replace (k =? 0) with false by (symmetry; apply Z.eqb_neq; lia).
    rewrite to_size_t_id by (unfold two64, two31 in *; lia).
    assert (Havail1 : total - (got + k) <= len (rx (sock w1))).
    { subst w1. unfold len in *. cbn [sock rx set_rx]. rewrite length_drop. lia. }
    assert (Hgk : 0 <= got + k <= total) by lia.
    assert (Hfuel1 : (Z.to_nat (total - (got + k)) <= fuel)%nat) by lia.
    destruct (IH (received ++ take (Z.to_nat k) (rx (sock w))) (got + k) w1
                Hgk Hsmall Havail1 Hfuel1) as (w' & Hrun & Hon).
    exists w'. split.
    + rewrite Hrun. do 2 f_equal. f_equal. rewrite <- app_assoc. f_equal.
      subst w1. cbn [sock rx set_rx].
      replace (Z.to_nat n) with (Z.to_nat k + Z.to_nat (total - (got + k)))%nat by lia.
      apply take_take_drop.
    + destruct Hon as (Hsock & Hf & Hs & evs & Htr & Hevs).
      unfold taken_from. rewrite Hsock, Hf, Hs, Htr.
      split; [|split; [reflexivity|split; [reflexivity|]]].
      * destruct w as [[? ? ? ? ? ? ?] ? ? ?]. unfold set_rx. cbn. f_equal.
        rewrite drop_drop. f_equal. lia.
      * exists (EvRecv n false k :: evs). split.
        -- subst w1. cbn [trace]. now rewrite <- app_assoc.
        -- constructor; [exact I|exact Hevs].
Qed.

Lemma resize_length count data : 0 <= count -> len (resize count data) = count.
Proof.
  intros H. unfold len, resize. rewrite length_app, length_take, length_replicate. lia.
Qed.

Lemma recv_floats_ok data count context w :
  0 < count -> 4 * count < two31 -> 4 * count <= len (rx (sock w)) ->
  exists w',
    recv_floats data count context w
    = Some ((true, floats_of_bytes (take (Z.to_nat (4 * count)) (rx (sock w)))), w')
    /\ taken_from (Z.to_nat (4 * count)) w w'.
Proof.
  intros Hc Hsmall Havail. unfold recv_floats.
  replace (count =? 0) with false by (symmetry; apply Z.eqb_neq; lia).
  rewrite to_size_t_id by (unfold two64, two31 in *; lia).
  destruct (recv_floats_loop_ok (count * 4) context (Z.to_nat (count * 4)) [] 0 w
              ltac:(lia) ltac:(lia) ltac:(lia) ltac:(lia)) as (w' & Hrun & Hon).
  rewrite (bind_Some _ _ _ _ _ Hrun). exists w'.
  rewrite Z.sub_0_r in *. replace (count * 4) with (4 * count) in * by lia.
  split; [|exact Hon].
  unfold ret. do 3 f_equal. cbn [app].
  rewrite drop_ge, app_nil_r; [reflexivity|].
  pose proof (bytes_of_floats_length (resize count data)) as Hb.
  rewrite resize_length in Hb by lia.
  rewrite length_take. unfold len in *. lia.
Qed.

Lemma floats_of_bytes_length bytes (n : nat) :
  length bytes = (4 * n)%nat -> length (floats_of_bytes bytes) = n.
Proof.
  revert bytes. induction n as [|n IH]; intros bytes Hlen.
  - destruct bytes; [reflexivity|discriminate].
  - destruct bytes as [|b0 [|b1 [|b2 [|b3 rest]]]]; try (cbn in Hlen; lia).
    cbn [floats_of_bytes length]. f_equal. apply IH. cbn in Hlen. lia.
Qed.

Lemma host_load_range b0 b1 b2 b3 :
  is_byte b0 -> is_byte b1 -> is_byte b2 -> is_byte b3 ->
  0 <= host_load [b0; b1; b2; b3] < two32.
Proof. unfold is_byte, host_load, two32. cbn [foldr]. lia. Qed.

Lemma floats_of_bytes_patterns bytes :
  Forall is_byte bytes -> patterns (floats_of_bytes bytes).
Proof.
  unfold patterns. remember (length bytes) as n eqn:Hn. revert bytes Hn.
  induction n as [n IH] using lt_wf_ind. intros bytes Hn Hb.
  destruct bytes as [|b0 [|b1 [|b2 [|b3 rest]]]]; try constructor.
  - apply Forall_cons in Hb as [H0 Hb]. apply Forall_cons in Hb as [H1 Hb].
    apply Forall_cons in Hb as [H2 Hb]. apply Forall_cons in Hb as [H3 _].
    now apply host_load_range.
  - apply (IH (length rest)); [cbn in Hn; lia|reflexivity|].
    now do 4 apply Forall_cons in Hb as [_ Hb].
Qed.

(** ** Steps of the handler *)

Lemma consistent_settled state :
  consistent state -> processingStarted state = false \/ processingDone state = true ->
  forall bad_alloc, workerThread state <> Running bad_alloc.
Proof.
  intros (_ & _ & _ & Hrun) Hflags b Hb.
  destruct (Hrun b Hb) as (_ & Hs & Hd). destruct Hflags; congruence.
Qed.


Lemma sent_on_gave bytes w : sent_on bytes w (gave bytes w).
Proof.
  unfold sent_on, gave. cbn. repeat split.
  exists [EvSend (len bytes) (len bytes)]. split; [reflexivity|].
  constructor; [exact I|constructor].
Qed.

Lemma sent_on_trans a b w w1 w2 :
  sent_on a w w1 -> sent_on b w1 w2 -> sent_on (a ++ b) w w2.
Proof.
  intros (Hs1 & Hf1 & Hc1 & ev1 & Ht1 & He1) (Hs2 & Hf2 & Hc2 & ev2 & Ht2 & He2).
  unfold sent_on. rewrite Hs2, Hf2, Hc2, Ht2, Hs1, Hf1, Hc1, Ht1.
  split; [|split; [reflexivity|split; [reflexivity|]]].
  - destruct (sock w). unfold set_tx. cbn. now rewrite app_assoc.
  - exists (ev1 ++ ev2). split; [now rewrite app_assoc|].
    apply Forall_app. now split.
Qed.

Lemma sent_on_tx_ready bytes w w' : sent_on bytes w w' -> tx_ready w -> tx_ready w'.
Proof.
  intros (Hs & _) H. unfold tx_ready in *. rewrite Hs.
  destruct (sock w). exact H.
Qed.

Lemma taken_from_tx_ready n w w' : taken_from n w w' -> tx_ready w -> tx_ready w'.
Proof.
  intros (Hs & _) H. unfold tx_ready in *. rewrite Hs.
  destruct (sock w). exact H.
Qed.

Lemma sent_on_tx bytes w w' :
  sent_on bytes w w' -> tx (sock w') = tx (sock w) ++ bytes.
Proof. intros (Hs & _). rewrite Hs. now destruct (sock w). Qed.

Lemma sent_on_rx bytes w w' : sent_on bytes w w' -> rx (sock w') = rx (sock w).
Proof. intros (Hs & _). rewrite Hs. now destruct (sock w). Qed.

Lemma handle_status_ok state w :
  tx_ready w ->
  (processingDone state = true -> 4 * len (resultData state) < two31) ->
  exists w',
    handle_status state w = Some ((state, true), w')
    /\ sent_on (status_reply state) w w'.
Proof.
  intros Hready Hsmall. unfold handle_status, status_reply.
  destruct (errorOccurred state); [|destruct (processingDone state) eqn:Hdone];
    [| |destruct (processingStarted state)].
  all: rewrite (bind_Some _ _ _ _ _ (send_uint32_ok _ _ w Hready)); cbn [negb].
  1,3,4: eexists; split; [reflexivity|apply sent_on_gave].
  pose proof (gave_tx_ready (be_bytes RESP_RESULT) w Hready) as Hready1.
  rewrite (bind_Some _ _ _ _ _ (send_uint32_ok _ _ _ Hready1)); cbn [negb].
  destruct (send_floats_ok (resultData state) "send result data"
              (gave (be_bytes (matrixSize state)) (gave (be_bytes RESP_RESULT) w))
              (proj1 Hready) (Hsmall eq_refl)) as (w' & Hrun & Hon).
  rewrite (bind_Some _ _ _ _ _ Hrun); cbn [negb].
  exists w'. split; [reflexivity|].
  eapply sent_on_trans; [apply sent_on_gave|].
  eapply sent_on_trans; [apply sent_on_gave|exact Hon].
Qed.

Lemma dispatch_status state : dispatch CMD_GET_STATUS state = handle_status state.
Proof. reflexivity. Qed.

Lemma dispatch_start state : dispatch CMD_START_COMP state = handle_start state.
Proof. reflexivity. Qed.

Lemma dispatch_config state : dispatch CMD_CONFIG_DATA state = handle_config state.
Proof. reflexivity. Qed.

Lemma handle_command_dispatch state w command rest :
  rx (sock w) = be_bytes command ++ rest -> 0 <= command < two32 ->
  handle_command state w = dispatch command state (took 4 true w).
Proof.
  intros Hrx Hc. unfold handle_command.
  now rewrite (bind_Some _ _ _ _ _ (recv_uint32_value 0 _ w command rest Hrx Hc)).
Qed.

Lemma consistent_result_small state :
  consistent state -> processingDone state = true ->
  len (resultData state) = matrixSize state * matrixSize state
  /\ 4 * len (resultData state) < two31.
Proof.
  intros (_ & Hdata & Hdone & _) H. destruct (Hdone H) as [Hrecv Hlen].
  destruct (Hdata Hrecv) as [HN Hm]. unfold len. rewrite Hlen, Hm.
  unfold two31. nia.
Qed.



(** *** START *)

Lemma join_worker_settled state w :
  (forall bad_alloc, workerThread state <> Running bad_alloc) ->
  exists w',
    join_worker state w = Some (set_workerThread NotJoinable state, w')
    /\ w' = (if joinable (workerThread state) then noted EvJoin w else w).
Proof.
  intros Hnr. unfold join_worker.
  destruct (workerThread state) as [|b|] eqn:Hth.
  - eexists. split; [|reflexivity]. unfold ret. do 2 f_equal.
    destruct state. cbn in Hth. subst. reflexivity.
  - now destruct (Hnr b).
  - eexists. split; reflexivity.
Qed.

Lemma next_fault_eq w : next_fault w = Some (hd false (faults w), after_fault w).
Proof. destruct w as [s [|b fl] sc tr]; reflexivity. Qed.

Lemma emit_eq e w : emit e w = Some (tt, noted e w).
Proof. reflexivity. Qed.

Lemma handle_start_spawns state w :
  dataReceived state = true -> processingStarted state = false ->
  (forall bad_alloc, workerThread state <> Running bad_alloc) ->
  tx_ready w ->
  exists w',
    handle_start state w = Some ((started (hd false (faults w)) state, true), w')
    /\ tx (sock w') = tx (sock w) ++ be_bytes RESP_ACK
    /\ rx (sock w') = rx (sock w)
    /\ trace w' = trace w ++ (if joinable (workerThread state) then [EvJoin] else [])
                          ++ [EvSpawn; EvSend 4 4].
Proof.
  intros Hdata Hstarted Hnr Hready. unfold handle_start.
  rewrite Hdata, Hstarted. cbn [negb].
  destruct (join_worker_settled state w Hnr) as (w1 & Hjoin & Hw1).
  rewrite (bind_Some _ _ _ _ _ Hjoin).
  assert (Hready1 : tx_ready w1).
  { subst w1. now destruct (joinable _). }
  rewrite (bind_Some _ _ _ _ _ (next_fault_eq w1)).
  rewrite (bind_Some _ _ _ _ _ (emit_eq EvSpawn _)).
  assert (Hready2 : tx_ready (noted EvSpawn (after_fault w1))) by exact Hready1.
  rewrite (bind_Some _ _ _ _ _ (send_uint32_ok _ _ _ Hready2)).
  eexists. split.
  - assert (Hf : faults w1 = faults w) by (subst w1; now destruct (joinable _)).
    unfold ret. rewrite Hf. reflexivity.
  - subst w1. destruct (joinable _); cbn; repeat split; now rewrite <- ?app_assoc.
Qed.

(** C2 (amended).  In session state Done a CMD_START is answered with
    RESP_ACK and spawns a new worker on the data already configured:
    running = 1, done = 0, failed = 0 afterwards. *)
Theorem start_in_done_restarts state w rest :
  rx (sock w) = be_bytes CMD_START_COMP ++ rest -> tx_ready w ->
  dataReceived state = true -> processingDone state = true ->
  processingStarted state = false -> errorOccurred state = false ->
  consistent state ->
  exists state' w',
    handle_command state w = Some ((state', true), w')
    /\ rx (sock w') = rest
    /\ tx (sock w') = tx (sock w) ++ be_bytes RESP_ACK
    /\ processingStarted state' = true
    /\ processingDone state' = false
    /\ errorOccurred state' = false
    /\ (exists bad_alloc, workerThread state' = Running bad_alloc)
    /\ In EvSpawn (trace w')
    /\ matrixSize state' = matrixSize state
    /\ numThreads state' = numThreads state
    /\ matrixData state' = matrixData state.
Proof.
  intros Hrx Hready Hdata Hdone Hstarted Herr Hcons.
  pose proof (consistent_settled state Hcons (or_introl Hstarted)) as Hnr.
  rewrite (handle_command_dispatch state w CMD_START_COMP rest Hrx)
    by (unfold CMD_START_COMP, two32; lia).
  rewrite dispatch_start.
  destruct (handle_start_spawns state (took 4 true w) Hdata Hstarted Hnr
              (took_tx_ready _ _ _ Hready)) as (w' & Hrun & Htx & Hrx' & Htr).
  eexists. exists w'. split; [exact Hrun|].
  split.
  { rewrite Hrx'. now apply (took_rx 4 true w (be_bytes CMD_START_COMP)). }
  split; [exact Htx|].
  repeat split; try reflexivity.
  - eexists. reflexivity.
  - rewrite Htr. apply in_or_app. right. apply in_or_app. right. now left.
Qed.

Lemma start_in_done_restarts_witness :
  let state := done_example in
  let w := world_of (be_bytes CMD_START_COMP) in
  exists state' w',
    handle_command state w = Some ((state', true), w')
    /\ rx (sock w') = []
    /\ tx (sock w') = tx (sock w) ++ be_bytes RESP_ACK
    /\ processingStarted state' = true
    /\ processingDone state' = false
    /\ errorOccurred state' = false
    /\ (exists bad_alloc, workerThread state' = Running bad_alloc)
    /\ In EvSpawn (trace w')
    /\ matrixSize state' = matrixSize state
    /\ numThreads state' = numThreads state
    /\ matrixData state' = matrixData state.
Proof.
  intros state w.
  apply (start_in_done_restarts state w []);
    [reflexivity | split; [reflexivity|vm_compute; congruence]
    | reflexivity | reflexivity | reflexivity | reflexivity | ].
  unfold consistent, state, done_example, two32. cbn.
  repeat split; try lia; try reflexivity; congruence.
Defined.

(** C2 as stated fails: in state Done the reply to CMD_START is RESP_ACK,
    not RESP_ERROR, and a worker has been spawned. *)
Lemma start_in_done_is_acknowledged :
  exists state' w',
    handle_command done_example (world_of (be_bytes CMD_START_COMP))
    = Some ((state', true), w')
    /\ tx (sock w') = be_bytes RESP_ACK
    /\ tx (sock w') <> be_bytes RESP_ERROR
    /\ workerThread state' = Running false
    /\ processingStarted state' = true
    /\ In EvSpawn (trace w').
Proof.
  eexists. eexists. split; [vm_compute; reflexivity|].
  repeat split; try reflexivity.
  - intros H. discriminate H.
  - cbn. tauto.
Qed.

(** *** CONFIG *)

Lemma perform_computation_total bad_alloc state :
  1 <= matrixSize state <= 3000 -> 0 <= numThreads state < two32 ->
  length (matrixData state) = Z.to_nat (matrixSize state * matrixSize state) ->
  exists state',
    perform_computation bad_alloc state = Some state'
    /\ matrixSize state' = matrixSize state
    /\ numThreads state' = numThreads state
    /\ matrixData state' = matrixData state
    /\ dataReceived state' = dataReceived state
    /\ workerThread state' = workerThread state
    /\ processingStarted state' = false
    /\ processingDone state' = negb bad_alloc
    /\ errorOccurred state' = bad_alloc
    /\ (bad_alloc = false -> length (resultData state') = length (matrixData state)).
Proof.
  intros HN HT Hlen. destruct bad_alloc.
  - eexists. split; [reflexivity|]. repeat split. discriminate.
  - destruct (perform_computation_run state HN HT Hlen) as (result & Hrun & Hu).
    eexists. split; [exact Hrun|]. repeat split. intros _. apply Hu.
Qed.

Lemma join_worker_total state w :
  1 <= matrixSize state <= 3000 -> 0 <= numThreads state < two32 ->
  length (matrixData state) = Z.to_nat (matrixSize state * matrixSize state) ->
  exists state',
    join_worker state w
    = Some (state', if joinable (workerThread state) then noted EvJoin w else w)
    /\ after_join state state'.
Proof.
  intros HN HT Hlen. unfold join_worker, after_join.
  destruct (workerThread state) as [|b|] eqn:Hth.
  - exists state. cbn [joinable]. repeat split; try reflexivity. exact Hth.
  - destruct (perform_computation_total b state HN HT Hlen)
      as (s1 & Hrun & H1 & H2 & H3 & H4 & H5 & H6 & H7 & H8 & H9).
    exists (set_workerThread NotJoinable s1). split.
    + rewrite (bind_Some _ _ _ _ _ (emit_eq EvJoin w)). now rewrite Hrun.
    + repeat split; assumption.
  - exists (set_workerThread NotJoinable state). repeat split.
Qed.

Lemma handle_config_ok state w N T rest :
  rx (sock w) = be_bytes N ++ be_bytes T ++ rest ->
  1 <= N <= 3000 -> 0 <= T < two32 -> 4 * (N * N) <= len rest -> tx_ready w ->
  let data := floats_of_bytes (take (Z.to_nat (4 * (N * N))) rest) in
  exists state' w1 w2,
    handle_config state w
    = Some ((state', true),
            gave (be_bytes RESP_ACK)
              (if joinable (workerThread state) then noted EvJoin w2 else w2))
    /\ w1 = took 4 true (took 4 true w)
    /\ taken_from (Z.to_nat (4 * (N * N))) w1 w2
    /\ after_join (received N T data state) state'
    /\ length data = Z.to_nat (N * N).
Proof.
  intros Hrx HN HT Havail Hready data. unfold handle_config.
  rewrite (bind_Some _ _ _ _ _
             (recv_uint32_value _ _ w N (be_bytes T ++ rest) Hrx
                ltac:(unfold two32; lia))).
  cbn [negb matrixSize numThreads set_matrixSize set_numThreads].
  assert (Hrx1 : rx (sock (took 4 true w)) = be_bytes T ++ rest).
  { now apply (took_rx 4 true w (be_bytes N)). }
  rewrite (bind_Some _ _ _ _ _ (recv_uint32_value _ _ _ T rest Hrx1 HT)).
  cbn [negb matrixSize numThreads set_matrixSize set_numThreads].
  replace (N =? 0) with false by (symmetry; apply Z.eqb_neq; lia).
  replace (N >? 3000) with false by (symmetry; rewrite Z.gtb_ltb; apply Z.ltb_ge; lia).
  cbn [orb].
  rewrite (to_size_t_id N) by (unfold two64; lia).
  rewrite (to_size_t_id (N * N)) by (unfold two64; nia).
  set (w1 := took 4 true (took 4 true w)).
  assert (Hrx2 : rx (sock w1) = rest).
  { now apply (took_rx 4 true (took 4 true w) (be_bytes T)). }
  destruct (recv_floats_ok (matrixData state) (N * N) "recv matrix data" w1
              ltac:(nia) ltac:(unfold two31; nia) ltac:(rewrite Hrx2; lia))
    as (w2 & Hrecv & Htaken).
  rewrite Hrx2 in Hrecv. fold data in Hrecv.
  rewrite (bind_Some _ _ _ _ _ Hrecv). cbn [negb].
  assert (Hdata : length data = Z.to_nat (N * N)).
  { apply floats_of_bytes_length. rewrite length_take. unfold len in Havail. lia. }
  destruct (join_worker_total (received N T data state) w2)
    as (state' & Hjoin & Hafter); cbn; try assumption; try lia.
  change (set_errorOccurred false
            (set_processingDone false
               (set_processingStarted false
                  (set_dataReceived true
                     (set_matrixData data
                        (set_numThreads T (set_matrixSize N state)))))))
    with (received N T data state).
  rewrite (bind_Some _ _ _ _ _ Hjoin).
  assert (Hready2 : tx_ready (if joinable (workerThread state)
                              then noted EvJoin w2 else w2)).
  { assert (tx_ready w2).
    { eapply taken_from_tx_ready; [exact Htaken|]. exact Hready. }
    now destruct (joinable _). }
  cbn [workerThread received set_errorOccurred set_processingDone
         set_processingStarted set_dataReceived set_matrixData set_numThreads
         set_matrixSize] in Hjoin |- *.
  rewrite (bind_Some _ _ _ _ _ (send_uint32_ok _ _ _ Hready2)).
  exists state', w1, w2.
  split; [reflexivity|]. split; [reflexivity|]. split; [exact Htaken|].
  split; [exact Hafter|exact Hdata].
Qed.

Lemma log_eq line w : log line w = Some (tt, noted (EvLog line) w).
Proof. reflexivity. Qed.


Lemma taken_from_rx n w w' : taken_from n w w' -> rx (sock w') = drop n (rx (sock w)).
Proof. intros (Hs & _). rewrite Hs. now destruct (sock w). Qed.

Lemma taken_from_tx n w w' : taken_from n w w' -> tx (sock w') = tx (sock w).
Proof. intros (Hs & _). rewrite Hs. now destruct (sock w). Qed.

(** The whole turn for a CONFIG_DATA with a valid size whose payload is on
    the stream. *)
Lemma config_turn state w N T rest :
  rx (sock w) = be_bytes CMD_CONFIG_DATA ++ be_bytes N ++ be_bytes T ++ rest ->
  1 <= N <= 3000 -> 0 <= T < two32 -> 4 * (N * N) <= len rest -> tx_ready w ->
  let data := floats_of_bytes (take (Z.to_nat (4 * (N * N))) rest) in
  exists state' w' evs,
    handle_command state w = Some ((state', true), w')
    /\ after_join (received N T data state) state'
    /\ length data = Z.to_nat (N * N)
    /\ rx (sock w') = drop (Z.to_nat (4 * (N * N))) rest
    /\ tx (sock w') = tx (sock w) ++ be_bytes RESP_ACK
    /\ Forall is_recv evs
    /\ trace w' = trace w ++ [EvRecv 4 true 4; EvRecv 4 true 4; EvRecv 4 true 4]
                  ++ evs
                  ++ (if joinable (workerThread state) then [EvJoin] else [])
                  ++ [EvSend 4 4].
Proof.
  intros Hrx HN HT Havail Hready data.
  rewrite (handle_command_dispatch state w CMD_CONFIG_DATA _ Hrx)
    by (unfold CMD_CONFIG_DATA, two32; lia).
  rewrite dispatch_config.
  assert (Hrx0 : rx (sock (took 4 true w)) = be_bytes N ++ be_bytes T ++ rest).
  { now apply (took_rx 4 true w (be_bytes CMD_CONFIG_DATA)). }
  destruct (handle_config_ok state (took 4 true w) N T rest Hrx0 HN HT Havail
              (took_tx_ready _ _ _ Hready))
    as (state' & w1 & w2 & Hrun & Hw1 & Htaken & Hjoin & Hdata).
  fold data in Hrun, Hjoin, Hdata.
  assert (Hrx2 : rx (sock w1) = rest).
  { subst w1. apply (took_rx 4 true _ (be_bytes T)); [|reflexivity].
    now apply (took_rx 4 true _ (be_bytes N)). }
  pose proof (taken_from_rx _ _ _ Htaken) as Hrxw2. rewrite Hrx2 in Hrxw2.
  pose proof (taken_from_tx _ _ _ Htaken) as Htxw2.
  destruct Htaken as (_ & _ & _ & evs & Htr & Hevs).
  exists state', (gave (be_bytes RESP_ACK)
                   (if joinable (workerThread state) then noted EvJoin w2 else w2)), evs.
  split; [exact Hrun|]. split; [exact Hjoin|].
  split; [exact Hdata|].
  split; [now destruct (joinable _)|].
  split.
  { destruct (joinable _); cbn; rewrite Htxw2; subst w1; reflexivity. }
  split; [exact Hevs|].
  destruct (joinable _); cbn; rewrite Htr; subst w1; cbn;
    now rewrite <- !app_assoc.
Qed.





(** ** Failures of [recv_uint32] *)

Lemma recv_waitall_short n w :
  len (rx (sock w)) < n ->
  recv n true w
  = match rx_fin (sock w) with
    | PeerShutdown =>
        Some ((len (rx (sock w)), rx (sock w)),
              mkWorld (set_rx [] (sock w)) (faults w) (sched w)
                (trace w ++ [EvRecv n true (len (rx (sock w)))]))
    | RxError code => Some ((SOCKET_ERROR, []), failed_recv n true code w)
    end.
Proof.
  intros Hn. unfold recv, bind, get_sock, put_sock, emit, ret, recv_sock.
  assert (0 <= len (rx (sock w))) by (unfold len; lia).
  rewrite Z.min_r by lia.
  replace (0 <? n) with true by (symmetry; apply Z.ltb_lt; lia).
  replace (len (rx (sock w)) <? n) with true by (symmetry; apply Z.ltb_lt; lia).
  rewrite orb_true_r. cbn [andb].
  destruct (rx_fin (sock w)); [|reflexivity].
  unfold len. rewrite Nat2Z.id, take_ge, drop_ge by lia. reflexivity.
Qed.

(** The stream ends at byte 0. *)
Lemma recv_uint32_peer_closed value context w :
  rx (sock w) = [] -> rx_fin (sock w) = PeerShutdown ->
  recv_uint32 value context w
  = Some ((false, overwritten value []),
          noted (EvLog (LogRecvU32Disconnected context))
            (mkWorld (set_rx [] (sock w)) (faults w) (sched w)
               (trace w ++ [EvRecv 4 true 0]))).
Proof.
  intros Hrx Hfin. unfold recv_uint32.
  assert (Hlen : len (rx (sock w)) < 4) by (rewrite Hrx; unfold len; cbn; lia).
  pose proof (recv_waitall_short 4 w Hlen) as Hr. rewrite Hfin in Hr.
  rewrite (bind_Some _ _ _ _ _ Hr), Hrx. reflexivity.
Qed.

(** The stream ends between bytes 1 and 3. *)
Lemma recv_uint32_truncated value context w :
  rx (sock w) <> [] -> len (rx (sock w)) < 4 -> rx_fin (sock w) = PeerShutdown ->
  recv_uint32 value context w
  = Some ((false, overwritten value (rx (sock w))),
          noted (EvLog (LogRecvU32Incomplete context (len (rx (sock w)))))
            (mkWorld (set_rx [] (sock w)) (faults w) (sched w)
               (trace w ++ [EvRecv 4 true (len (rx (sock w)))]))).
Proof.
  intros Hrx Hlen Hfin. unfold recv_uint32.
  pose proof (recv_waitall_short 4 w Hlen) as Hr. rewrite Hfin in Hr.
  rewrite (bind_Some _ _ _ _ _ Hr).
  assert (Hpos : 0 < len (rx (sock w))).
  { destruct (rx (sock w)); [congruence|unfold len; cbn; lia]. }
  replace (len (rx (sock w)) =? 4) with false by (symmetry; apply Z.eqb_neq; lia).
  replace (len (rx (sock w)) =? 0) with false by (symmetry; apply Z.eqb_neq; lia).
  replace (len (rx (sock w)) =? SOCKET_ERROR) with false
    by (symmetry; apply Z.eqb_neq; unfold SOCKET_ERROR; lia).
  reflexivity.
Qed.

(** The transport fails. *)
Lemma recv_uint32_transport_error value context w code :
  len (rx (sock w)) < 4 -> rx_fin (sock w) = RxError code ->
  recv_uint32 value context w
  = Some ((false, overwritten value []),
          (if code =? WSAECONNRESET
           then noted (EvLog LogConnectionReset)
           else fun w => w)
            (noted (EvLog (LogRecvU32Failed context code))
               (failed_recv 4 true code w))).
Proof.
  intros Hlen Hfin. unfold recv_uint32.
  pose proof (recv_waitall_short 4 w Hlen) as Hr. rewrite Hfin in Hr.
  rewrite (bind_Some _ _ _ _ _ Hr).
  change (SOCKET_ERROR =? 4) with false. change (SOCKET_ERROR =? 0) with false.
  change (SOCKET_ERROR =? SOCKET_ERROR) with true. cbv beta iota.
  unfold WSAGetLastError, bind at 1 2, get_sock, ret at 1, failed_recv.
  cbn [sock last_error set_last_error].
  destruct (code =? WSAECONNRESET); reflexivity.
Qed.

Lemma recv_uint32_short value context w :
  len (rx (sock w)) < 4 ->
  exists v w',
    recv_uint32 value context w = Some ((false, v), w')
    /\ tx (sock w') = tx (sock w).
Proof.
  intros Hlen. destruct (rx_fin (sock w)) as [|code] eqn:Hfin.
  - destruct (rx (sock w)) as [|b bs] eqn:Hrx.
    + rewrite (recv_uint32_peer_closed _ _ _ Hrx Hfin). eexists. eexists.
      split; [reflexivity|]. now destruct (sock w).
    + rewrite <- Hrx in *.
      rewrite (recv_uint32_truncated value context w); try assumption.
      * eexists. eexists. split; [reflexivity|]. now destruct (sock w).
      * rewrite Hrx. congruence.
  - rewrite (recv_uint32_transport_error _ _ _ code Hlen Hfin). eexists. eexists.
    split; [reflexivity|].
    destruct w as [[? ? ? ? ? ? ?] ? ? ?]. now destruct (code =? WSAECONNRESET).
Qed.

(** ** The client's [recv_uint32_or_throw] *)

Section ClientCodec.

Variable FormatMessage : Z -> option string.

Lemma client_recv_uint32_bytes context w b0 b1 b2 b3 rest :
  rx (sock w) = b0 :: b1 :: b2 :: b3 :: rest ->
  is_byte b0 -> is_byte b1 -> is_byte b2 -> is_byte b3 ->
  Client.recv_uint32_or_throw FormatMessage context w
  = Some (Client.Returns (be_decode b0 b1 b2 b3), took 4 true w).
Proof.
  intros Hrx H0 H1 H2 H3. unfold Client.recv_uint32_or_throw.
  rewrite (bind_Some _ _ _ _ _
             (recv_waitall 4 w ltac:(rewrite Hrx; unfold len; cbn [length]; lia))).
  rewrite Hrx. change (Z.to_nat 4) with 4%nat. unfold host_store.
  cbn [take length drop app]. change (4 =? 4) with true. cbv beta iota.
  unfold ret. now rewrite ntohl_host_load.
Qed.

Lemma client_recv_uint32_short context w :
  len (rx (sock w)) < 4 ->
  exists w',
    Client.recv_uint32_or_throw FormatMessage context w
    = Some (Client.Throws (client_what FormatMessage context w), w').
Proof.
  intros Hlen. unfold Client.recv_uint32_or_throw, client_what, stream_failure.
  pose proof (recv_waitall_short 4 w Hlen) as Hr.
  destruct (rx_fin (sock w)) as [|code] eqn:Hfin.
  - rewrite (bind_Some _ _ _ _ _ Hr).
    destruct (rx (sock w)) as [|b bs] eqn:Hrx.
    + eexists. reflexivity.
    + assert (Hpos : 0 < len (b :: bs)) by (unfold len; cbn; lia).
      replace (len (b :: bs) =? 4) with false by (symmetry; apply Z.eqb_neq; lia).
      replace (len (b :: bs) =? 0) with false by (symmetry; apply Z.eqb_neq; lia).
      replace (len (b :: bs) =? SOCKET_ERROR) with false
        by (symmetry; apply Z.eqb_neq; unfold SOCKET_ERROR; lia).
      eexists. reflexivity.
  - rewrite (bind_Some _ _ _ _ _ Hr). eexists. reflexivity.
Qed.

Lemma client_messages_differ context w1 w2 :
  stream_failure w1 <> stream_failure w2 ->
  client_what FormatMessage context w1 <> client_what FormatMessage context w2.
Proof.
  intros Hne. unfold client_what.
  destruct (stream_failure w1), (stream_failure w2); try congruence;
    cbn [append Client.LOG_PREFIX]; discriminate.
Qed.

(** C8 (amended).  On a stream with four bytes left both codecs take
    exactly those four bytes and return their big-endian value.  On a
    stream that ends or fails earlier the server's [recv_uint32] returns
    [false] whatever the cause, and the client's [recv_uint32_or_throw]
    throws a [std::runtime_error] whose text differs between any two
    causes. *)
Theorem read_u32_outcomes value context w b0 b1 b2 b3 rest w1 w2 :
  rx (sock w) = b0 :: b1 :: b2 :: b3 :: rest ->
  is_byte b0 -> is_byte b1 -> is_byte b2 -> is_byte b3 ->
  len (rx (sock w1)) < 4 -> len (rx (sock w2)) < 4 ->
  stream_failure w1 <> stream_failure w2 ->
  (recv_uint32 value context w = Some ((true, be_decode b0 b1 b2 b3), took 4 true w)
   /\ Client.recv_uint32_or_throw FormatMessage context w
      = Some (Client.Returns (be_decode b0 b1 b2 b3), took 4 true w)
   /\ rx (sock (took 4 true w)) = rest)
  /\ (exists v1 v2 w1' w2',
        recv_uint32 value context w1 = Some ((false, v1), w1')
        /\ recv_uint32 value context w2 = Some ((false, v2), w2'))
  /\ (exists w1' w2',
        Client.recv_uint32_or_throw FormatMessage context w1
        = Some (Client.Throws (client_what FormatMessage context w1), w1')
        /\ Client.recv_uint32_or_throw FormatMessage context w2
           = Some (Client.Throws (client_what FormatMessage context w2), w2')
        /\ client_what FormatMessage context w1 <> client_what FormatMessage context w2).
Proof.
  intros Hrx H0 H1 H2 H3 Hs1 Hs2 Hne. split; [|split].
  - split; [now apply (recv_uint32_bytes value context w b0 b1 b2 b3 rest)|].
    split; [now apply (client_recv_uint32_bytes context w b0 b1 b2 b3 rest)|].
    now apply (took_rx 4 true w [b0; b1; b2; b3]).
  - destruct (recv_uint32_short value context w1 Hs1) as (v1 & w1' & E1 & _).
    destruct (recv_uint32_short value context w2 Hs2) as (v2 & w2' & E2 & _).
    now exists v1, v2, w1', w2'.
  - destruct (client_recv_uint32_short context w1 Hs1) as (w1' & E1).
    destruct (client_recv_uint32_short context w2 Hs2) as (w2' & E2).
    exists w1', w2'. split; [exact E1|]. split; [exact E2|].
    now apply client_messages_differ.
Qed.

End ClientCodec.

Lemma read_u32_outcomes_witness :
  let F := fun _ : Z => @None string in
  let w := world_of (be_bytes RESP_ACK) in
  let w1 := world_of [] in
  let w2 := world_of [0; 0] in
  (recv_uint32 0 "recv" w = Some ((true, be_decode 0 0 0 10), took 4 true w)
   /\ Client.recv_uint32_or_throw F "recv" w
      = Some (Client.Returns (be_decode 0 0 0 10), took 4 true w)
   /\ rx (sock (took 4 true w)) = [])
  /\ (exists v1 v2 w1' w2',
        recv_uint32 0 "recv" w1 = Some ((false, v1), w1')
        /\ recv_uint32 0 "recv" w2 = Some ((false, v2), w2'))
  /\ (exists w1' w2',
        Client.recv_uint32_or_throw F "recv" w1
        = Some (Client.Throws (client_what F "recv" w1), w1')
        /\ Client.recv_uint32_or_throw F "recv" w2
           = Some (Client.Throws (client_what F "recv" w2), w2')
        /\ client_what F "recv" w1 <> client_what F "recv" w2).
Proof.
  intros F w w1 w2.
  apply (read_u32_outcomes F 0 "recv" w 0 0 0 10 [] w1 w2);
    try reflexivity; try (unfold is_byte; lia).
  vm_compute. congruence.
Defined.

(** C8 as stated fails for the server: a peer that closed at byte 0 and a
    connection reset give the caller of [recv_uint32] the same result. *)
Lemma recv_uint32_hides_cause :
  let w1 := world_of [] in
  let w2 := world_failing [] WSAECONNRESET in
  stream_failure w1 = PeerClosed
  /\ stream_failure w2 = TransportError
  /\ fst <$> recv_uint32 0 "waiting for command" w1 = Some (false, 0)
  /\ fst <$> recv_uint32 0 "waiting for command" w2 = Some (false, 0).
Proof. repeat split. Qed.

(** ** The order of join and receive *)

Lemma done_example_consistent : consistent done_example.
Proof.
  unfold consistent, done_example, two32. cbn.
  repeat split; try lia; try reflexivity; congruence.
Qed.

(** C3.  The code at the failing input: a CONFIG_DATA that arrives while
    the worker started on [[7.0]] is still running.  The handler takes
    N, T and the payload from the stream first and joins the worker only
    then; the worker's run ends inside the join, after the flags were
    reset, so the session comes out of the CONFIG with done = 1. *)
Theorem config_while_running_joins_last :
  let w := world_of (be_bytes CMD_CONFIG_DATA ++ be_bytes 1 ++ be_bytes 1 ++ host_store f9) in
  exists state' w',
    workerThread running_example = Running false
    /\ handle_command running_example w = Some ((state', true), w')
    /\ trace w' = [EvRecv 4 true 4; EvRecv 4 true 4; EvRecv 4 true 4;
                   EvRecv 4 false 4; EvJoin; EvSend 4 4]
    /\ matrixData state' = [f9]
    /\ resultData state' = [f9]
    /\ processingDone state' = true.
Proof.
  intros w. eexists. eexists. split; [reflexivity|].
  split; [vm_compute; reflexivity|]. repeat split.
Qed.

(** In general: whenever a CONFIG_DATA with a valid size and its payload
    is handled while a worker thread is joinable, every [recv] of the turn
    comes before the join. *)
Lemma config_joins_after_payload state w N T rest :
  rx (sock w) = be_bytes CMD_CONFIG_DATA ++ be_bytes N ++ be_bytes T ++ rest ->
  1 <= N <= 3000 -> 0 <= T < two32 -> 4 * (N * N) <= len rest -> tx_ready w ->
  joinable (workerThread state) = true ->
  exists state' w' evs,
    handle_command state w = Some ((state', true), w')
    /\ Forall is_recv evs
    /\ evs <> []
    /\ trace w' = trace w ++ evs ++ [EvJoin; EvSend 4 4].
Proof.
  intros Hrx HN HT Havail Hready Hj.
  destruct (config_turn state w N T rest Hrx HN HT Havail Hready)
    as (state' & w' & evs & Hrun & _ & _ & _ & _ & Hevs & Htr).
  rewrite Hj in Htr.
  exists state', w', ([EvRecv 4 true 4; EvRecv 4 true 4; EvRecv 4 true 4] ++ evs).
  split; [exact Hrun|]. split.
  - apply Forall_app. split; [|exact Hevs]. repeat constructor.
  - split; [discriminate|]. rewrite Htr. now rewrite <- !app_assoc.
Qed.

(** ** Repeated polls *)

Lemma next_sched_eq w : next_sched w = Some (hd false (sched w), after_sched w).
Proof. destruct w as [s fl [|b sc] tr]; reflexivity. Qed.

Lemma worker_progress_settled state w :
  (forall bad_alloc, workerThread state <> Running bad_alloc) ->
  worker_progress state w = Some (state, after_sched w).
Proof.
  intros Hnr. unfold worker_progress.
  rewrite (bind_Some _ _ _ _ _ (next_sched_eq w)).
  destruct (hd false (sched w)); [|reflexivity].
  unfold worker_finish. destruct (workerThread state) as [|b|]; try reflexivity.
  now destruct (Hnr b).
Qed.

Lemma handle_command_eof state w :
  len (rx (sock w)) < 4 ->
  exists w', handle_command state w = Some ((state, false), w')
             /\ tx (sock w') = tx (sock w).
Proof.
  intros Hlen. unfold handle_command.
  destruct (recv_uint32_short 0 "waiting for command" w Hlen) as (v & w' & Hr & Htx).
  rewrite (bind_Some _ _ _ _ _ Hr). exists w'. split; [reflexivity|exact Htx].
Qed.

(** C7.  A session that is done and not failed, polled n times in a row,
    answers every poll with the same frame (RESP_RESULT, N, the result
    buffer) and is the same session afterwards. *)
Theorem status_polls_idempotent n : forall state w fuel,
  errorOccurred state = false -> processingDone state = true ->
  consistent state -> tx_ready w -> rx (sock w) = polls n -> (n < fuel)%nat ->
  exists w',
    handle_client_loop fuel state w = Some (state, w')
    /\ tx (sock w') = tx (sock w) ++ concat (replicate n (result_frame state)).
Proof.
  induction n as [|n IH]; intros state w fuel Herr Hdone Hcons Hready Hrx Hfuel;
    pose proof (consistent_settled state Hcons (or_intror Hdone)) as Hnr;
    (destruct fuel as [|fuel]; [lia|]); cbn [handle_client_loop];
    rewrite (bind_Some _ _ _ _ _ (worker_progress_settled state w Hnr)).
  - destruct (handle_command_eof state (after_sched w)) as (w' & Hrun & Htx).
    { cbn [after_sched sock]. rewrite Hrx. unfold len, polls. cbn. lia. }
    rewrite (bind_Some _ _ _ _ _ Hrun). exists w'. split; [reflexivity|].
    cbn [replicate concat]. now rewrite app_nil_r.
  - assert (Hrx1 : rx (sock (after_sched w)) = be_bytes CMD_GET_STATUS ++ polls n).
    { exact Hrx. }
    destruct (handle_status_ok state (took 4 true (after_sched w)) Hready)
      as (w1 & Hrun & Hon).
    { intros _. now apply consistent_result_small. }
    assert (Hcmd : handle_command state (after_sched w) = Some ((state, true), w1)).
    { rewrite (handle_command_dispatch state (after_sched w) CMD_GET_STATUS _ Hrx1)
        by (unfold CMD_GET_STATUS, two32; lia).
      now rewrite dispatch_status. }
    rewrite (bind_Some _ _ _ _ _ Hcmd).
    assert (Hreply : status_reply state = result_frame state).
    { unfold status_reply. now rewrite Herr, Hdone. }
    rewrite Hreply in Hon.
    destruct (IH state w1 fuel Herr Hdone Hcons) as (w' & Hloop & Htx).
    + eapply sent_on_tx_ready; [exact Hon|exact Hready].
    + rewrite (sent_on_rx _ _ _ Hon).
      now apply (took_rx 4 true (after_sched w) (be_bytes CMD_GET_STATUS)).
    + lia.
    + exists w'. split; [exact Hloop|].
      rewrite Htx, (sent_on_tx _ _ _ Hon). cbn [replicate concat].
      now rewrite <- app_assoc.
Qed.

Lemma status_polls_idempotent_witness :
  let state := done_example in
  let w := world_of (polls 3) in
  exists w',
    handle_client_loop 4 state w = Some (state, w')
    /\ tx (sock w') = tx (sock w) ++ concat (replicate 3 (result_frame state)).
Proof.
  intros state w.
  apply (status_polls_idempotent 3 state w 4);
    [reflexivity | reflexivity |
    | split; [reflexivity|vm_compute; congruence] | reflexivity | lia].
  unfold consistent, state, done_example, two32. cbn.
  repeat split; try lia; try reflexivity; congruence.
Defined.

(** ** The client's command line *)

Lemma read_digits_nonneg s : forall acc v,
  Client.read_digits s acc = Some v -> 0 <= default 0 acc -> 0 <= v.
Proof.
  induction s as [|c s IH]; intros acc v H Hacc; cbn [Client.read_digits] in H.
  - subst acc. exact Hacc.
  - unfold Client.digit_value in H.
    destruct ((48 <=? Z.of_nat (nat_of_ascii c)) && (Z.of_nat (nat_of_ascii c) <=? 57))
      eqn:Hd.
    + apply (IH _ _ H). apply andb_true_iff in Hd as [H1 H2].
      apply Z.leb_le in H1. unfold default in *. cbn [from_option id] in *. lia.
    + subst acc. exact Hacc.
Qed.

Lemma stoul_range s v : Client.stoul s = Client.converted v -> 0 <= v < two32.
Proof.
  unfold Client.stoul.
  set (s' := Client.skip_space s).
  assert (Hgen : forall neg rest,
            match Client.read_digits rest None with
            | Some v0 =>
                if v0 >? Client.ULONG_MAX then Client.out_of_range
                else Client.converted
                       (if neg : bool then (- v0) mod (Client.ULONG_MAX + 1) else v0)
            | None => Client.invalid_argument
            end = Client.converted v -> 0 <= v < two32).
  { intros neg rest H.
    destruct (Client.read_digits rest None) as [v0|] eqn:Hr; [|discriminate].
    pose proof (read_digits_nonneg _ _ _ Hr ltac:(unfold default; cbn; lia)) as Hv0.
    destruct (Z.gtb_spec v0 Client.ULONG_MAX) as [Hgt|Hle]; [discriminate|].
    injection H as <-. unfold Client.ULONG_MAX, two32 in *.
    destruct neg; [apply Z.mod_pos_bound|]; lia. }
  destruct s' as [|c rest]; [apply (Hgen false)|].
  destruct (Ascii.ascii_dec c "-"%char) as [->|Hm]; [apply (Hgen true)|].
  destruct (Ascii.ascii_dec c "+"%char) as [->|Hp]; [apply (Hgen false)|].
  intros H. apply (Hgen false (String c rest)).
  destruct c as [[] [] [] [] [] [] [] []]; try exact H; congruence.
Qed.

(** C9 (amended).  The client's matrix size is its first argument when
    [std::stoul] converts it to a value in [1, 5000] and the default 5
    otherwise; its thread count is the second argument when that lies in
    [1, 128] and the default 2 otherwise.  Both always lie in their
    range. *)
Theorem main_args_effective argv :
  Client.main_args argv
  = (effective 5000 Client.DEFAULT_MATRIX_SIZE (arg_value argv 1),
     effective 128 Client.DEFAULT_NUM_THREADS (arg_value argv 2))
  /\ 1 <= fst (Client.main_args argv) <= 5000
  /\ 1 <= snd (Client.main_args argv) <= 128.
Proof.
  assert (Heff : forall bound default k current,
            0 < bound -> 1 <= default <= bound -> current = default ->
            (let x := if Z.of_nat (length argv) >? Z.of_nat k then
                        match Client.stoul (nth k argv ""%string) with
                        | Client.converted v => to_u32 v
                        | _ => current
                        end
                      else current in
             if (x =? 0) || (x >? bound) then default else x)
            = effective bound default (arg_value argv k)
            /\ 1 <= effective bound default (arg_value argv k) <= bound).
  { intros bound default k current Hb Hd ->. cbv zeta. unfold arg_value, effective.
    rewrite Z.gtb_ltb.
    destruct (Nat.ltb_spec k (length argv)) as [Hk|Hk].
    - replace (Z.of_nat k <? Z.of_nat (length argv)) with true
        by (symmetry; apply Z.ltb_lt; lia).
      destruct (Client.stoul (nth k argv ""%string)) as [| |v] eqn:Hs.
      + replace ((default =? 0) || (default >? bound)) with false; [lia|].
        symmetry. apply orb_false_iff. rewrite Z.gtb_ltb.
        split; [apply Z.eqb_neq|apply Z.ltb_ge]; lia.
      + replace ((default =? 0) || (default >? bound)) with false; [lia|].
        symmetry. apply orb_false_iff. rewrite Z.gtb_ltb.
        split; [apply Z.eqb_neq|apply Z.ltb_ge]; lia.
      + pose proof (stoul_range _ _ Hs) as Hv. rewrite to_u32_id by exact Hv.
        rewrite Z.gtb_ltb.
        destruct (Z.eqb_spec v 0), (Z.ltb_spec bound v), (Z.leb_spec 1 v),
          (Z.leb_spec v bound); cbn [orb andb]; lia.
    - replace (Z.of_nat k <? Z.of_nat (length argv)) with false
        by (symmetry; apply Z.ltb_ge; lia).
      replace ((default =? 0) || (default >? bound)) with false; [lia|].
      symmetry. apply orb_false_iff. rewrite Z.gtb_ltb.
      split; [apply Z.eqb_neq|apply Z.ltb_ge]; lia. }
  destruct (Heff 5000 Client.DEFAULT_MATRIX_SIZE 1%nat Client.DEFAULT_MATRIX_SIZE
              ltac:(lia) ltac:(unfold Client.DEFAULT_MATRIX_SIZE; lia) eq_refl)
    as [E1 R1].
  destruct (Heff 128 Client.DEFAULT_NUM_THREADS 2%nat Client.DEFAULT_NUM_THREADS
              ltac:(lia) ltac:(unfold Client.DEFAULT_NUM_THREADS; lia) eq_refl)
    as [E2 R2].
  cbv zeta in E1, E2.
  assert (Hmain : Client.main_args argv
                  = (effective 5000 Client.DEFAULT_MATRIX_SIZE (arg_value argv 1),
                     effective 128 Client.DEFAULT_NUM_THREADS (arg_value argv 2))).
  { unfold Client.main_args. cbv zeta.
    change (Z.of_nat 1) with 1 in E1. change (Z.of_nat 2) with 2 in E2.
    now rewrite E1, E2. }
  rewrite Hmain. cbn [fst snd]. auto.
Qed.

(** C9 as stated fails: arguments above the bounds give the defaults 5
    and 2, not the bounds 5000 and 128. *)
Lemma main_args_above_bound_is_default :
  Client.main_args ["client"; "6000"; "500"]%string = (5, 2)
  /\ Z.min 6000 5000 <> 5 /\ Z.min 500 128 <> 2.
Proof. repeat split; vm_compute; congruence. Qed.

(** ** The session invariant *)

Lemma bind_inv {A B} (c : M A) (k : A -> M B) w r :
  bind c k w = Some r -> exists a w1, c w = Some (a, w1) /\ k a w1 = Some r.
Proof.
  unfold bind. destruct (c w) as [[a w1]|]; [|discriminate].
  intros H. now exists a, w1.
Qed.

Ltac bind_step H :=
  let a := fresh "a" in
  let w1 := fresh "w" in
  let Hc := fresh "Hc" in
  apply bind_inv in H as (a & w1 & Hc & H).

Lemma ret_inv {A} (a : A) w r : ret a w = Some r -> r = (a, w).
Proof. unfold ret. congruence. Qed.

















(** ** Whole sessions *)

(** N = 1, T = 1, input [[7.0]]: ACK, ACK, one PENDING, then the RESULT
    frame with [[7.0]]; the connection is closed when the peer is gone. *)
Example session_single_cell :
  (fun r => (tx (sock (snd r)), processingDone (fst r)))
    <$> handle_client (world_scheduled session_bytes 3)
  = Some (be_bytes RESP_ACK ++ be_bytes RESP_ACK ++ be_bytes RESP_STATUS_PENDING
          ++ be_bytes RESP_RESULT ++ be_bytes 1 ++ host_store f7, true).
Proof. vm_compute. reflexivity. Qed.

(** A status poll before any START is answered with RESP_ERROR and the
    session goes on: the CONFIG_DATA and START_COMP that follow are
    acknowledged. *)
Example session_status_first :
  (fun r => tx (sock (snd r)))
    <$> handle_client
          (world_of (be_bytes CMD_GET_STATUS ++ be_bytes CMD_CONFIG_DATA ++ be_bytes 1
                     ++ be_bytes 1 ++ host_store f7 ++ be_bytes CMD_START_COMP))
  = Some (be_bytes RESP_ERROR ++ be_bytes RESP_ACK ++ be_bytes RESP_ACK).
Proof. vm_compute. reflexivity. Qed.

(** CONFIG_DATA with N = 0: RESP_ERROR, then shutdown and close with
    the rest of the stream unread. *)
Example session_invalid_size :
  (fun r => (tx (sock (snd r)), rx (sock (snd r)), trace (snd r)))
    <$> handle_client
          (world_of (be_bytes CMD_CONFIG_DATA ++ be_bytes 0 ++ be_bytes 2 ++ [1; 2; 3]))
  = Some (be_bytes RESP_ERROR, [1; 2; 3],
          [EvRecv 4 true 4; EvRecv 4 true 4; EvRecv 4 true 4;
           EvLog (LogInvalidMatrixSize 0); EvSend 4 4;
           EvLog LogDisconnecting; EvShutdown; EvClose]).
Proof. vm_compute. reflexivity. Qed.

(* ===================================================================== *)
(** * Further properties of the code *)
(* ===================================================================== *)

(** ** The codec on both ends of the wire *)

Lemma floats_of_bytes_of_floats data :
  patterns data -> floats_of_bytes (bytes_of_floats data) = data.
Proof.
  induction 1 as [|x data Hx _ IH]; [reflexivity|].
  unfold bytes_of_floats in *. cbn [flat_map].
  change (host_store x ++ flat_map host_store data)
    with (x mod 256 :: (x / 256) mod 256 :: (x / 65536) mod 256
            :: (x / 16777216) mod 256 :: flat_map host_store data).
  cbn [floats_of_bytes]. rewrite IH. f_equal.
  apply (host_load_store x Hx).
Qed.

Section ClientHelpers.

Variable FormatMessage : Z -> option string.

Lemma client_send_uint32_ok value context w :
  tx_ready w ->
  Client.send_uint32_or_throw FormatMessage value context w
  = Some (Client.Returns tt, gave (be_bytes value) w).
Proof.
  intros [Herr Hchunk].
  destruct w as [[rx0 fin rc tx0 tc te le] fl sc tr]. cbn in Herr, Hchunk. subst te.
  unfold Client.send_uint32_or_throw, send, bind, get_sock, put_sock, emit, ret,
    send_sock, gave.
  rewrite host_store_htonl.
  cbn [sock tx_error tx tx_chunk faults sched trace set_tx rx rx_fin rx_chunk last_error].
  change (len (be_bytes value)) with 4.
  rewrite Z.min_l by lia.
  reflexivity.
Qed.

Lemma client_recv_uint32_value context w v rest :
  rx (sock w) = be_bytes v ++ rest -> 0 <= v < two32 ->
  Client.recv_uint32_or_throw FormatMessage context w
  = Some (Client.Returns v, took 4 true w).
Proof.
  intros Hrx Hv. unfold be_bytes in Hrx. cbn [app] in Hrx.
  rewrite (client_recv_uint32_bytes FormatMessage context w _ _ _ _ _ Hrx);
    try (unfold is_byte; apply Z.mod_pos_bound; lia).
  do 3 f_equal. pose proof (be_bytes_decode v Hv) as H. exact H.
Qed.

(** Where the server's loop returns [true], the client's loop returns,
    in the same world. *)
Lemma client_send_floats_loop_agrees buffer total context context' fuel :
  forall bytesSent w w',
  send_floats_loop fuel buffer total bytesSent context w = Some (true, w') ->
  Client.send_floats_or_throw_loop FormatMessage fuel buffer total bytesSent context' w
  = Some (Client.Returns tt, w').
Proof.
  induction fuel as [|fuel IH]; intros bytesSent w w' H;
    cbn [send_floats_loop Client.send_floats_or_throw_loop] in *.
  - destruct (bytesSent <? total); [discriminate|].
    apply ret_inv in H. injection H as Hw. now subst.
  - destruct (bytesSent <? total).
    2:{ apply ret_inv in H. injection H as Hw. now subst. }
    bind_step H. rewrite (bind_Some _ _ _ _ _ Hc).
    destruct (a =? SOCKET_ERROR).
    + do 2 bind_step H. apply ret_inv in H. discriminate H.
    + now apply IH.
Qed.

Lemma client_send_floats_agrees data context context' w w' :
  send_floats data context w = Some (true, w') ->
  Client.send_floats_or_throw FormatMessage data context' w
  = Some (Client.Returns tt, w').
Proof.
  unfold send_floats, Client.send_floats_or_throw.
  destruct (to_size_t (len data * 4) =? 0).
  { intros H. apply ret_inv in H. injection H as Hw. now subst. }
  apply client_send_floats_loop_agrees.
Qed.

Lemma client_recv_floats_loop_agrees total context context' fuel :
  forall received bytesReceived w rec' w',
  recv_floats_loop fuel received total bytesReceived context w = Some ((true, rec'), w') ->
  Client.recv_floats_or_throw_loop FormatMessage fuel received total bytesReceived context' w
  = Some (Client.Returns rec', w').
Proof.
  induction fuel as [|fuel IH]; intros received got w rec' w' H;
    cbn [recv_floats_loop Client.recv_floats_or_throw_loop] in *.
  - destruct (got <? total); [discriminate|].
    apply ret_inv in H. injection H as Hr Hw. now subst.
  - destruct (got <? total).
    2:{ apply ret_inv in H. injection H as Hr Hw. now subst. }
    bind_step H. rewrite (bind_Some _ _ _ _ _ Hc). destruct a as [r bytes].
    destruct (r =? SOCKET_ERROR).
    + do 3 bind_step H. apply ret_inv in H. discriminate H.
    + destruct (r =? 0).
      * bind_step H. apply ret_inv in H. discriminate H.
      * now apply IH.
Qed.

Lemma client_recv_floats_agrees data count context context' w data' w' :
  recv_floats data count context w = Some ((true, data'), w') ->
  Client.recv_floats_or_throw FormatMessage data count context' w
  = Some (Client.Returns data', w').
Proof.
  unfold recv_floats, Client.recv_floats_or_throw.
  destruct (count =? 0).
  { intros H. apply ret_inv in H. injection H as Hr Hw. now subst. }
  intros H. bind_step H. destruct a as [ok received]. apply ret_inv in H.
  injection H as Hok Hr Hw. subst ok data' w'.
  unfold Client.try_bind.
  rewrite (bind_Some _ _ _ _ _
             (client_recv_floats_loop_agrees _ _ context' _ _ _ _ _ _ Hc)).
  reflexivity.
Qed.

End ClientHelpers.

(** X1. A 32-bit value crosses the wire unchanged, whichever end sends
    it: [send_uint32] and the client's [send_uint32_or_throw] put the
    same four bytes on a socket that accepts them, and on a stream that
    starts with these bytes [recv_uint32] and [recv_uint32_or_throw]
    hand back the value and leave what follows unread. *)
Theorem uint32_round_trip FormatMessage value context context' old w wr rest :
  0 <= value < two32 -> tx_ready w ->
  rx (sock wr) = drop (length (tx (sock w))) (tx (sock (gave (be_bytes value) w))) ++ rest ->
  send_uint32 value context w = Some (true, gave (be_bytes value) w)
  /\ Client.send_uint32_or_throw FormatMessage value context w
     = Some (Client.Returns tt, gave (be_bytes value) w)
  /\ recv_uint32 old context' wr = Some ((true, value), took 4 true wr)
  /\ Client.recv_uint32_or_throw FormatMessage context' wr
     = Some (Client.Returns value, took 4 true wr)
  /\ rx (sock (took 4 true wr)) = rest.
Proof.
  intros Hv Hready Hrx.
  assert (Hrx' : rx (sock wr) = be_bytes value ++ rest).
  { rewrite Hrx. f_equal. destruct w as [[? ? ? ? ? ? ?] ? ? ?].
    cbn [gave sock tx set_tx]. now rewrite drop_app_length. }
  split; [now apply send_uint32_ok|].
  split; [now apply client_send_uint32_ok|].
  split; [now apply (recv_uint32_value old context' wr value rest)|].
  split; [now apply (client_recv_uint32_value FormatMessage context' wr value rest)|].
  now apply (took_rx 4 true wr (be_bytes value) rest).
Qed.

Lemma uint32_round_trip_witness :
  let F := fun _ : Z => @None string in
  let w := world_of [] in
  let wr := world_of (be_bytes RESP_RESULT ++ [1; 2]) in
  send_uint32 RESP_RESULT "send" w = Some (true, gave (be_bytes RESP_RESULT) w)
  /\ Client.send_uint32_or_throw F RESP_RESULT "send" w
     = Some (Client.Returns tt, gave (be_bytes RESP_RESULT) w)
  /\ recv_uint32 0 "recv" wr = Some ((true, RESP_RESULT), took 4 true wr)
  /\ Client.recv_uint32_or_throw F "recv" wr
     = Some (Client.Returns RESP_RESULT, took 4 true wr)
  /\ rx (sock (took 4 true wr)) = [1; 2].
Proof.
  apply (uint32_round_trip (fun _ => None) RESP_RESULT "send" "recv" 0
           (world_of []) (world_of (be_bytes RESP_RESULT ++ [1; 2])) [1; 2]).
  - unfold RESP_RESULT, two32. lia.
  - split; [reflexivity|]. cbn. lia.
  - reflexivity.
Defined.

(** X2. A float buffer crosses the wire unchanged, whatever the sizes of
    the pieces [send] accepts and [recv] hands over: what [send_floats]
    (or the client's [send_floats_or_throw]) writes for [data] is read
    back as [data] by [recv_floats] and by [recv_floats_or_throw] asked
    for as many floats, and the bytes after the payload stay unread. *)
Theorem float_payload_round_trip FormatMessage data context context' old w wr rest :
  patterns data -> 4 * len data < two31 -> tx_error (sock w) = None ->
  rx (sock wr) = bytes_of_floats data ++ rest ->
  exists w' wr',
    send_floats data context w = Some (true, w')
    /\ Client.send_floats_or_throw FormatMessage data context w
       = Some (Client.Returns tt, w')
    /\ tx (sock w') = tx (sock w) ++ bytes_of_floats data
    /\ recv_floats old (len data) context' wr = Some ((true, data), wr')
    /\ Client.recv_floats_or_throw FormatMessage old (len data) context' wr
       = Some (Client.Returns data, wr')
    /\ rx (sock wr') = rest.
Proof.
  intros Hpat Hsmall Herr Hrx.
  destruct (send_floats_ok data context w Herr Hsmall) as (w' & Hsend & Hon).
  pose proof (bytes_of_floats_length data) as Hlen.
  assert (Hrecv : exists wr',
             recv_floats old (len data) context' wr = Some ((true, data), wr')
             /\ rx (sock wr') = rest).
  { destruct data as [|x data'] eqn:Hdata.
    - exists wr. split; [reflexivity|]. now rewrite Hrx.
    - rewrite <- Hdata in *.
      assert (0 < len data) by (subst data; unfold len; cbn; lia).
      destruct (recv_floats_ok old (len data) context' wr)
        as (wr' & Hrun & Htaken); try lia.
      { rewrite Hrx. unfold len in *. rewrite length_app. lia. }
      exists wr'. split.
      + rewrite Hrun. do 3 f_equal. rewrite Hrx.
        rewrite take_app_length' by (unfold len in *; lia).
        now apply floats_of_bytes_of_floats.
      + rewrite (taken_from_rx _ _ _ Htaken), Hrx.
        apply drop_app_length'. unfold len in *. lia. }
  destruct Hrecv as (wr' & Hrecv & Hrest).
  exists w', wr'.
  split; [exact Hsend|].
  split; [now apply client_send_floats_agrees with (context := context)|].
  split; [now apply sent_on_tx|].
  split; [exact Hrecv|].
  split; [now apply client_recv_floats_agrees with (context := context')|exact Hrest].
Qed.

Lemma float_payload_round_trip_witness :
  let F := fun _ : Z => @None string in
  let w := world_of [] in
  let wr := world_of (bytes_of_floats [f7; f9] ++ [5]) in
  exists w' wr',
    send_floats [f7; f9] "send" w = Some (true, w')
    /\ Client.send_floats_or_throw F [f7; f9] "send" w = Some (Client.Returns tt, w')
    /\ tx (sock w') = tx (sock w) ++ bytes_of_floats [f7; f9]
    /\ recv_floats [] (len [f7; f9]) "recv" wr = Some ((true, [f7; f9]), wr')
    /\ Client.recv_floats_or_throw F [] (len [f7; f9]) "recv" wr
       = Some (Client.Returns [f7; f9], wr')
    /\ rx (sock wr') = [5].
Proof.
  apply (float_payload_round_trip (fun _ => None) [f7; f9] "send" "recv" []
           (world_of []) (world_of (bytes_of_floats [f7; f9] ++ [5])) [5]).
  - repeat constructor; unfold f7, f9, two32; lia.
  - unfold len, two31. cbn. lia.
  - reflexivity.
  - reflexivity.
Defined.

(** ** Failures of the codec *)

(** X3. [send_uint32] makes one [send] call and never retries.  It
    returns [true] exactly when the socket has no error and takes four
    bytes at once; if the call takes fewer, these bytes are on the wire
    all the same and the function returns [false]; if the call fails,
    nothing is written.  The inbound stream is not touched. *)
Theorem send_uint32_one_call value context w :
  exists ok w',
    send_uint32 value context w = Some (ok, w')
    /\ (ok = true <-> tx_ready w)
    /\ tx (sock w')
       = tx (sock w)
         ++ match tx_error (sock w) with
            | Some _ => []
            | None => take (Pos.to_nat (tx_chunk (sock w))) (be_bytes value)
            end
    /\ rx (sock w') = rx (sock w)
    /\ exists ret logged,
         trace w' = trace w ++ EvSend 4 ret :: logged
         /\ (ok = true -> logged = []).
Proof.
  destruct w as [[rx0 fin rc tx0 tc te le] fl sc tr].
  unfold send_uint32, send, bind, get_sock, put_sock, emit, ret, send_sock,
    WSAGetLastError, log, emit, tx_ready.
  rewrite host_store_htonl.
  cbn [sock tx_error tx tx_chunk faults sched trace set_tx rx rx_fin rx_chunk last_error].
  change (len (be_bytes value)) with 4.
  destruct te as [code|].
  - change (SOCKET_ERROR =? SOCKET_ERROR) with true. cbv iota.
    cbn [sock tx_error tx tx_chunk faults sched trace set_tx rx rx_fin rx_chunk
           last_error set_last_error].
    eexists _, _. split; [reflexivity|]. cbn [sock tx rx trace].
    split; [split; [discriminate|intros [? _]; discriminate]|].
    split; [rewrite app_nil_r; reflexivity|]. split; [reflexivity|].
    eexists _, _. split; [rewrite <- app_assoc; reflexivity|discriminate].
  - destruct (Z.le_gt_cases 4 (Z.pos tc)) as [Hge|Hlt].
    + rewrite Z.min_l by lia. change (4 =? SOCKET_ERROR) with false.
      change (negb (4 =? 4)) with false. cbv iota.
      eexists _, _. split; [reflexivity|]. cbn [sock tx rx trace].
      split; [split; [now split|reflexivity]|].
      split; [f_equal; rewrite !take_ge by (cbn; lia); reflexivity|].
      split; [reflexivity|]. eexists _, _. split; [reflexivity|reflexivity].
    + rewrite Z.min_r by lia.
      replace (Z.pos tc =? SOCKET_ERROR) with false
        by (symmetry; apply Z.eqb_neq; unfold SOCKET_ERROR; lia).
      replace (Z.pos tc =? 4) with false by (symmetry; apply Z.eqb_neq; lia).
      cbn [negb]. cbv iota.
      eexists _, _. split; [reflexivity|]. cbn [sock tx rx trace].
      split; [split; [discriminate|intros [_ ?]; lia]|].
      split; [now rewrite Z2Nat.inj_pos|]. split; [reflexivity|].
      eexists _, _. split; [rewrite <- app_assoc; reflexivity|discriminate].
Qed.

(** A [recv] without MSG_WAITALL on a stream that still has bytes. *)
Lemma recv_some n w :
  0 < n -> rx (sock w) <> [] ->
  let k := Z.min n (Z.min (len (rx (sock w))) (Z.pos (rx_chunk (sock w)))) in
  recv n false w
  = Some ((k, take (Z.to_nat k) (rx (sock w))),
          mkWorld (set_rx (drop (Z.to_nat k) (rx (sock w))) (sock w))
            (faults w) (sched w) (trace w ++ [EvRecv n false k])).
Proof.
  intros Hn Hne k.
  assert (0 < len (rx (sock w))).
  { unfold len. destruct (rx (sock w)); [congruence|cbn; lia]. }
  assert (Hk : 1 <= k <= n) by lia.
  unfold recv, bind, get_sock, put_sock, emit, ret, recv_sock. fold k.
  replace (k =? 0) with false by (symmetry; apply Z.eqb_neq; lia).
  cbn [andb orb]. rewrite andb_false_r. now rewrite Z.max_r by lia.
Qed.

Lemma recv_floats_loop_short total context fuel : forall received bytesReceived w,
  0 <= bytesReceived -> total < two31 ->
  len (rx (sock w)) < total - bytesReceived ->
  (length (rx (sock w)) < fuel)%nat ->
  exists w',
    recv_floats_loop fuel received total bytesReceived context w
    = Some ((false, received ++ rx (sock w)), w')
    /\ rx (sock w') = [] /\ tx (sock w') = tx (sock w)
    /\ tx_error (sock w') = tx_error (sock w)
    /\ tx_chunk (sock w') = tx_chunk (sock w)
    /\ faults w' = faults w /\ sched w' = sched w.
Proof.
  induction fuel as [|fuel IH]; intros received got w Hgot Hsmall Havail Hfuel; [lia|].
  cbn [recv_floats_loop].
  assert (Hlen0 : 0 <= len (rx (sock w))) by (unfold len; lia).
  replace (got <? total) with true by (symmetry; apply Z.ltb_lt; lia).
  rewrite to_i32_id by (unfold two31 in *; lia).
  destruct (rx (sock w)) as [|b0 bytes] eqn:Hrx.
  - (* nothing left: the stream has ended *)
    destruct w as [[rx0 fin rc tx0 tc te le] fl sc tr]. cbn [sock rx] in Hrx. subst rx0.
    unfold recv, WSAGetLastError, log, bind, get_sock, put_sock, emit, ret, recv_sock.
    cbn [sock rx rx_chunk rx_fin len length].
    change (Z.of_nat 0) with 0.
    rewrite (Z.min_l 0) by lia. rewrite Z.min_r by lia.
    replace (0 <? total - got) with true by (symmetry; apply Z.ltb_lt; lia).
    cbn [andb orb Z.eqb]. cbv iota.
    destruct fin as [|code].
    + cbn. eexists. split; [rewrite app_nil_r; reflexivity|]. cbn. auto 10.
    + change (SOCKET_ERROR =? SOCKET_ERROR) with true. cbv iota.
      cbn [sock last_error set_last_error].
      destruct (code =? WSAECONNRESET);
        (eexists; split; [rewrite app_nil_r; reflexivity|]; cbn; auto 10).
  - assert (Hne : rx (sock w) <> []) by (rewrite Hrx; discriminate).
    assert (Hn : 0 < total - got) by lia.
    pose proof (recv_some (total - got) w Hn Hne) as Hrecv. cbv zeta in Hrecv.
    rewrite Hrx in Hrecv.
    set (k := Z.min (total - got) (Z.min (len (b0 :: bytes)) (Z.pos (rx_chunk (sock w)))))
      in *.
    assert (Hk : 1 <= k <= len (b0 :: bytes)) by (unfold len in *; cbn in *; lia).
    rewrite (bind_Some _ _ _ _ _ Hrecv).
    replace (k =? SOCKET_ERROR) with false
      by (symmetry; apply Z.eqb_neq; unfold SOCKET_ERROR; lia).
    replace (k =? 0) with false by (symmetry; apply Z.eqb_neq; lia).
    rewrite to_size_t_id by (unfold two64, two31 in *; lia).
    match goal with |- context [recv_floats_loop fuel ?r total ?g context ?w1] =>
      destruct (IH r g w1) as (w' & Hrun & Hr & Ht & He & Hc & Hf & Hs)
    end; try lia.
    + cbn [sock rx set_rx]. unfold len in *. rewrite length_drop. lia.
    + cbn [sock rx set_rx]. rewrite length_drop. unfold len in *. cbn [length] in *. lia.
    + exists w'. split.
      * rewrite Hrun. do 3 f_equal. cbn [sock rx set_rx].
        rewrite <- app_assoc. f_equal. apply take_drop.
      * destruct w as [[? ? ? ? ? ? ?] ? ? ?]. cbn in *. auto 10.
Qed.

Lemma recv_floats_cut data count context w :
  0 < count -> 4 * count < two31 -> len (rx (sock w)) < 4 * count ->
  exists data' w',
    recv_floats data count context w = Some ((false, data'), w')
    /\ rx (sock w') = [] /\ tx (sock w') = tx (sock w)
    /\ length data' = Z.to_nat count
    /\ tx_error (sock w') = tx_error (sock w)
    /\ tx_chunk (sock w') = tx_chunk (sock w)
    /\ faults w' = faults w /\ sched w' = sched w.
Proof.
  intros Hc Hsmall Havail. unfold recv_floats.
  replace (count =? 0) with false by (symmetry; apply Z.eqb_neq; lia).
  rewrite to_size_t_id by (unfold two64, two31 in *; lia).
  destruct (recv_floats_loop_short (count * 4) context (Z.to_nat (count * 4)) [] 0 w)
    as (w' & Hrun & Hr & Ht & Hrest); try lia.
  { unfold len in *. lia. }
  rewrite (bind_Some _ _ _ _ _ Hrun). eexists _, w'.
  split; [reflexivity|]. split; [exact Hr|]. split; [exact Ht|].
  split; [|exact Hrest].
  apply floats_of_bytes_length. cbn [app].
  pose proof (bytes_of_floats_length (resize count data)) as Hb.
  rewrite resize_length in Hb by lia.
  rewrite length_app, length_drop. unfold len in *. lia.
Qed.

(** X4. [recv_floats] on a stream that ends before the payload is
    complete returns [false], whichever way the stream ends; it has then
    used up the stream, has sent nothing, and the vector has been
    resized to [count] all the same. *)
Theorem recv_floats_short data count context w :
  0 < count -> 4 * count < two31 -> len (rx (sock w)) < 4 * count ->
  exists data' w',
    recv_floats data count context w = Some ((false, data'), w')
    /\ rx (sock w') = [] /\ tx (sock w') = tx (sock w)
    /\ length data' = Z.to_nat count.
Proof.
  intros Hc Hsmall Havail.
  destruct (recv_floats_cut data count context w Hc Hsmall Havail)
    as (data' & w' & H1 & H2 & H3 & H4 & _).
  now exists data', w'.
Qed.

Lemma recv_floats_short_witness :
  exists data' w',
    recv_floats [] 1 "recv" (world_of [1; 2; 3]) = Some ((false, data'), w')
    /\ rx (sock w') = [] /\ tx (sock w') = tx (sock (world_of [1; 2; 3]))
    /\ length data' = Z.to_nat 1.
Proof.
  apply (recv_floats_short [] 1 "recv" (world_of [1; 2; 3])).
  - lia.
  - unfold two31. lia.
  - unfold len. cbn. lia.
Defined.

(** ** Commands out of turn *)

(** The turn of a START_COMP that spawns a worker, with the world it
    ends in. *)
Lemma start_turn_world state w rest :
  rx (sock w) = be_bytes CMD_START_COMP ++ rest -> tx_ready w ->
  dataReceived state = true -> processingStarted state = false ->
  (forall bad_alloc, workerThread state <> Running bad_alloc) ->
  exists w',
    handle_command state w = Some ((started (hd false (faults w)) state, true), w')
    /\ rx (sock w') = rest
    /\ tx (sock w') = tx (sock w) ++ be_bytes RESP_ACK
    /\ tx_ready w' /\ faults w' = tail (faults w) /\ sched w' = sched w.
Proof.
  intros Hrx Hready Hdata Hstarted Hnr.
  rewrite (handle_command_dispatch state w CMD_START_COMP rest Hrx)
    by (unfold CMD_START_COMP, two32; lia).
  rewrite dispatch_start. unfold handle_start.
  rewrite Hdata, Hstarted. cbn [negb].
  destruct (join_worker_settled state (took 4 true w) Hnr) as (w1 & Hjoin & Hw1).
  rewrite (bind_Some _ _ _ _ _ Hjoin).
  assert (Hready1 : tx_ready w1).
  { subst w1. now destruct (joinable _). }
  rewrite (bind_Some _ _ _ _ _ (next_fault_eq w1)).
  rewrite (bind_Some _ _ _ _ _ (emit_eq EvSpawn _)).
  assert (Hready2 : tx_ready (noted EvSpawn (after_fault w1))) by exact Hready1.
  rewrite (bind_Some _ _ _ _ _ (send_uint32_ok _ _ _ Hready2)).
  assert (Hf : faults w1 = faults w) by (subst w1; now destruct (joinable _)).
  eexists. split; [unfold ret; rewrite Hf; reflexivity|].
  pose proof (took_rx 4 true w (be_bytes CMD_START_COMP) rest Hrx eq_refl) as Hrx1.
  subst w1. destruct (joinable _); cbn in *; repeat split; try assumption;
    try reflexivity; apply Hready.
Qed.


(** X5. START_COMP before any CONFIG_DATA has been accepted: the server
    answers RESP_ERROR, spawns and joins nothing, leaves the session as
    it is and keeps the connection. *)
Theorem start_before_config state w rest :
  rx (sock w) = be_bytes CMD_START_COMP ++ rest -> tx_ready w ->
  dataReceived state = false ->
  exists w',
    handle_command state w = Some ((state, true), w')
    /\ rx (sock w') = rest
    /\ tx (sock w') = tx (sock w) ++ be_bytes RESP_ERROR
    /\ trace w' = trace w ++ [EvRecv 4 true 4; EvLog LogStartBeforeConfig; EvSend 4 4].
Proof.
  intros Hrx Hready Hdata.
  rewrite (handle_command_dispatch state w CMD_START_COMP rest Hrx)
    by (unfold CMD_START_COMP, two32; lia).
  rewrite dispatch_start. unfold handle_start. rewrite Hdata. cbn [negb].
  rewrite (bind_Some _ _ _ _ _ (log_eq _ _)).
  assert (Hready1 : tx_ready (noted (EvLog LogStartBeforeConfig) (took 4 true w)))
    by exact Hready.
  rewrite (bind_Some _ _ _ _ _ (send_uint32_ok _ _ _ Hready1)).
  eexists. split; [reflexivity|].
  split; [now apply (took_rx 4 true w (be_bytes CMD_START_COMP))|].
  split; [reflexivity|]. cbn. now rewrite <- !app_assoc.
Qed.

Lemma start_before_config_witness :
  exists w',
    handle_command initial_state (world_of (be_bytes CMD_START_COMP ++ [9]))
    = Some ((initial_state, true), w')
    /\ rx (sock w') = [9]
    /\ tx (sock w') = tx (sock (world_of (be_bytes CMD_START_COMP ++ [9])))
                      ++ be_bytes RESP_ERROR
    /\ trace w' = trace (world_of (be_bytes CMD_START_COMP ++ [9]))
                  ++ [EvRecv 4 true 4; EvLog LogStartBeforeConfig; EvSend 4 4].
Proof.
  apply (start_before_config initial_state (world_of (be_bytes CMD_START_COMP ++ [9])) [9]).
  - reflexivity.
  - split; [reflexivity|]. cbn. lia.
  - reflexivity.
Defined.

(** X6. START_COMP while the running flag is set: the server answers
    RESP_ACK and does nothing else; no second worker is spawned, the
    worker is not joined, and the session is as before. *)
Theorem start_while_running state w rest :
  rx (sock w) = be_bytes CMD_START_COMP ++ rest -> tx_ready w ->
  dataReceived state = true -> processingStarted state = true ->
  exists w',
    handle_command state w = Some ((state, true), w')
    /\ rx (sock w') = rest
    /\ tx (sock w') = tx (sock w) ++ be_bytes RESP_ACK
    /\ trace w' = trace w ++ [EvRecv 4 true 4; EvLog LogStartWhileProcessing; EvSend 4 4]
    /\ faults w' = faults w.
Proof.
  intros Hrx Hready Hdata Hstarted.
  rewrite (handle_command_dispatch state w CMD_START_COMP rest Hrx)
    by (unfold CMD_START_COMP, two32; lia).
  rewrite dispatch_start. unfold handle_start. rewrite Hdata, Hstarted. cbn [negb].
  rewrite (bind_Some _ _ _ _ _ (log_eq _ _)).
  assert (Hready1 : tx_ready (noted (EvLog LogStartWhileProcessing) (took 4 true w)))
    by exact Hready.
  rewrite (bind_Some _ _ _ _ _ (send_uint32_ok _ _ _ Hready1)).
  eexists. split; [reflexivity|].
  split; [now apply (took_rx 4 true w (be_bytes CMD_START_COMP))|].
  split; [reflexivity|]. split; [|reflexivity]. cbn. now rewrite <- !app_assoc.
Qed.

Lemma start_while_running_witness :
  exists w',
    handle_command running_example (world_of (be_bytes CMD_START_COMP))
    = Some ((running_example, true), w')
    /\ rx (sock w') = []
    /\ tx (sock w') = tx (sock (world_of (be_bytes CMD_START_COMP))) ++ be_bytes RESP_ACK
    /\ trace w' = trace (world_of (be_bytes CMD_START_COMP))
                  ++ [EvRecv 4 true 4; EvLog LogStartWhileProcessing; EvSend 4 4]
    /\ faults w' = faults (world_of (be_bytes CMD_START_COMP)).
Proof.
  apply (start_while_running running_example (world_of (be_bytes CMD_START_COMP)) []).
  - reflexivity.
  - split; [reflexivity|]. cbn. lia.
  - reflexivity.
  - reflexivity.
Defined.

(** X7. A command word other than 1, 2 and 3 is answered with
    RESP_ERROR; nothing after the word is read, the session is as
    before and the connection is kept. *)
Theorem unknown_command_rejected state w command rest :
  rx (sock w) = be_bytes command ++ rest -> 0 <= command < two32 -> tx_ready w ->
  command <> CMD_CONFIG_DATA -> command <> CMD_START_COMP -> command <> CMD_GET_STATUS ->
  exists w',
    handle_command state w = Some ((state, true), w')
    /\ rx (sock w') = rest
    /\ tx (sock w') = tx (sock w) ++ be_bytes RESP_ERROR
    /\ trace w' = trace w ++ [EvRecv 4 true 4; EvLog (LogUnknownCommand command);
                              EvSend 4 4].
Proof.
  intros Hrx Hc Hready H1 H2 H3.
  rewrite (handle_command_dispatch state w command rest Hrx Hc).
  unfold dispatch.
  replace (command =? CMD_CONFIG_DATA) with false by (symmetry; now apply Z.eqb_neq).
  replace (command =? CMD_START_COMP) with false by (symmetry; now apply Z.eqb_neq).
  replace (command =? CMD_GET_STATUS) with false by (symmetry; now apply Z.eqb_neq).
  unfold handle_unknown.
  rewrite (bind_Some _ _ _ _ _ (log_eq _ _)).
  assert (Hready1 : tx_ready (noted (EvLog (LogUnknownCommand command)) (took 4 true w)))
    by exact Hready.
  rewrite (bind_Some _ _ _ _ _ (send_uint32_ok _ _ _ Hready1)).
  eexists. split; [reflexivity|].
  split; [now apply (took_rx 4 true w (be_bytes command))|].
  split; [reflexivity|]. cbn. now rewrite <- !app_assoc.
Qed.

Lemma unknown_command_rejected_witness :
  exists w',
    handle_command done_example (world_of (be_bytes RESP_ACK ++ [1; 2]))
    = Some ((done_example, true), w')
    /\ rx (sock w') = [1; 2]
    /\ tx (sock w') = tx (sock (world_of (be_bytes RESP_ACK ++ [1; 2])))
                      ++ be_bytes RESP_ERROR
    /\ trace w' = trace (world_of (be_bytes RESP_ACK ++ [1; 2]))
                  ++ [EvRecv 4 true 4; EvLog (LogUnknownCommand RESP_ACK); EvSend 4 4].
Proof.
  apply (unknown_command_rejected done_example
           (world_of (be_bytes RESP_ACK ++ [1; 2])) RESP_ACK [1; 2]).
  - reflexivity.
  - unfold RESP_ACK, two32. lia.
  - split; [reflexivity|]. cbn. lia.
  - discriminate.
  - discriminate.
  - discriminate.
Defined.

(** ** CONFIG_DATA on a session that has no worker under way *)

(** The turn of a valid CONFIG_DATA, with the world it ends in. *)
Lemma config_turn_world state w N T rest :
  rx (sock w) = be_bytes CMD_CONFIG_DATA ++ be_bytes N ++ be_bytes T ++ rest ->
  1 <= N <= 3000 -> 0 <= T < two32 -> 4 * (N * N) <= len rest -> tx_ready w ->
  let data := floats_of_bytes (take (Z.to_nat (4 * (N * N))) rest) in
  exists state' w',
    handle_command state w = Some ((state', true), w')
    /\ after_join (received N T data state) state'
    /\ length data = Z.to_nat (N * N)
    /\ rx (sock w') = drop (Z.to_nat (4 * (N * N))) rest
    /\ tx (sock w') = tx (sock w) ++ be_bytes RESP_ACK
    /\ tx_ready w' /\ faults w' = faults w /\ sched w' = sched w.
Proof.
  intros Hrx HN HT Havail Hready data.
  rewrite (handle_command_dispatch state w CMD_CONFIG_DATA _ Hrx)
    by (unfold CMD_CONFIG_DATA, two32; lia).
  rewrite dispatch_config.
  assert (Hrx0 : rx (sock (took 4 true w)) = be_bytes N ++ be_bytes T ++ rest).
  { now apply (took_rx 4 true w (be_bytes CMD_CONFIG_DATA)). }
  destruct (handle_config_ok state (took 4 true w) N T rest Hrx0 HN HT Havail
              (took_tx_ready _ _ _ Hready))
    as (state' & w1 & w2 & Hrun & Hw1 & Htaken & Hjoin & Hdata).
  fold data in Hrun, Hjoin, Hdata.
  assert (Hrx2 : rx (sock w1) = rest).
  { subst w1. apply (took_rx 4 true _ (be_bytes T)); [|reflexivity].
    now apply (took_rx 4 true _ (be_bytes N)). }
  pose proof (taken_from_rx _ _ _ Htaken) as Hrxw2. rewrite Hrx2 in Hrxw2.
  pose proof (taken_from_tx _ _ _ Htaken) as Htxw2.
  assert (Hready2 : tx_ready w2).
  { eapply taken_from_tx_ready; [exact Htaken|]. subst w1. exact Hready. }
  destruct Htaken as (_ & Hf & Hs & _).
  eexists state', _. split; [exact Hrun|]. split; [exact Hjoin|].
  split; [exact Hdata|].
  destruct (joinable _); cbn [gave noted sock rx tx set_tx faults sched];
    (split; [first [exact Hrxw2 | destruct (sock w2); exact Hrxw2]|]);
    (split; [destruct (sock w2); cbn in *; rewrite Htxw2; subst w1; reflexivity|]);
    (split; [destruct (sock w2); exact Hready2|]);
    rewrite Hf, Hs; subst w1; split; reflexivity.
Qed.

Lemma config_turn_settled state w N T rest :
  rx (sock w) = be_bytes CMD_CONFIG_DATA ++ be_bytes N ++ be_bytes T ++ rest ->
  1 <= N <= 3000 -> 0 <= T < two32 -> 4 * (N * N) <= len rest -> tx_ready w ->
  (forall bad_alloc, workerThread state <> Running bad_alloc) ->
  exists w',
    handle_command state w
    = Some (({| matrixSize := N; numThreads := T;
                matrixData := floats_of_bytes (take (Z.to_nat (4 * (N * N))) rest);
                resultData := resultData state;
                dataReceived := true; processingStarted := false;
                processingDone := false; errorOccurred := false;
                workerThread := NotJoinable |}, true), w')
    /\ rx (sock w') = drop (Z.to_nat (4 * (N * N))) rest
    /\ tx (sock w') = tx (sock w) ++ be_bytes RESP_ACK
    /\ tx_ready w' /\ faults w' = faults w /\ sched w' = sched w.
Proof.
  intros Hrx HN HT Havail Hready Hnr.
  destruct (config_turn_world state w N T rest Hrx HN HT Havail Hready)
    as (state' & w' & Hrun & Hafter & _ & Hrx' & Htx' & Hrest).
  exists w'. split; [|split; [|split]; assumption].
  rewrite Hrun. do 3 f_equal.
  destruct Hafter as (E1 & E2 & E3 & E4 & E5 & Hflags).
  cbn [received matrixSize numThreads matrixData dataReceived workerThread
         processingStarted processingDone errorOccurred resultData
         set_errorOccurred set_processingDone set_processingStarted
         set_dataReceived set_matrixData set_numThreads set_matrixSize]
    in E1, E2, E3, E4, Hflags.
  destruct state' as [a b c d e f g h i]. cbn in *.
  destruct (workerThread state) as [|bad|] eqn:Hth.
  - destruct Hflags as (F1 & F2 & F3 & F4). now subst.
  - now destruct (Hnr bad).
  - destruct Hflags as (F1 & F2 & F3 & F4). now subst.
Qed.

(** X8. A valid CONFIG_DATA on a session whose worker is not under way
    (never started, or completed, with or without failure) is
    acknowledged and leaves the session configured and nothing else:
    size, thread count and input buffer are the new ones, the three
    phase flags running, done and failed are clear whatever they were,
    the thread handle is joined, and the old result buffer stays in
    memory. *)
Theorem config_resets_session state w N T rest :
  rx (sock w) = be_bytes CMD_CONFIG_DATA ++ be_bytes N ++ be_bytes T ++ rest ->
  1 <= N <= 3000 -> 0 <= T < two32 -> 4 * (N * N) <= len rest -> tx_ready w ->
  (forall bad_alloc, workerThread state <> Running bad_alloc) ->
  exists w',
    handle_command state w
    = Some (({| matrixSize := N; numThreads := T;
                matrixData := floats_of_bytes (take (Z.to_nat (4 * (N * N))) rest);
                resultData := resultData state;
                dataReceived := true; processingStarted := false;
                processingDone := false; errorOccurred := false;
                workerThread := NotJoinable |}, true), w')
    /\ rx (sock w') = drop (Z.to_nat (4 * (N * N))) rest
    /\ tx (sock w') = tx (sock w) ++ be_bytes RESP_ACK.
Proof.
  intros Hrx HN HT Havail Hready Hnr.
  destruct (config_turn_settled state w N T rest Hrx HN HT Havail Hready Hnr)
    as (w' & H1 & H2 & H3 & _).
  now exists w'.
Qed.

Lemma config_resets_session_witness :
  let w := world_of (be_bytes CMD_CONFIG_DATA ++ be_bytes 1 ++ be_bytes 4 ++ host_store f9) in
  exists w',
    handle_command done_example w
    = Some (({| matrixSize := 1; numThreads := 4;
                matrixData := floats_of_bytes (take (Z.to_nat (4 * (1 * 1))) (host_store f9));
                resultData := resultData done_example;
                dataReceived := true; processingStarted := false;
                processingDone := false; errorOccurred := false;
                workerThread := NotJoinable |}, true), w')
    /\ rx (sock w') = drop (Z.to_nat (4 * (1 * 1))) (host_store f9)
    /\ tx (sock w') = tx (sock w) ++ be_bytes RESP_ACK.
Proof.
  apply (config_resets_session done_example
           (world_of (be_bytes CMD_CONFIG_DATA ++ be_bytes 1 ++ be_bytes 4 ++ host_store f9))
           1 4 (host_store f9)).
  - reflexivity.
  - lia.
  - unfold two32. lia.
  - unfold len. cbn. lia.
  - split; [reflexivity|]. cbn. lia.
  - discriminate.
Defined.

(** X9. A CONFIG_DATA with a valid size whose payload is cut short: the
    server sends no reply at all and ends the session.  Size and thread
    count are already overwritten and the input buffer is resized to
    N*N, while the flags and the thread handle are as before: the worker
    is not joined by this turn. *)
Theorem config_truncated_payload state w N T rest :
  rx (sock w) = be_bytes CMD_CONFIG_DATA ++ be_bytes N ++ be_bytes T ++ rest ->
  1 <= N <= 3000 -> 0 <= T < two32 -> len rest < 4 * (N * N) ->
  exists data' w',
    handle_command state w
    = Some ((set_matrixData data' (set_numThreads T (set_matrixSize N state)), false), w')
    /\ length data' = Z.to_nat (N * N)
    /\ rx (sock w') = []
    /\ tx (sock w') = tx (sock w).
Proof.
  intros Hrx HN HT Hshort.
  rewrite (handle_command_dispatch state w CMD_CONFIG_DATA _ Hrx)
    by (unfold CMD_CONFIG_DATA, two32; lia).
  rewrite dispatch_config. unfold handle_config.
  assert (Hrx0 : rx (sock (took 4 true w)) = be_bytes N ++ be_bytes T ++ rest).
  { now apply (took_rx 4 true w (be_bytes CMD_CONFIG_DATA)). }
  rewrite (bind_Some _ _ _ _ _
             (recv_uint32_value _ _ _ N (be_bytes T ++ rest) Hrx0
                ltac:(unfold two32; lia))).
  cbn [negb matrixSize numThreads set_matrixSize set_numThreads].
  assert (Hrx1 : rx (sock (took 4 true (took 4 true w))) = be_bytes T ++ rest).
  { now apply (took_rx 4 true _ (be_bytes N)). }
  rewrite (bind_Some _ _ _ _ _ (recv_uint32_value _ _ _ T rest Hrx1 HT)).
  cbn [negb matrixSize numThreads set_matrixSize set_numThreads].
  replace (N =? 0) with false by (symmetry; apply Z.eqb_neq; lia).
  replace (N >? 3000) with false by (symmetry; rewrite Z.gtb_ltb; apply Z.ltb_ge; lia).
  cbn [orb].
  rewrite (to_size_t_id N) by (unfold two64; lia).
  rewrite (to_size_t_id (N * N)) by (unfold two64; nia).
  set (w1 := took 4 true (took 4 true (took 4 true w))).
  assert (Hrx2 : rx (sock w1) = rest).
  { now apply (took_rx 4 true _ (be_bytes T)). }
  destruct (recv_floats_cut (matrixData state) (N * N) "recv matrix data" w1)
    as (data' & w' & Hrun & Hr & Ht & Hlen & _); try nia.
  { unfold two31. nia. }
  { rewrite Hrx2. lia. }
  rewrite (bind_Some _ _ _ _ _ Hrun).
  cbn [negb matrixData set_matrixSize set_numThreads].
  exists data', w'. split; [reflexivity|].
  split; [exact Hlen|split; [exact Hr|exact Ht]].
Qed.

Lemma config_truncated_payload_witness :
  let w := world_of (be_bytes CMD_CONFIG_DATA ++ be_bytes 2 ++ be_bytes 1 ++ host_store f7) in
  exists data' w',
    handle_command initial_state w
    = Some ((set_matrixData data' (set_numThreads 1 (set_matrixSize 2 initial_state)),
             false), w')
    /\ length data' = Z.to_nat (2 * 2)
    /\ rx (sock w') = []
    /\ tx (sock w') = tx (sock w).
Proof.
  apply (config_truncated_payload initial_state
           (world_of (be_bytes CMD_CONFIG_DATA ++ be_bytes 2 ++ be_bytes 1 ++ host_store f7))
           2 1 (host_store f7)).
  - reflexivity.
  - lia.
  - unfold two32. lia.
  - unfold len. cbn. lia.
Defined.

(** ** The command loop always ends *)














(** ** The result in closed form *)

Lemma updated_with_row_maxima orig n m :
  length orig = (n * n)%nat -> updated orig n 0 n m -> m = with_row_maxima orig n.
Proof.
  intros Hlen [Hm Hcells]. apply list_eq. intros idx.
  unfold with_row_maxima. rewrite list_lookup_imap.
  destruct (Nat.lt_ge_cases idx (n * n)) as [Hlt|Hge].
  - assert (Hn : (0 < n)%nat) by lia.
    pose proof (Nat.div_mod_eq idx n) as Hdm.
    pose proof (Nat.mod_upper_bound idx n ltac:(lia)) as Hc.
    assert (Hr : (idx `div` n < n)%nat) by (apply Nat.Div0.div_lt_upper_bound; lia).
    specialize (Hcells (idx `div` n)%nat (idx `mod` n)%nat Hr Hc).
    replace (idx `div` n * n + idx `mod` n)%nat with idx in Hcells by lia.
    rewrite Hcells.
    destruct (lookup_lt_is_Some_2 orig idx ltac:(lia)) as [x Hx]. rewrite Hx. cbn.
    destruct (decide (idx `mod` n = idx `div` n)%nat) as [He|Hne].
    + rewrite decide_True by (split; [lia|exact He]). reflexivity.
    + rewrite decide_False by (intros [_ ?]; contradiction). reflexivity.
  - rewrite (lookup_ge_None_2 m) by lia.
    now rewrite (lookup_ge_None_2 orig) by lia.
Qed.

Lemma run_workers_closed_form orig N T :
  1 <= N <= 3000 -> 0 <= T < two32 -> length orig = Z.to_nat (N * N) ->
  run_workers (spawn_workers N T) N orig = Some (with_row_maxima orig (Z.to_nat N)).
Proof.
  intros HN HT Hlen.
  destruct (run_spawned_workers orig N T HN HT Hlen) as (result & Hrun & Hup).
  rewrite Hrun. f_equal. apply updated_with_row_maxima; [|exact Hup].
  rewrite Hlen. lia.
Qed.

Lemma perform_computation_closed_form state :
  1 <= matrixSize state <= 3000 -> 0 <= numThreads state < two32 ->
  length (matrixData state) = Z.to_nat (matrixSize state * matrixSize state) ->
  perform_computation false state
  = Some (set_processingStarted false
           (set_errorOccurred false
             (set_processingDone true
               (set_resultData
                  (with_row_maxima (matrixData state) (Z.to_nat (matrixSize state)))
                  state)))).
Proof.
  intros HN HT Hlen.
  destruct (perform_computation_run state HN HT Hlen) as (result & Hrun & Hup).
  rewrite Hrun. do 5 f_equal. apply updated_with_row_maxima; [|exact Hup].
  rewrite Hlen. lia.
Qed.

(** X11. The number of threads asked for never changes the result: for
    every thread count, [perform_computation] leaves in the result
    buffer the input with each diagonal cell replaced by the scan of its
    row, sets done, clears running and failed, and leaves the input
    buffer as it was. *)
Theorem result_independent_of_threads state T :
  1 <= matrixSize state <= 3000 -> 0 <= T < two32 ->
  length (matrixData state) = Z.to_nat (matrixSize state * matrixSize state) ->
  perform_computation false (set_numThreads T state)
  = Some (set_processingStarted false
           (set_errorOccurred false
             (set_processingDone true
               (set_resultData
                  (with_row_maxima (matrixData state) (Z.to_nat (matrixSize state)))
                  (set_numThreads T state))))).
Proof.
  intros HN HT Hlen.
  now apply (perform_computation_closed_form (set_numThreads T state)).
Qed.

Lemma result_independent_of_threads_witness :
  perform_computation false
    (set_numThreads 7 (configured 3 2 [f1; f2; f3; f4; f5; f6; f7; f8; f9]))
  = Some (set_processingStarted false
           (set_errorOccurred false
             (set_processingDone true
               (set_resultData
                  (with_row_maxima [f1; f2; f3; f4; f5; f6; f7; f8; f9] (Z.to_nat 3))
                  (set_numThreads 7
                     (configured 3 2 [f1; f2; f3; f4; f5; f6; f7; f8; f9])))))).
Proof.
  apply (result_independent_of_threads
           (configured 3 2 [f1; f2; f3; f4; f5; f6; f7; f8; f9]) 7).
  - cbn. lia.
  - unfold two32. lia.
  - reflexivity.
Defined.

(** ** A worker that sees a size its buffer does not have *)

Lemma spawn_loop_app n : forall i size q r st ws,
  spawn_loop n i size q r st ws = ws ++ spawn_loop n i size q r st [].
Proof.
  induction n as [|n IH]; intros i size q r st ws; cbn [spawn_loop].
  - now rewrite app_nil_r.
  - destruct (_ && _).
    + rewrite IH. rewrite (IH _ _ _ _ _ ([] ++ _)). now rewrite app_assoc.
    + apply IH.
Qed.

Lemma row_max_loop_short n : forall matrix j maxVal,
  (0 < n)%nat -> 0 <= j -> j + Z.of_nat n < two64 ->
  Z.of_nat (length matrix) < j + Z.of_nat n ->
  row_max_loop n matrix 0 j maxVal = None.
Proof.
  induction n as [|n IH]; intros matrix j maxVal Hn Hj Hbig Hshort; [lia|].
  cbn [row_max_loop]. rewrite Z.add_0_l, to_size_t_id by lia.
  destruct (matrix !! Z.to_nat j) as [x|] eqn:Hx; [|reflexivity].
  apply lookup_lt_Some in Hx.
  apply IH; lia.
Qed.

Lemma spawn_workers_first size threads :
  1 <= size < two31 -> 0 <= threads < two32 ->
  exists endRow rest, 0 < endRow /\ spawn_workers size threads = (0, endRow) :: rest.
Proof.
  intros Hsize Hthreads. unfold spawn_workers, threads_to_use.
  set (t := Z.max 1 threads). assert (Ht : 1 <= t < two32) by (unfold two32 in *; lia).
  pose proof (Z.div_mod size t ltac:(lia)) as Hdm.
  pose proof (Z.mod_pos_bound size t ltac:(lia)) as Hmod.
  assert (Hq : 0 <= size / t <= size).
  { split; [apply Z.div_pos; lia|]. apply Z.div_le_upper_bound; nia. }
  assert (Hr : size mod t <= size) by (apply Z.mod_le; lia).
  rewrite (to_i32_id (size / t)) by (unfold two31 in *; lia).
  rewrite (to_i32_id (size mod t)) by (unfold two31 in *; lia).
  destruct (Z.to_nat t) as [|n] eqn:Hn; [lia|].
  cbn [spawn_loop].
  rewrite (to_u32_id 0) by (unfold two32; lia).
  rewrite (to_u32_id (size mod t)) by (unfold two31, two32 in *; lia).
  set (e := if 0 <? size mod t then 1 else 0).
  assert (He : 1 <= size / t + e <= size).
  { unfold e. destruct (Z.ltb_spec 0 (size mod t)); nia. }
  rewrite (to_i32_id (size / t + e)) by (unfold two31 in *; lia).
  replace (size / t + e >? 0) with true by (symmetry; rewrite Z.gtb_ltb; apply Z.ltb_lt; lia).
  replace (0 <? size) with true by (symmetry; apply Z.ltb_lt; lia).
  cbn [andb]. rewrite !Z.add_0_l.
  rewrite (to_u32_id (size / t + e)) by (unfold two31, two32 in *; lia).
  rewrite Z.min_l by lia.
  rewrite (to_i32_id (size / t + e)) by (unfold two31 in *; lia).
  rewrite spawn_loop_app. cbn [app].
  eexists _, _. split; [|reflexivity]. lia.
Qed.

Lemma perform_computation_short_buffer state :
  1 <= matrixSize state < two31 -> 0 <= numThreads state < two32 ->
  len (matrixData state) < matrixSize state ->
  perform_computation false state = None.
Proof.
  intros Hsize Hthreads Hshort. unfold perform_computation.
  assert (Hrun : run_workers (spawn_workers (matrixSize state) (numThreads state))
                   (matrixSize state) (matrixData state) = None).
  { destruct (spawn_workers_first _ _ Hsize Hthreads) as (endRow & rest & He & ->).
    cbn [run_workers]. unfold process_matrix_rows.
    destruct (Z.to_nat (endRow - 0)) as [|k] eqn:Hk; [lia|].
    cbn [process_rows_loop].
    change (to_size_t 0) with 0. rewrite Z.mul_0_l. change (to_size_t 0) with 0.
    rewrite row_max_loop_short; [reflexivity| | | |]; unfold len, two64, two31 in *; lia. }
  destruct (_ =? _)%nat; cbn [resultData matrixSize numThreads set_resultData];
    now rewrite Hrun.
Qed.

Lemma worker_progress_idle state w :
  hd false (sched w) = false -> worker_progress state w = Some (state, after_sched w).
Proof.
  intros H. unfold worker_progress.
  rewrite (bind_Some _ _ _ _ _ (next_sched_eq w)). now rewrite H.
Qed.

Lemma loop_step fuel state w s1 w1 s2 w2 :
  worker_progress state w = Some (s1, w1) ->
  handle_command s1 w1 = Some ((s2, true), w2) ->
  handle_client_loop (S fuel) state w = handle_client_loop fuel s2 w2.
Proof.
  intros Hp Hc. cbn [handle_client_loop].
  rewrite (bind_Some _ _ _ _ _ Hp). now rewrite (bind_Some _ _ _ _ _ Hc).
Qed.

Lemma loop_stop fuel state w s1 w1 s2 w2 :
  worker_progress state w = Some (s1, w1) ->
  handle_command s1 w1 = Some ((s2, false), w2) ->
  handle_client_loop (S fuel) state w = Some (s2, w2).
Proof.
  intros Hp Hc. cbn [handle_client_loop].
  rewrite (bind_Some _ _ _ _ _ Hp). now rewrite (bind_Some _ _ _ _ _ Hc).
Qed.

Lemma config_frame_payload N data rest :
  patterns data -> length data = Z.to_nat (N * N) -> 0 <= N ->
  4 * (N * N) <= len (bytes_of_floats data ++ rest)
  /\ floats_of_bytes (take (Z.to_nat (4 * (N * N))) (bytes_of_floats data ++ rest)) = data
  /\ drop (Z.to_nat (4 * (N * N))) (bytes_of_floats data ++ rest) = rest.
Proof.
  intros Hpat Hlen HN.
  pose proof (bytes_of_floats_length data) as Hb. unfold len in *.
  assert (Hl : length (bytes_of_floats data) = Z.to_nat (4 * (N * N))) by nia.
  split; [rewrite length_app; nia|]. split.
  - rewrite take_app_length' by (symmetry; exact Hl). now apply floats_of_bytes_of_floats.
  - apply drop_app_length'. now symmetry.
Qed.

(** The first two turns of a session: CONFIG_DATA, then START_COMP. *)
Lemma session_prefix N T data rest w fuel :
  1 <= N <= 3000 -> 0 <= T < two32 ->
  length data = Z.to_nat (N * N) -> patterns data ->
  rx (sock w) = config_frame N T data ++ be_bytes CMD_START_COMP ++ rest ->
  tx_ready w -> hd false (sched w) = false -> hd false (tail (sched w)) = false ->
  exists w',
    handle_client_loop (S (S fuel)) initial_state w
    = handle_client_loop fuel
        (started (hd false (faults w)) (received N T data initial_state)) w'
    /\ rx (sock w') = rest
    /\ tx (sock w') = tx (sock w) ++ be_bytes RESP_ACK ++ be_bytes RESP_ACK
    /\ tx_ready w' /\ faults w' = tail (faults w)
    /\ sched w' = tail (tail (sched w)).
Proof.
  intros HN HT Hlen Hpat Hrx Hready Hs0 Hs1.
  unfold config_frame in Hrx. rewrite <- !app_assoc in Hrx.
  destruct (config_frame_payload N data (be_bytes CMD_START_COMP ++ rest) Hpat Hlen
              ltac:(lia)) as (Havail & Hdata & Hdrop).
  destruct (config_turn_settled initial_state (after_sched w) N T _ Hrx HN HT Havail
              Hready ltac:(discriminate))
    as (w1 & Hcfg & Hrx1 & Htx1 & Hready1 & Hf1 & Hsc1).
  rewrite Hdata in Hcfg. rewrite Hdrop in Hrx1.
  rewrite (loop_step _ _ _ _ _ _ _ (worker_progress_idle initial_state w Hs0) Hcfg).
  set (state1 := {| matrixSize := N; numThreads := T; matrixData := data;
                    resultData := resultData initial_state; dataReceived := true;
                    processingStarted := false; processingDone := false;
                    errorOccurred := false; workerThread := NotJoinable |}).
  assert (Hs1' : hd false (sched w1) = false) by (rewrite Hsc1; exact Hs1).
  destruct (start_turn_world state1 (after_sched w1) rest Hrx1 Hready1
              eq_refl eq_refl ltac:(discriminate))
    as (w2 & Hst & Hrx2 & Htx2 & Hready2 & Hf2 & Hsc2).
  rewrite (loop_step _ _ _ _ _ _ _ (worker_progress_idle state1 w1 Hs1') Hst).
  exists w2. split.
  - cbn [after_sched faults] in *. rewrite Hf1. reflexivity.
  - split; [exact Hrx2|]. split.
    + rewrite Htx2. cbn [after_sched sock] in *. rewrite Htx1. now rewrite <- app_assoc.
    + split; [exact Hready2|]. cbn [after_sched faults sched] in *.
      rewrite Hf2, Hf1, Hsc2, Hsc1. split; reflexivity.
Qed.

(** X12. A CONFIG_DATA header with a larger size that arrives while the
    worker has not yet run, followed by the end of the stream: the
    handler overwrites [matrixSize] before anything is validated or
    resized and leaves the loop without joining; the join in the
    destructor then runs the worker with the new size on the old buffer,
    and the scan of row 0 reads past the end of the vector.
    [handle_client] has no outcome. *)
Theorem resized_session_breaks_worker N T data N' w :
  1 <= N <= 3000 -> 0 <= T < two32 ->
  length data = Z.to_nat (N * N) -> patterns data ->
  N * N < N' < two31 ->
  rx (sock w) = config_frame N T data ++ be_bytes CMD_START_COMP
                ++ be_bytes CMD_CONFIG_DATA ++ be_bytes N' ->
  tx_ready w -> sched w = [] -> faults w = [] ->
  exists state' w',
    handle_client_loop (S (length (rx (sock w)))) initial_state w = Some (state', w')
    /\ workerThread state' = Running false
    /\ matrixSize state' = N'
    /\ matrixData state' = data
    /\ perform_computation false state' = None
    /\ handle_client w = None.
Proof.
  intros HN HT Hlen Hpat HN' Hrx Hready Hsched Hfaults.
  assert (Hfuel : exists fuel, length (rx (sock w)) = S (S fuel)).
  { rewrite Hrx. unfold config_frame. cbn. eexists. reflexivity. }
  destruct Hfuel as (fuel & Hfuel).
  destruct (session_prefix N T data (be_bytes CMD_CONFIG_DATA ++ be_bytes N') w (S fuel)
              HN HT Hlen Hpat Hrx Hready)
    as (w2 & Hloop & Hrx2 & Htx2 & Hready2 & Hf2 & Hsc2);
    [now rewrite Hsched|now rewrite Hsched|].
  rewrite Hfaults in Hloop. cbn [hd] in Hloop.
  set (state2 := started false (received N T data initial_state)) in *.
  (* the third turn: the header of a CONFIG_DATA, then the stream ends *)
  assert (Hs2 : hd false (sched w2) = false) by (rewrite Hsc2, Hsched; reflexivity).
  set (w3 := after_sched w2).
  assert (Hrx3 : rx (sock w3) = be_bytes CMD_CONFIG_DATA ++ be_bytes N') by exact Hrx2.
  assert (Hturn : exists v w4,
             handle_command state2 w3
             = Some ((set_numThreads v (set_matrixSize N' state2), false), w4)
             /\ v = T).
  { rewrite (handle_command_dispatch state2 w3 CMD_CONFIG_DATA _ Hrx3)
      by (unfold CMD_CONFIG_DATA, two32; lia).
    rewrite dispatch_config. unfold handle_config.
    assert (Hrx4 : rx (sock (took 4 true w3)) = be_bytes N' ++ []).
    { rewrite app_nil_r. now apply (took_rx 4 true w3 (be_bytes CMD_CONFIG_DATA)). }
    rewrite (bind_Some _ _ _ _ _
               (recv_uint32_value _ _ _ N' [] Hrx4 ltac:(unfold two31, two32 in *; lia))).
    cbn [negb matrixSize numThreads set_matrixSize set_numThreads].
    assert (Hrx5 : rx (sock (took 4 true (took 4 true w3))) = []).
    { now apply (took_rx 4 true _ (be_bytes N')). }
    change (numThreads state2) with T.
    destruct (rx_fin (sock (took 4 true (took 4 true w3)))) as [|code] eqn:Hfin.
    - rewrite (bind_Some _ _ _ _ _
                 (recv_uint32_peer_closed T "recv num threads" _ Hrx5 Hfin)).
      cbn [negb]. eexists _, _. split; [reflexivity|].
      unfold overwritten. cbn [app length drop]. now apply host_load_store.
    - rewrite (bind_Some _ _ _ _ _
                 (recv_uint32_transport_error T "recv num threads" _ code
                    ltac:(rewrite Hrx5; unfold len; cbn; lia) Hfin)).
      cbn [negb]. eexists _, _. split; [reflexivity|].
      unfold overwritten. cbn [app length drop]. now apply host_load_store. }
  destruct Hturn as (v & w4 & Hcmd & ->).
  set (state3 := set_numThreads T (set_matrixSize N' state2)) in *.
  assert (Hub : perform_computation false state3 = None).
  { apply perform_computation_short_buffer; cbn; [lia|lia|].
    unfold len. rewrite Hlen. lia. }
  assert (Hwhole : handle_client_loop (S (length (rx (sock w)))) initial_state w
                   = Some (state3, w4)).
  { rewrite Hfuel, Hloop.
    exact (loop_stop _ _ _ _ _ _ _ (worker_progress_idle state2 w2 Hs2) Hcmd). }
  exists state3, w4. split; [exact Hwhole|].
  split; [reflexivity|]. split; [reflexivity|]. split; [reflexivity|].
  split; [exact Hub|].
  unfold handle_client.
  rewrite (bind_Some _ _ _ _ _ (eq_refl : get_sock w = Some (sock w, w))).
  rewrite (bind_Some _ _ _ _ _ Hwhole).
  rewrite (bind_Some _ _ _ _ _ (log_eq _ _)).
  rewrite (bind_Some _ _ _ _ _ (emit_eq _ _)).
  rewrite (bind_Some _ _ _ _ _ (emit_eq _ _)).
  unfold join_worker. cbn [workerThread state3 state2 started set_numThreads
                             set_matrixSize set_workerThread].
  rewrite (bind_Some _ _ _ _ _ (emit_eq _ _)).
  now rewrite Hub.
Qed.

Lemma resized_session_breaks_worker_witness :
  let w := world_of (config_frame 1 1 [f7] ++ be_bytes CMD_START_COMP
                     ++ be_bytes CMD_CONFIG_DATA ++ be_bytes 2) in
  exists state' w',
    handle_client_loop (S (length (rx (sock w)))) initial_state w = Some (state', w')
    /\ workerThread state' = Running false
    /\ matrixSize state' = 2
    /\ matrixData state' = [f7]
    /\ perform_computation false state' = None
    /\ handle_client w = None.
Proof.
  apply (resized_session_breaks_worker 1 1 [f7] 2
           (world_of (config_frame 1 1 [f7] ++ be_bytes CMD_START_COMP
                      ++ be_bytes CMD_CONFIG_DATA ++ be_bytes 2))).
  - lia.
  - unfold two32. lia.
  - reflexivity.
  - repeat constructor; unfold f7, two32; lia.
  - unfold two31. lia.
  - reflexivity.
  - split; [reflexivity|]. cbn. lia.
  - reflexivity.
  - reflexivity.
Defined.

(** ** One whole session on the server *)

Lemma status_turn_world state w rest :
  rx (sock w) = be_bytes CMD_GET_STATUS ++ rest -> tx_ready w ->
  (processingDone state = true -> 4 * len (resultData state) < two31) ->
  exists w',
    handle_command state w = Some ((state, true), w')
    /\ rx (sock w') = rest
    /\ tx (sock w') = tx (sock w) ++ status_reply state
    /\ tx_ready w' /\ faults w' = faults w /\ sched w' = sched w.
Proof.
  intros Hrx Hready Hsmall.
  rewrite (handle_command_dispatch state w CMD_GET_STATUS rest Hrx)
    by (unfold CMD_GET_STATUS, two32; lia).
  rewrite dispatch_status.
  destruct (handle_status_ok state (took 4 true w) (took_tx_ready _ _ _ Hready) Hsmall)
    as (w' & Hrun & Hon).
  exists w'. split; [exact Hrun|].
  split.
  { rewrite (sent_on_rx _ _ _ Hon).
    now apply (took_rx 4 true w (be_bytes CMD_GET_STATUS)). }
  split; [exact (sent_on_tx _ _ _ Hon)|].
  split; [exact (sent_on_tx_ready _ _ _ Hon (took_tx_ready _ _ _ Hready))|].
  destruct Hon as (_ & Hf & Hs & _). split; assumption.
Qed.

Lemma polls_length k : length (polls k) = (4 * k)%nat.
Proof.
  unfold polls. induction k as [|k IH]; [reflexivity|].
  cbn [replicate concat]. rewrite length_app, IH. cbn. lia.
Qed.

Lemma polls_snoc k : polls (S k) = polls k ++ be_bytes CMD_GET_STATUS.
Proof.
  induction k as [|k IH]; [reflexivity|].
  change (polls (S (S k))) with (be_bytes CMD_GET_STATUS ++ polls (S k)).
  rewrite IH at 1.
  change (polls (S k)) with (be_bytes CMD_GET_STATUS ++ polls k).
  now rewrite <- app_assoc.
Qed.

(** Polls of a session whose worker is under way and does not complete. *)
Lemma pending_polls k : forall state w fuel rest sc,
  errorOccurred state = false -> processingDone state = false ->
  processingStarted state = true -> tx_ready w ->
  rx (sock w) = polls k ++ rest -> sched w = replicate k false ++ sc ->
  exists w',
    handle_client_loop (k + fuel) state w = handle_client_loop fuel state w'
    /\ rx (sock w') = rest
    /\ tx (sock w') = tx (sock w) ++ pendings k
    /\ tx_ready w' /\ faults w' = faults w /\ sched w' = sc.
Proof.
  induction k as [|k IH]; intros state w fuel rest sc He Hd Hs Hready Hrx Hsched.
  - exists w. cbn in *. rewrite app_nil_r. auto 10.
  - change (polls (S k)) with (be_bytes CMD_GET_STATUS ++ polls k) in Hrx.
    rewrite <- app_assoc in Hrx.
    assert (Hhd : hd false (sched w) = false) by (rewrite Hsched; reflexivity).
    destruct (status_turn_world state (after_sched w) _ Hrx Hready
                ltac:(rewrite Hd; discriminate))
      as (w1 & Hcmd & Hrx1 & Htx1 & Hready1 & Hf1 & Hs1).
    change (S k + fuel)%nat with (S (k + fuel)).
    rewrite (loop_step _ _ _ _ _ _ _ (worker_progress_idle state w Hhd) Hcmd).
    assert (Hsched1 : sched w1 = replicate k false ++ sc).
    { rewrite Hs1. cbn [after_sched sched]. now rewrite Hsched. }
    destruct (IH state w1 fuel rest sc He Hd Hs Hready1 Hrx1 Hsched1)
      as (w' & Hloop & Hrx' & Htx' & Hready' & Hf' & Hs').
    exists w'. split; [exact Hloop|]. split; [exact Hrx'|].
    split.
    { rewrite Htx', Htx1. cbn [after_sched sock]. unfold status_reply, pendings.
      rewrite He, Hd, Hs. cbn [replicate concat]. now rewrite <- !app_assoc. }
    split; [exact Hready'|]. split; [now rewrite Hf', Hf1|exact Hs'].
Qed.

Lemma with_row_maxima_length data n : length (with_row_maxima data n) = length data.
Proof. unfold with_row_maxima. apply length_imap. Qed.

(** A session that configures, starts and polls [k + 1] times, the
    worker completing before the last poll. *)
Lemma session_run N T data k w :
  1 <= N <= 3000 -> 0 <= T < two32 ->
  length data = Z.to_nat (N * N) -> patterns data ->
  rx (sock w) = request_bytes N T data (S k) -> tx_ready w ->
  sched w = replicate (k + 2) false ++ [true] -> hd false (faults w) = false ->
  exists state' w',
    handle_client w = Some (state', w')
    /\ tx (sock w') = tx (sock w) ++ reply_bytes N (with_row_maxima data (Z.to_nat N)) k
    /\ resultData state' = with_row_maxima data (Z.to_nat N)
    /\ matrixData state' = data
    /\ processingDone state' = true
    /\ workerThread state' = NotJoinable.
Proof.
  intros HN HT Hlen Hpat Hrx Hready Hsched Hfault.
  set (result := with_row_maxima data (Z.to_nat N)).
  assert (Hfuel : exists fuel, S (length (rx (sock w))) = S (S (k + S (S fuel)))).
  { exists (length (rx (sock w)) - k - 3)%nat. rewrite Hrx.
    unfold request_bytes, config_frame.
    rewrite !length_app, polls_length. cbn [be_bytes length]. lia. }
  destruct Hfuel as (fuel & Hfuel).
  unfold request_bytes in Hrx. rewrite polls_snoc in Hrx.
  assert (Hsched' : sched w = false :: false :: replicate k false ++ [true]).
  { rewrite Hsched. replace (k + 2)%nat with (S (S k)) by lia. reflexivity. }
  destruct (session_prefix N T data (polls k ++ be_bytes CMD_GET_STATUS) w
              (k + S (S fuel)) HN HT Hlen Hpat Hrx Hready)
    as (w2 & Hloop & Hrx2 & Htx2 & Hready2 & Hf2 & Hsc2);
    [now rewrite Hsched'|now rewrite Hsched'|].
  rewrite Hfault in Hloop.
  set (state2 := started false (received N T data initial_state)) in *.
  rewrite Hsched' in Hsc2. cbn [tail] in Hsc2.
  destruct (pending_polls k state2 w2 (S (S fuel)) (be_bytes CMD_GET_STATUS) [true]
              eq_refl eq_refl eq_refl Hready2 Hrx2 Hsc2)
    as (w3 & Hloop3 & Hrx3 & Htx3 & Hready3 & Hf3 & Hsc3).
  (* the worker completes, and the last poll collects the result *)
  pose proof (perform_computation_closed_form state2 ltac:(exact HN) ltac:(exact HT)
                ltac:(exact Hlen)) as Hrun.
  change (matrixData state2) with data in Hrun.
  change (matrixSize state2) with N in Hrun. fold result in Hrun.
  set (state3 := set_workerThread Finished
                   (set_processingStarted false
                      (set_errorOccurred false
                         (set_processingDone true (set_resultData result state2))))).
  assert (Hprog : worker_progress state2 w3 = Some (state3, after_sched w3)).
  { unfold worker_progress. rewrite (bind_Some _ _ _ _ _ (next_sched_eq w3)).
    rewrite Hsc3. cbn [hd]. unfold worker_finish.
    change (workerThread state2) with (Running false). cbv iota.
    now rewrite Hrun. }
  assert (Hrx3' : rx (sock (after_sched w3)) = be_bytes CMD_GET_STATUS ++ [])
    by (rewrite app_nil_r; exact Hrx3).
  assert (Hsmall : processingDone state3 = true -> 4 * len (resultData state3) < two31).
  { intros _. change (resultData state3) with result. unfold len, result.
    rewrite with_row_maxima_length, Hlen. unfold two31. nia. }
  destruct (status_turn_world state3 (after_sched w3) [] Hrx3' Hready3 Hsmall)
    as (w4 & Hcmd4 & Hrx4 & Htx4 & Hready4 & Hf4 & Hsc4).
  (* the stream has ended *)
  assert (Hprog4 : worker_progress state3 w4 = Some (state3, after_sched w4)).
  { apply worker_progress_settled. discriminate. }
  destruct (handle_command_eof state3 (after_sched w4)
              ltac:(cbn [after_sched sock]; rewrite Hrx4; unfold len; cbn; lia))
    as (w5 & Hcmd5 & Htx5).
  assert (Hwhole : handle_client_loop (S (length (rx (sock w)))) initial_state w
                   = Some (state3, w5)).
  { rewrite Hfuel, Hloop, Hloop3.
    rewrite (loop_step _ _ _ _ _ _ _ Hprog Hcmd4).
    exact (loop_stop _ _ _ _ _ _ _ Hprog4 Hcmd5). }
  unfold handle_client.
  rewrite (bind_Some _ _ _ _ _ (eq_refl : get_sock w = Some (sock w, w))).
  rewrite (bind_Some _ _ _ _ _ Hwhole).
  rewrite (bind_Some _ _ _ _ _ (log_eq _ _)).
  rewrite (bind_Some _ _ _ _ _ (emit_eq _ _)).
  rewrite (bind_Some _ _ _ _ _ (emit_eq _ _)).
  unfold join_worker. change (workerThread state3) with Finished. cbv iota.
  rewrite (bind_Some _ _ _ _ _ (emit_eq _ _)).
  eexists _, _. split; [reflexivity|].
  split; [|repeat split].
  cbn [noted sock]. rewrite Htx5. cbn [after_sched sock]. rewrite Htx4.
  cbn [after_sched sock]. rewrite Htx3, Htx2.
  unfold reply_bytes, status_reply.
  change (errorOccurred state3) with false. change (processingDone state3) with true.
  change (matrixSize state3) with N. change (resultData state3) with result.
  cbv iota. now rewrite <- !app_assoc.
Qed.



(** ** The client's exchange *)

Lemma try_bind_Returns {A B} (c : M (Client.result A)) (k : A -> M (Client.result B))
    w a w' :
  c w = Some (Client.Returns a, w') -> Client.try_bind c k w = k a w'.
Proof. intros H. unfold Client.try_bind. now rewrite (bind_Some _ _ _ _ _ H). Qed.

Lemma try_bind_Throws {A B} (c : M (Client.result A)) (k : A -> M (Client.result B))
    w what w' :
  c w = Some (Client.Throws what, w') ->
  Client.try_bind c k w = Some (Client.Throws what, w').
Proof. intros H. unfold Client.try_bind. now rewrite (bind_Some _ _ _ _ _ H). Qed.

Lemma main_args_range argv :
  1 <= fst (Client.main_args argv) <= 5000 /\ 1 <= snd (Client.main_args argv) <= 128.
Proof.
  assert (H : forall x bound default,
             0 <= x -> 1 <= default <= bound ->
             1 <= (if (x =? 0) || (x >? bound) then default else x) <= bound).
  { intros x bound default Hx Hd. rewrite Z.gtb_ltb.
    destruct (Z.eqb_spec x 0), (Z.ltb_spec bound x); cbn [orb]; lia. }
  assert (Hu : forall v, 0 <= to_u32 v).
  { intros v. unfold to_u32. apply Z.mod_pos_bound. unfold two32. lia. }
  unfold Client.main_args. cbv zeta. cbn [fst snd].
  split; apply H; try (unfold Client.DEFAULT_MATRIX_SIZE, Client.DEFAULT_NUM_THREADS; lia).
  - destruct (_ >? 1); [destruct (Client.stoul _)|]; try apply Hu;
      unfold Client.DEFAULT_MATRIX_SIZE; lia.
  - destruct (_ >? 2); [destruct (Client.stoul _)|]; try apply Hu;
      unfold Client.DEFAULT_NUM_THREADS; lia.
Qed.

Lemma pendings_length k : length (pendings k) = (4 * k)%nat.
Proof.
  unfold pendings. induction k as [|k IH]; [reflexivity|].
  cbn [replicate concat]. rewrite length_app, IH. cbn. lia.
Qed.

Lemma payload_front data rest :
  patterns data ->
  floats_of_bytes (take (Z.to_nat (4 * len data)) (bytes_of_floats data ++ rest)) = data
  /\ drop (Z.to_nat (4 * len data)) (bytes_of_floats data ++ rest) = rest.
Proof.
  intros Hpat. pose proof (bytes_of_floats_length data) as Hb. unfold len in *.
  assert (Hl : Z.to_nat (4 * Z.of_nat (length data)) = length (bytes_of_floats data))
    by lia.
  split.
  - rewrite take_app_length' by exact Hl. now apply floats_of_bytes_of_floats.
  - now apply drop_app_length'.
Qed.

Section ClientExchange.

Variable FormatMessage : Z -> option string.
Variable draw : nat -> Z.

Lemma generate_random_matrix_length size :
  0 <= size < two32 ->
  len (Client.generate_random_matrix draw size) = size * size.
Proof.
  intros Hs. unfold Client.generate_random_matrix, len.
  destruct (Z.eqb_spec size 0) as [->|Hne]; [reflexivity|].
  rewrite length_fmap, length_seq.
  rewrite (to_size_t_id size) by (unfold two64, two32 in *; lia).
  rewrite to_size_t_id by (unfold two64, two32 in *; nia). nia.
Qed.

(** Polls answered with RESP_STATUS_PENDING. *)
Lemma poll_pending k : forall w fuel attempts size matrix rest,
  tx_ready w -> rx (sock w) = pendings k ++ rest ->
  0 <= attempts -> attempts + Z.of_nat k <= Client.max_poll_attempts ->
  exists w',
    Client.poll_loop FormatMessage (k + fuel) false size matrix attempts w
    = Client.poll_loop FormatMessage fuel false size matrix (attempts + Z.of_nat k) w'
    /\ rx (sock w') = rest
    /\ tx (sock w') = tx (sock w) ++ polls k
    /\ tx_ready w'.
Proof.
  induction k as [|k IH]; intros w fuel attempts size matrix rest Hready Hrx Ha Hmax.
  - exists w. cbn [Nat.add Z.of_nat]. rewrite Z.add_0_r.
    cbn in Hrx |- *. rewrite app_nil_r. auto.
  - change (S k + fuel)%nat with (S (k + fuel)). cbn [Client.poll_loop].
    unfold Client.max_poll_attempts in *.
    replace (attempts <? 120) with true by (symmetry; apply Z.ltb_lt; lia).
    cbn [negb andb].
    rewrite (try_bind_Returns _ _ _ _ _
               (client_send_uint32_ok FormatMessage Client.CMD_GET_STATUS _ w Hready)).
    change (pendings (S k)) with (be_bytes RESP_STATUS_PENDING ++ pendings k) in Hrx.
    rewrite <- app_assoc in Hrx.
    set (w1 := gave (be_bytes Client.CMD_GET_STATUS) w).
    assert (Hrx1 : rx (sock w1) = be_bytes RESP_STATUS_PENDING ++ pendings k ++ rest)
      by exact Hrx.
    rewrite (try_bind_Returns _ _ _ _ _
               (client_recv_uint32_value FormatMessage _ w1 RESP_STATUS_PENDING _ Hrx1
                  ltac:(unfold RESP_STATUS_PENDING, two32; lia))).
    change (RESP_STATUS_PENDING =? Client.RESP_RESULT) with false.
    change (RESP_STATUS_PENDING =? Client.RESP_STATUS_PENDING) with true.
    cbv iota.
    rewrite to_i32_id by (unfold two31; lia).
    set (w2 := took 4 true w1).
    assert (Hrx2 : rx (sock w2) = pendings k ++ rest).
    { now apply (took_rx 4 true w1 (be_bytes RESP_STATUS_PENDING)). }
    destruct (IH w2 fuel (attempts + 1) size matrix rest Hready Hrx2 ltac:(lia) ltac:(lia))
      as (w' & Hloop & Hrx' & Htx' & Hready').
    exists w'. split.
    { rewrite Hloop. f_equal. lia. }
    split; [exact Hrx'|]. split; [|exact Hready'].
    rewrite Htx'. subst w2 w1. cbn [took gave sock tx set_tx set_rx].
    destruct (sock w); cbn [tx]. rewrite <- app_assoc. reflexivity.
Qed.

(** The poll that is answered with the result. *)
Lemma poll_result w fuel attempts size matrix S result rest :
  tx_ready w ->
  rx (sock w) = be_bytes RESP_RESULT ++ be_bytes S ++ bytes_of_floats result ++ rest ->
  0 <= attempts < Client.max_poll_attempts ->
  1 <= S -> S * S <= 100000000 -> len result = S * S -> patterns result ->
  exists w',
    Client.poll_loop FormatMessage (Datatypes.S fuel) false size matrix attempts w
    = Some (Client.Returns (true, S, result), w')
    /\ rx (sock w') = rest
    /\ tx (sock w') = tx (sock w) ++ be_bytes CMD_GET_STATUS
    /\ tx_ready w'.
Proof.
  intros Hready Hrx Ha HS Hcap Hlen Hpat. cbn [Client.poll_loop].
  unfold Client.max_poll_attempts in *.
  replace (attempts <? 120) with true by (symmetry; apply Z.ltb_lt; lia).
  cbn [negb andb].
  rewrite (try_bind_Returns _ _ _ _ _
             (client_send_uint32_ok FormatMessage Client.CMD_GET_STATUS _ w Hready)).
  set (w1 := gave (be_bytes Client.CMD_GET_STATUS) w).
  assert (Hrx1 : rx (sock w1)
                 = be_bytes RESP_RESULT ++ be_bytes S ++ bytes_of_floats result ++ rest)
    by exact Hrx.
  rewrite (try_bind_Returns _ _ _ _ _
             (client_recv_uint32_value FormatMessage _ w1 RESP_RESULT _ Hrx1
                ltac:(unfold RESP_RESULT, two32; lia))).
  change (RESP_RESULT =? Client.RESP_RESULT) with true. cbv iota.
  set (w2 := took 4 true w1).
  assert (Hrx2 : rx (sock w2) = be_bytes S ++ bytes_of_floats result ++ rest).
  { now apply (took_rx 4 true w1 (be_bytes RESP_RESULT)). }
  assert (HS32 : 0 <= S < two32) by (unfold two32; nia).
  rewrite (try_bind_Returns _ _ _ _ _
             (client_recv_uint32_value FormatMessage _ w2 S _ Hrx2 HS32)).
  rewrite (to_size_t_id S) by (unfold two64, two32 in *; lia).
  rewrite (to_size_t_id (S * S)) by (unfold two64; nia).
  replace (S >? 0) with true by (symmetry; rewrite Z.gtb_ltb; apply Z.ltb_lt; lia).
  replace (S * S <=? 100000000) with true by (symmetry; apply Z.leb_le; lia).
  cbn [andb].
  set (w3 := took 4 true w2).
  assert (Hrx3 : rx (sock w3) = bytes_of_floats result ++ rest).
  { now apply (took_rx 4 true w2 (be_bytes S)). }
  pose proof (bytes_of_floats_length result) as Hb.
  destruct (recv_floats_ok matrix (S * S) "recv result data" w3)
    as (w4 & Hrecv & Htaken); [lia|unfold two31; lia| |].
  { rewrite Hrx3. unfold len in *. rewrite length_app. lia. }
  destruct (payload_front result rest Hpat) as [Hfront Hback].
  rewrite Hrx3 in Hrecv. replace (4 * (S * S)) with (4 * len result) in Hrecv by lia.
  rewrite Hfront in Hrecv.
  rewrite (try_bind_Returns _ _ _ _ _
             (client_recv_floats_agrees FormatMessage _ _ _ "recv result data" _ _ _
                Hrecv)).
  destruct fuel as [|fuel]; cbn [Client.poll_loop negb andb].
  all: exists w4; split; [reflexivity|].
  all: split;
    [rewrite (taken_from_rx _ _ _ Htaken), Hrx3;
     replace (4 * (S * S)) with (4 * len result) by lia; exact Hback|].
  all: split;
    [rewrite (taken_from_tx _ _ _ Htaken); subst w3 w2 w1;
     cbn [took gave sock tx set_tx set_rx]; destruct (sock w); reflexivity
    |eapply taken_from_tx_ready; [exact Htaken|exact Hready]].
Qed.

(** The exchange up to the polling loop, on a server that acknowledges
    both commands. *)
Lemma exchange_prefix N T w rest :
  1 <= N <= 5000 -> 0 <= T < two32 -> tx_ready w ->
  rx (sock w) = be_bytes RESP_ACK ++ be_bytes RESP_ACK ++ rest ->
  exists w',
    Client.exchange FormatMessage draw N T w
    = Client.poll_loop FormatMessage (Z.to_nat Client.max_poll_attempts) false 0 [] 0 w'
    /\ rx (sock w') = rest
    /\ tx (sock w') = tx (sock w)
                      ++ config_frame N T (Client.generate_random_matrix draw N)
                      ++ be_bytes CMD_START_COMP
    /\ tx_ready w'.
Proof.
  intros HN HT Hready Hrx. unfold Client.exchange.
  set (data := Client.generate_random_matrix draw N).
  pose proof (generate_random_matrix_length N ltac:(unfold two32; lia)) as Hlen.
  fold data in Hlen.
  rewrite (try_bind_Returns _ _ _ _ _
             (client_send_uint32_ok FormatMessage Client.CMD_CONFIG_DATA _ w Hready)).
  set (w1 := gave (be_bytes Client.CMD_CONFIG_DATA) w).
  rewrite (try_bind_Returns _ _ _ _ _
             (client_send_uint32_ok FormatMessage N _ w1 Hready)).
  set (w2 := gave (be_bytes N) w1).
  rewrite (try_bind_Returns _ _ _ _ _
             (client_send_uint32_ok FormatMessage T _ w2 Hready)).
  set (w3 := gave (be_bytes T) w2).
  destruct (send_floats_ok data "send matrix data" w3 (proj1 Hready)
              ltac:(unfold two31; nia)) as (w4 & Hsend & Hon).
  rewrite (try_bind_Returns _ _ _ _ _
             (client_send_floats_agrees FormatMessage _ _ "send matrix data" _ _ Hsend)).
  assert (Hready4 : tx_ready w4) by (eapply sent_on_tx_ready; [exact Hon|exact Hready]).
  assert (Hrx4 : rx (sock w4) = be_bytes RESP_ACK ++ be_bytes RESP_ACK ++ rest).
  { rewrite (sent_on_rx _ _ _ Hon). exact Hrx. }
  rewrite (try_bind_Returns _ _ _ _ _
             (client_recv_uint32_value FormatMessage _ w4 RESP_ACK _ Hrx4
                ltac:(unfold RESP_ACK, two32; lia))).
  change (negb (RESP_ACK =? Client.RESP_ACK)) with false. cbv iota.
  set (w5 := took 4 true w4).
  assert (Hrx5 : rx (sock w5) = be_bytes RESP_ACK ++ rest).
  { now apply (took_rx 4 true w4 (be_bytes RESP_ACK)). }
  rewrite (try_bind_Returns _ _ _ _ _
             (client_send_uint32_ok FormatMessage Client.CMD_START_COMP _ w5 Hready4)).
  set (w6 := gave (be_bytes Client.CMD_START_COMP) w5).
  assert (Hrx6 : rx (sock w6) = be_bytes RESP_ACK ++ rest) by exact Hrx5.
  rewrite (try_bind_Returns _ _ _ _ _
             (client_recv_uint32_value FormatMessage _ w6 RESP_ACK _ Hrx6
                ltac:(unfold RESP_ACK, two32; lia))).
  change (negb (RESP_ACK =? Client.RESP_ACK)) with false. cbv iota.
  exists (took 4 true w6). split; [reflexivity|].
  split; [now apply (took_rx 4 true w6 (be_bytes RESP_ACK))|].
  split; [|exact Hready4].
  pose proof (sent_on_tx _ _ _ Hon) as Htx4.
  subst w6 w5. cbn [took gave sock tx set_tx set_rx].
  destruct (sock w4) eqn:Hs4. cbn [tx] in *. rewrite Htx4.
  subst w3 w2 w1. cbn [gave sock tx set_tx]. destruct (sock w). cbn [tx].
  unfold config_frame. now rewrite <- !app_assoc.
Qed.

(** The whole exchange on a server that answers PENDING [k] times and
    then sends a result of side [S]. *)
Lemma exchange_run N T k S result w rest :
  1 <= N <= 5000 -> 0 <= T < two32 -> tx_ready w ->
  rx (sock w) = reply_bytes S result k ++ rest -> (k < 120)%nat ->
  1 <= S -> S * S <= 100000000 -> len result = S * S -> patterns result ->
  exists w',
    Client.exchange FormatMessage draw N T w = Some (Client.Returns (true, S, result), w')
    /\ rx (sock w') = rest
    /\ tx (sock w') = tx (sock w)
                      ++ request_bytes N T (Client.generate_random_matrix draw N)
                           (Datatypes.S k).
Proof.
  intros HN HT Hready Hrx Hk HS Hcap Hlen Hpat.
  unfold reply_bytes in Hrx. rewrite <- !app_assoc in Hrx.
  destruct (exchange_prefix N T w _ HN HT Hready Hrx)
    as (w1 & Hrun & Hrx1 & Htx1 & Hready1).
  change (Z.to_nat Client.max_poll_attempts) with 120%nat in Hrun.
  replace 120%nat with (k + Datatypes.S (119 - k))%nat in Hrun by lia.
  destruct (poll_pending k w1 (Datatypes.S (119 - k)) 0 0 [] _ Hready1 Hrx1 ltac:(lia)
              ltac:(unfold Client.max_poll_attempts; lia))
    as (w2 & Hloop & Hrx2 & Htx2 & Hready2).
  destruct (poll_result w2 (119 - k) (0 + Z.of_nat k) 0 [] S result rest Hready2 Hrx2
              ltac:(unfold Client.max_poll_attempts; lia) HS Hcap Hlen Hpat)
    as (w3 & Hres & Hrx3 & Htx3 & _).
  exists w3. split; [now rewrite Hrun, Hloop|]. split; [exact Hrx3|].
  rewrite Htx3, Htx2, Htx1. unfold request_bytes. rewrite polls_snoc.
  now rewrite <- !app_assoc.
Qed.

End ClientExchange.

Section ClientMain.

Variable FormatMessage : Z -> option string.
Variable draw : nat -> Z.


(** [main] once the connection stands: the exit code follows the
    exchange, and the socket is shut down and closed. *)
Lemma main_connected env argv w r w1 :
  Client.WSAStartup env = 0 -> Client.socket_error env = None ->
  0 < Client.inet_pton env -> Client.connect_error env = None ->
  Client.exchange FormatMessage draw (fst (Client.main_args argv))
    (snd (Client.main_args argv)) w = Some (r, w1) ->
  Client.main FormatMessage draw env argv w
  = Some (match r with Client.Returns (true, _, _) => 0 | _ => 1 end,
          noted EvClose (noted EvShutdown w1)).
Proof.
  intros H1 H2 H3 H4 Hrun. unfold Client.main.
  destruct (Client.main_args argv) as [N T]. cbn [fst snd] in Hrun.
  unfold Client.try_block. rewrite H1, H2, H4. cbn [Z.eqb negb].
  replace (Client.inet_pton env <=? 0) with false by (symmetry; apply Z.leb_gt; lia).
  unfold bind at 1. unfold bind at 1. rewrite Hrun. reflexivity.
Qed.

End ClientMain.

(** X14. The client on a server that acknowledges both commands,
    answers k < 120 polls with PENDING and then sends a result of side
    S (1 <= S, S*S <= 10^8): [main] sends the CONFIG_DATA frame with the
    matrix it generated, START_COMP and exactly k + 1 status polls,
    holds the received matrix, reads the reply up to the end of the
    payload and no further, then shuts the socket down, closes it and
    returns 0. *)
Theorem client_session_succeeds FormatMessage draw env argv k S result w rest :
  Client.WSAStartup env = 0 -> Client.socket_error env = None ->
  0 < Client.inet_pton env -> Client.connect_error env = None ->
  tx_ready w -> rx (sock w) = reply_bytes S result k ++ rest -> (k < 120)%nat ->
  1 <= S -> S * S <= 100000000 -> len result = S * S -> patterns result ->
  let N := fst (Client.main_args argv) in
  let T := snd (Client.main_args argv) in
  exists w1,
    Client.exchange FormatMessage draw N T w = Some (Client.Returns (true, S, result), w1)
    /\ Client.main FormatMessage draw env argv w
       = Some (0, noted EvClose (noted EvShutdown w1))
    /\ rx (sock w1) = rest
    /\ tx (sock w1) = tx (sock w)
                      ++ request_bytes N T (Client.generate_random_matrix draw N)
                           (Datatypes.S k).
Proof.
  intros H1 H2 H3 H4 Hready Hrx Hk HS Hcap Hlen Hpat N T.
  destruct (main_args_range argv) as [HN HT]. fold N T in HN, HT.
  destruct (exchange_run FormatMessage draw N T k S result w rest
              ltac:(lia) ltac:(unfold two32; lia) Hready Hrx Hk HS Hcap Hlen Hpat)
    as (w1 & Hrun & Hrx1 & Htx1).
  exists w1. split; [exact Hrun|]. split; [|split; assumption].
  now rewrite (main_connected FormatMessage draw env argv w _ w1 H1 H2 H3 H4 Hrun).
Qed.

Lemma client_session_succeeds_witness :
  let F := fun _ : Z => @None string in
  let draw := fun _ : nat => f7 in
  let env := Client.mkStartup 0 None 1 None in
  let w := world_of (reply_bytes 1 [f7] 2 ++ [4]) in
  let N := fst (Client.main_args ["client"; "1"; "3"]%string) in
  let T := snd (Client.main_args ["client"; "1"; "3"]%string) in
  exists w1,
    Client.exchange F draw N T w = Some (Client.Returns (true, 1, [f7]), w1)
    /\ Client.main F draw env ["client"; "1"; "3"]%string w
       = Some (0, noted EvClose (noted EvShutdown w1))
    /\ rx (sock w1) = [4]
    /\ tx (sock w1) = tx (sock w)
                      ++ request_bytes N T (Client.generate_random_matrix draw N) 3.
Proof.
  apply (client_session_succeeds (fun _ => None) (fun _ => f7)
           (Client.mkStartup 0 None 1 None) ["client"; "1"; "3"]%string 2 1 [f7]
           (world_of (reply_bytes 1 [f7] 2 ++ [4])) [4]).
  - reflexivity.
  - reflexivity.
  - cbn. lia.
  - reflexivity.
  - split; [reflexivity|]. cbn. lia.
  - reflexivity.
  - lia.
  - lia.
  - lia.
  - reflexivity.
  - repeat constructor; unfold f7, two32; lia.
Defined.

(** X15. The client gives up after 120 polls: on a server that
    acknowledges both commands and answers PENDING every time, [main]
    sends exactly 120 status polls, reads exactly 120 replies, throws
    nothing and returns 1. *)
Theorem client_gives_up_after_120_polls FormatMessage draw env argv w rest :
  Client.WSAStartup env = 0 -> Client.socket_error env = None ->
  0 < Client.inet_pton env -> Client.connect_error env = None ->
  tx_ready w ->
  rx (sock w) = be_bytes RESP_ACK ++ be_bytes RESP_ACK ++ pendings 120 ++ rest ->
  let N := fst (Client.main_args argv) in
  let T := snd (Client.main_args argv) in
  exists w1,
    Client.exchange FormatMessage draw N T w = Some (Client.Returns (false, 0, []), w1)
    /\ Client.main FormatMessage draw env argv w
       = Some (1, noted EvClose (noted EvShutdown w1))
    /\ rx (sock w1) = rest
    /\ tx (sock w1) = tx (sock w)
                      ++ request_bytes N T (Client.generate_random_matrix draw N) 120.
Proof.
  intros H1 H2 H3 H4 Hready Hrx N T.
  destruct (main_args_range argv) as [HN HT]. fold N T in HN, HT.
  destruct (exchange_prefix FormatMessage draw N T w _ ltac:(lia)
              ltac:(unfold two32; lia) Hready Hrx)
    as (w1 & Hrun & Hrx1 & Htx1 & Hready1).
  change (Z.to_nat Client.max_poll_attempts) with (120 + 0)%nat in Hrun.
  destruct (poll_pending FormatMessage 120 w1 0 0 0 [] rest Hready1 Hrx1 ltac:(lia)
              ltac:(unfold Client.max_poll_attempts; lia))
    as (w2 & Hloop & Hrx2 & Htx2 & _).
  assert (Hex : Client.exchange FormatMessage draw N T w
                = Some (Client.Returns (false, 0, []), w2)).
  { rewrite Hrun, Hloop. reflexivity. }
  exists w2. split; [exact Hex|]. split.
  - now rewrite (main_connected FormatMessage draw env argv w _ w2 H1 H2 H3 H4 Hex).
  - split; [exact Hrx2|]. rewrite Htx2, Htx1. unfold request_bytes.
    now rewrite <- !app_assoc.
Qed.

Lemma client_gives_up_after_120_polls_witness :
  let F := fun _ : Z => @None string in
  let draw := fun _ : nat => f7 in
  let env := Client.mkStartup 0 None 1 None in
  let w := world_of (be_bytes RESP_ACK ++ be_bytes RESP_ACK ++ pendings 120 ++ [4]) in
  let N := fst (Client.main_args ["client"; "1"]%string) in
  let T := snd (Client.main_args ["client"; "1"]%string) in
  exists w1,
    Client.exchange F draw N T w = Some (Client.Returns (false, 0, []), w1)
    /\ Client.main F draw env ["client"; "1"]%string w
       = Some (1, noted EvClose (noted EvShutdown w1))
    /\ rx (sock w1) = [4]
    /\ tx (sock w1) = tx (sock w)
                      ++ request_bytes N T (Client.generate_random_matrix draw N) 120.
Proof.
  apply (client_gives_up_after_120_polls (fun _ => None) (fun _ => f7)
           (Client.mkStartup 0 None 1 None) ["client"; "1"]%string
           (world_of (be_bytes RESP_ACK ++ be_bytes RESP_ACK ++ pendings 120 ++ [4])) [4]).
  - reflexivity.
  - reflexivity.
  - cbn. lia.
  - reflexivity.
  - split; [reflexivity|]. cbn. lia.
  - reflexivity.
Defined.

(** X16. When a call before the exchange fails, [main] returns 1 with
    nothing sent and nothing received.  If [WSAStartup] or [socket]
    fails no socket is touched; if [inet_pton] or [connect] fails the
    socket is closed where the failure is seen and then, in the common
    cleanup, shut down and closed a second time. *)
Theorem client_startup_failure FormatMessage draw env argv w :
  Client.WSAStartup env <> 0 \/ Client.socket_error env <> None
  \/ Client.inet_pton env <= 0 \/ Client.connect_error env <> None ->
  exists w',
    Client.main FormatMessage draw env argv w = Some (1, w')
    /\ sock w' = sock w
    /\ trace w'
       = trace w
         ++ (if negb (Client.WSAStartup env =? 0) then []
             else match Client.socket_error env with
                  | Some _ => []
                  | None => [EvClose; EvShutdown; EvClose]
                  end).
Proof.
  intros Hfail. unfold Client.main.
  destruct (Client.main_args argv) as [N T]. unfold Client.try_block.
  destruct (Z.eqb_spec (Client.WSAStartup env) 0) as [H0|H0]; cbn [negb].
  2:{ eexists. split; [reflexivity|]. split; [reflexivity|]. cbn. now rewrite app_nil_r. }
  destruct (Client.socket_error env) as [code|] eqn:Hs.
  { eexists. split; [reflexivity|]. split; [reflexivity|]. cbn. now rewrite app_nil_r. }
  destruct (Z.leb_spec (Client.inet_pton env) 0) as [Hp|Hp].
  { eexists. split; [reflexivity|]. split; [reflexivity|]. cbn.
    now rewrite <- !app_assoc. }
  destruct (Client.connect_error env) as [code|] eqn:Hc.
  { eexists. split; [reflexivity|]. split; [reflexivity|]. cbn.
    now rewrite <- !app_assoc. }
  exfalso. destruct Hfail as [H|[H|[H|H]]]; try contradiction; try lia; congruence.
Qed.

Lemma client_startup_failure_witness :
  let F := fun _ : Z => @None string in
  let env := Client.mkStartup 0 None 1 (Some 10061) in
  exists w',
    Client.main F (fun _ => f7) env ["client"]%string (world_of []) = Some (1, w')
    /\ sock w' = sock (world_of [])
    /\ trace w'
       = trace (world_of [])
         ++ (if negb (Client.WSAStartup env =? 0) then []
             else match Client.socket_error env with
                  | Some _ => []
                  | None => [EvClose; EvShutdown; EvClose]
                  end).
Proof.
  apply (client_startup_failure (fun _ => None) (fun _ => f7)
           (Client.mkStartup 0 None 1 (Some 10061)) ["client"]%string (world_of [])).
  right. right. right. discriminate.
Defined.



(** ** Client and server together *)

Lemma scan_max_choice cells : forall init,
  scan_max cells init = init \/ scan_max cells init ∈ cells.
Proof.
  unfold scan_max. induction cells as [|x cells IH]; intros init; [now left|].
  cbn [fold_left].
  destruct (IH (if Float32.gt x init then x else init)) as [H|H].
  - rewrite H. destruct (Float32.gt x init); [right; apply list_elem_of_here|now left].
  - right. now apply list_elem_of_further.
Qed.

Lemma with_row_maxima_patterns data n : patterns data -> patterns (with_row_maxima data n).
Proof.
  intros Hpat. unfold patterns in *. rewrite Forall_lookup. intros i x Hx.
  unfold with_row_maxima in Hx. rewrite list_lookup_imap in Hx.
  destruct (data !! i) as [y|] eqn:Hy; [|discriminate]. cbn in Hx.
  injection Hx as <-.
  destruct (decide _).
  - destruct (scan_max_choice (take n (drop (i `div` n * n) data)) Float32.neg_infinity)
      as [->|Hin].
    + unfold Float32.neg_infinity, two32. lia.
    + rewrite Forall_forall in Hpat. apply Hpat.
      apply elem_of_take in Hin as (j & Hj & _).
      rewrite lookup_drop in Hj. eapply list_elem_of_lookup_2. exact Hj.
  - rewrite Forall_lookup in Hpat. exact (Hpat i y Hy).
Qed.

Lemma generate_random_matrix_patterns draw size :
  (forall i, 0 <= draw i < two32) -> patterns (Client.generate_random_matrix draw size).
Proof.
  intros Hdraw. unfold Client.generate_random_matrix, patterns.
  destruct (size =? 0); [constructor|].
  apply Forall_fmap, Forall_forall. intros i _. apply Hdraw.
Qed.




(** X19. Client and server agree on one session.  For a size N <= 3000
    chosen by the client's arguments, the server run on the bytes the
    client sends and the client run on the bytes the server sends fit
    together: each reads exactly what the other writes, the server
    answers ACK, ACK, k times PENDING and the result, and the matrix the
    client ends up with is the one it generated with each diagonal cell
    replaced by the scan of its row. *)
Theorem offload_round_trip FormatMessage draw argv k ws wc :
  let N := fst (Client.main_args argv) in
  let T := snd (Client.main_args argv) in
  let data := Client.generate_random_matrix draw N in
  let result := with_row_maxima data (Z.to_nat N) in
  N <= 3000 -> (forall i, 0 <= draw i < two32) -> (k < 120)%nat ->
  tx_ready ws -> tx (sock ws) = [] -> rx (sock ws) = request_bytes N T data (S k) ->
  sched ws = replicate (k + 2) false ++ [true] -> hd false (faults ws) = false ->
  tx_ready wc -> tx (sock wc) = [] -> rx (sock wc) = reply_bytes N result k ->
  exists state' ws' wc',
    handle_client ws = Some (state', ws')
    /\ Client.exchange FormatMessage draw N T wc
       = Some (Client.Returns (true, N, result), wc')
    /\ tx (sock ws') = rx (sock wc)
    /\ tx (sock wc') = rx (sock ws)
    /\ rx (sock wc') = [].
Proof.
  intros N T data result HN Hdraw Hk Hrs Htxs Hrxs Hsched Hfault Hrc Htxc Hrxc.
  destruct (main_args_range argv) as [HN' HT]. fold N T in HN', HT.
  pose proof (generate_random_matrix_length draw N ltac:(unfold two32; lia)) as Hlen.
  fold data in Hlen.
  pose proof (generate_random_matrix_patterns draw N Hdraw) as Hpat. fold data in Hpat.
  destruct (session_run N T data k ws ltac:(lia) ltac:(unfold two32; lia)
              ltac:(unfold len in Hlen; lia) Hpat Hrxs Hrs Hsched Hfault)
    as (state' & ws' & Hserver & Htxs' & _).
  fold result in Htxs'.
  rewrite <- (app_nil_r (reply_bytes N result k)) in Hrxc.
  destruct (exchange_run FormatMessage draw N T k N result wc [] ltac:(lia)
              ltac:(unfold two32; lia) Hrc Hrxc Hk ltac:(lia) ltac:(nia))
    as (wc' & Hclient & Hrxc' & Htxc').
  { unfold result, len. rewrite with_row_maxima_length. exact Hlen. }
  { now apply with_row_maxima_patterns. }
  exists state', ws', wc'.
  split; [exact Hserver|]. split; [exact Hclient|].
  split; [rewrite Htxs', Htxs, Hrxc; now rewrite app_nil_r|].
  split; [rewrite Htxc', Htxc, Hrxs; reflexivity|exact Hrxc'].
Qed.

Lemma offload_round_trip_witness :
  let F := fun _ : Z => @None string in
  let draw := fun i : nat => if Nat.even i then f7 else f9 in
  let argv := ["client"; "2"; "3"]%string in
  let N := fst (Client.main_args argv) in
  let T := snd (Client.main_args argv) in
  let data := Client.generate_random_matrix draw N in
  let result := with_row_maxima data (Z.to_nat N) in
  let ws := world_scheduled (request_bytes N T data 2) 3 in
  let wc := world_of (reply_bytes N result 1) in
  exists state' ws' wc',
    handle_client ws = Some (state', ws')
    /\ Client.exchange F draw N T wc = Some (Client.Returns (true, N, result), wc')
    /\ tx (sock ws') = rx (sock wc)
    /\ tx (sock wc') = rx (sock ws)
    /\ rx (sock wc') = [].
Proof.
  apply (offload_round_trip (fun _ => None) (fun i => if Nat.even i then f7 else f9)
           ["client"; "2"; "3"]%string 1).
  - vm_compute. discriminate.
  - intros i. destruct (Nat.even i); unfold f7, f9, two32; lia.
  - lia.
  - split; [reflexivity|]. cbn. lia.
  - reflexivity.
  - reflexivity.
  - reflexivity.
  - reflexivity.
  - split; [reflexivity|]. cbn. lia.
  - reflexivity.
  - reflexivity.
Defined.

(** ** The order of the row tasks *)

(** X20. The outcome of the worker threads does not depend on how their
    row steps interleave: taking the rows 0 .. N-1 one at a time in any
    order gives the input with each diagonal cell replaced by the scan
    of its row, which is also what the chunks give when they run one
    after the other, for every thread count. *)
Theorem worker_schedule_irrelevant orig N T rows :
  1 <= N <= 3000 -> 0 <= T < two32 -> length orig = Z.to_nat (N * N) ->
  rows ≡ₚ seq 0 (Z.to_nat N) ->
  run_rows rows N orig = Some (with_row_maxima orig (Z.to_nat N))
  /\ run_workers (spawn_workers N T) N orig = Some (with_row_maxima orig (Z.to_nat N)).
Proof.
  intros HN HT Hlen Hperm.
  rewrite (row_order_irrelevant orig N T rows HN HT Hlen Hperm).
  split; now apply run_workers_closed_form.
Qed.

Lemma worker_schedule_irrelevant_witness :
  let orig := [f1; f2; f3; f4; f5; f6; f7; f8; f9] in
  run_rows [2; 0; 1]%nat 3 orig = Some (with_row_maxima orig (Z.to_nat 3))
  /\ run_workers (spawn_workers 3 2) 3 orig = Some (with_row_maxima orig (Z.to_nat 3)).
Proof.
  apply (worker_schedule_irrelevant [f1; f2; f3; f4; f5; f6; f7; f8; f9] 3 2
           [2; 0; 1]%nat).
  - lia.
  - unfold two32. lia.
  - reflexivity.
  - change (seq 0 (Z.to_nat 3)) with [0; 1; 2]%nat.
    etrans; [apply perm_swap|]. apply perm_skip. apply perm_swap.
Defined.

(** ** The session invariant on a reached session *)


(** ** The listener *)

Lemma accept_loop_survivable accepts :
  Forall survivable accepts -> accept_loop accepts = (handled <$> accepts, false).
Proof.
  induction 1 as [|a accepts Ha _ IH]; [reflexivity|].
  cbn [accept_loop fmap list_fmap]. rewrite IH.
  destruct a as [s [|]|code]; cbn in Ha |- *; [reflexivity|reflexivity|].
  now rewrite Ha.
Qed.

Lemma accept_loop_fatal before code after :
  Forall survivable before -> retried code = false ->
  accept_loop (before ++ AcceptError code :: after) = (handled <$> before, true).
Proof.
  intros Hb Hcode. induction Hb as [|a before Ha _ IH].
  - cbn. now rewrite Hcode.
  - cbn [app accept_loop fmap list_fmap]. rewrite IH.
    destruct a as [s [|]|c]; cbn in Ha |- *; [reflexivity|reflexivity|].
    now rewrite Ha.
Qed.

Lemma main_listening env accepts :
  listening env ->
  main env accepts
  = let '(events, broke) := accept_loop accepts in
    if broke then (events ++ [ClosedListener; Cleanup], Returned 0)
    else (events, InAccept).
Proof.
  intros (H1 & H2 & H3 & H4). unfold main. rewrite H1, H2. cbn [Z.eqb negb].
  replace (bind_result env =? SOCKET_ERROR) with false by (symmetry; now apply Z.eqb_neq).
  replace (listen_result env =? SOCKET_ERROR) with false
    by (symmetry; now apply Z.eqb_neq).
  reflexivity.
Qed.

(** X21. The listener outlives what it can outlive.  Once it listens,
    as long as [accept] returns client sockets or fails with one of
    WSAEINTR, WSAECONNABORTED, WSAEMFILE and WSAENOBUFS, [main] does not
    return: it handles the returns in order, each accepted socket going
    to a detached handler thread or, when no thread can be created,
    being closed, and each such failure being followed by a pause and a
    new [accept]. *)
Theorem listener_keeps_accepting env accepts :
  listening env -> Forall survivable accepts ->
  main env accepts = (handled <$> accepts, InAccept).
Proof.
  intros Henv Hacc. rewrite (main_listening env accepts Henv).
  now rewrite (accept_loop_survivable accepts Hacc).
Qed.

Lemma listener_keeps_accepting_witness :
  main (mkStartup 0 true 0 0)
    [Accepted 7 true; AcceptError WSAEMFILE; Accepted 8 false; Accepted 9 true]
  = (handled <$> [Accepted 7 true; AcceptError WSAEMFILE; Accepted 8 false;
                  Accepted 9 true], InAccept).
Proof.
  apply (listener_keeps_accepting (mkStartup 0 true 0 0)
           [Accepted 7 true; AcceptError WSAEMFILE; Accepted 8 false; Accepted 9 true]).
  - repeat split; discriminate.
  - repeat constructor.
Defined.

(** X22. The first failure of [accept] with any other code ends the
    server: the connections accepted before it have been handed over or
    closed, the listening socket is closed, and [main] returns 0; what
    [accept] would have returned afterwards plays no part. *)
Theorem listener_stops_at_fatal_error env before code after :
  listening env -> Forall survivable before -> retried code = false ->
  main env (before ++ AcceptError code :: after)
  = ((handled <$> before) ++ [ClosedListener; Cleanup], Returned 0).
Proof.
  intros Henv Hb Hcode. rewrite (main_listening env _ Henv).
  now rewrite (accept_loop_fatal before code after Hb Hcode).
Qed.

Lemma listener_stops_at_fatal_error_witness :
  main (mkStartup 0 true 0 0)
    ([Accepted 7 true; AcceptError WSAEINTR] ++ AcceptError 10038 :: [Accepted 8 true])
  = ((handled <$> [Accepted 7 true; AcceptError WSAEINTR]) ++ [ClosedListener; Cleanup],
     Returned 0).
Proof.
  apply (listener_stops_at_fatal_error (mkStartup 0 true 0 0)
           [Accepted 7 true; AcceptError WSAEINTR] 10038 [Accepted 8 true]).
  - repeat split; discriminate.
  - repeat constructor.
  - reflexivity.
Defined.

(** ** Decimal arguments *)

Lemma of_uint_acc_value d : forall acc,
  Z.pos (Pos.of_uint_acc d acc) = uint_value d (Z.pos acc).
Proof.
  induction d as [|d IH|d IH|d IH|d IH|d IH|d IH|d IH|d IH|d IH|d IH]; intros acc;
    cbn [Pos.of_uint_acc uint_value]; [reflexivity|..]; rewrite IH; f_equal; lia.
Qed.

Lemma of_uint_value d : Z.of_N (Pos.of_uint d) = uint_value d 0.
Proof.
  induction d as [|d IH|d IH|d IH|d IH|d IH|d IH|d IH|d IH|d IH|d IH];
    cbn [Pos.of_uint uint_value]; [reflexivity|exact IH|..];
    cbn [Z.of_N]; now rewrite of_uint_acc_value.
Qed.

Lemma to_uint_value p : uint_value (Pos.to_uint p) 0 = Z.pos p.
Proof. now rewrite <- of_uint_value, DecimalPos.Unsigned.of_to. Qed.

Lemma read_digits_numeral d : forall acc,
  Client.read_digits (NilEmpty.string_of_uint d) (Some acc) = Some (uint_value d acc).
Proof.
  induction d as [|d IH|d IH|d IH|d IH|d IH|d IH|d IH|d IH|d IH|d IH]; intros acc;
    [reflexivity|..];
    cbn [NilEmpty.string_of_uint Client.read_digits uint_value];
    match goal with |- context [Client.digit_value ?c] =>
      let v := eval vm_compute in (Client.digit_value c) in
      change (Client.digit_value c) with v
    end; cbv iota; cbn [default from_option id]; rewrite IH; f_equal; f_equal; lia.
Qed.

Lemma read_digits_to_uint p :
  Client.read_digits (NilZero.string_of_uint (Pos.to_uint p)) None = Some (Z.pos p).
Proof.
  pose proof (to_uint_value p) as Hv.
  pose proof (DecimalPos.Unsigned.to_uint_nonnil p) as Hnil.
  destruct (Pos.to_uint p) as [|d|d|d|d|d|d|d|d|d|d]; [contradiction|..];
    cbn [NilZero.string_of_uint NilEmpty.string_of_uint Client.read_digits];
    match goal with |- context [Client.digit_value ?c] =>
      let v := eval vm_compute in (Client.digit_value c) in
      change (Client.digit_value c) with v
    end; cbv iota; cbn [default from_option id]; rewrite read_digits_numeral;
    cbn [uint_value] in Hv; rewrite <- Hv; f_equal; f_equal; lia.
Qed.

(** A string that starts with a decimal digit has no white space and no
    sign for [std::stoul] to skip. *)
Lemma stoul_unsigned c rest k :
  Client.digit_value c = Some k ->
  Client.stoul (String c rest)
  = match Client.read_digits (String c rest) None with
    | None => Client.invalid_argument
    | Some v => if v >? Client.ULONG_MAX then Client.out_of_range else Client.converted v
    end.
Proof.
  intros Hd. unfold Client.stoul. cbn [Client.skip_space].
  destruct c as [[] [] [] [] [] [] [] []]; try discriminate Hd; reflexivity.
Qed.

Lemma to_string_pos p :
  exists c rest k,
    Client.to_string (Z.pos p) = String c rest /\ Client.digit_value c = Some k.
Proof.
  unfold Client.to_string. cbn [Z.to_int NilZero.string_of_int].
  pose proof (DecimalPos.Unsigned.to_uint_nonnil p) as Hnil.
  destruct (Pos.to_uint p) as [|d|d|d|d|d|d|d|d|d|d]; [contradiction|..];
    cbn [NilZero.string_of_uint NilEmpty.string_of_uint];
    eexists _, _, _; (split; [reflexivity|vm_compute; reflexivity]).
Qed.

Lemma stoul_to_string v :
  0 <= v <= Client.ULONG_MAX -> Client.stoul (Client.to_string v) = Client.converted v.
Proof.
  intros Hv. destruct v as [|p|p]; [reflexivity| |lia].
  destruct (to_string_pos p) as (c & rest & k & Hs & Hd).
  rewrite Hs, (stoul_unsigned c rest k Hd), <- Hs.
  unfold Client.to_string. cbn [Z.to_int NilZero.string_of_int].
  rewrite read_digits_to_uint.
  now replace (Z.pos p >? Client.ULONG_MAX) with false
    by (symmetry; rewrite Z.gtb_ltb; apply Z.ltb_ge; lia).
Qed.

Lemma stoul_minus_to_string v :
  0 < v <= Client.ULONG_MAX ->
  Client.stoul (String "-" (Client.to_string v))
  = Client.converted (Client.ULONG_MAX + 1 - v).
Proof.
  intros Hv. destruct v as [|p|p]; [lia| |lia].
  unfold Client.stoul. cbn [Client.skip_space].
  change (Client.isspace "-") with false. cbv iota.
  unfold Client.to_string. cbn [Z.to_int NilZero.string_of_int].
  rewrite read_digits_to_uint.
  replace (Z.pos p >? Client.ULONG_MAX) with false
    by (symmetry; rewrite Z.gtb_ltb; apply Z.ltb_ge; lia).
  f_equal. unfold Client.ULONG_MAX in *.
  rewrite <- (Z.mod_small (4294967295 + 1 - Z.pos p) (4294967295 + 1)) by lia.
  replace (- Z.pos p) with (4294967295 + 1 - Z.pos p + (-1) * (4294967295 + 1)) by lia.
  now rewrite Z.mod_add by lia.
Qed.

(** X23. Numbers written in decimal are read back as written:
    [std::stoul] applied to [std::to_string v] gives v for every v an
    [unsigned long] holds, and a client started with two such arguments
    uses the first as its matrix size when it lies in 1..5000 and the
    second as its thread count when it lies in 1..128, and the defaults
    5 and 2 otherwise. *)
Theorem decimal_arguments_round_trip program n t :
  0 <= n <= Client.ULONG_MAX -> 0 <= t <= Client.ULONG_MAX ->
  Client.stoul (Client.to_string n) = Client.converted n
  /\ Client.stoul (Client.to_string t) = Client.converted t
  /\ Client.main_args [program; Client.to_string n; Client.to_string t]
     = (if (1 <=? n) && (n <=? 5000) then n else Client.DEFAULT_MATRIX_SIZE,
        if (1 <=? t) && (t <=? 128) then t else Client.DEFAULT_NUM_THREADS).
Proof.
  intros Hn Ht.
  pose proof (stoul_to_string n Hn) as Sn. pose proof (stoul_to_string t Ht) as St.
  split; [exact Sn|]. split; [exact St|].
  unfold Client.main_args. cbn [length nth].
  change (Z.of_nat 3 >? 1) with true. change (Z.of_nat 3 >? 2) with true. cbv iota zeta.
  rewrite Sn, St.
  unfold Client.ULONG_MAX in *.
  rewrite !to_u32_id by (unfold two32; lia).
  rewrite !Z.gtb_ltb. f_equal.
  - destruct (Z.eqb_spec n 0), (Z.ltb_spec 5000 n), (Z.leb_spec 1 n), (Z.leb_spec n 5000);
      cbn [orb andb]; try reflexivity; lia.
  - destruct (Z.eqb_spec t 0), (Z.ltb_spec 128 t), (Z.leb_spec 1 t), (Z.leb_spec t 128);
      cbn [orb andb]; try reflexivity; lia.
Qed.

Lemma decimal_arguments_round_trip_witness :
  Client.stoul (Client.to_string 3000) = Client.converted 3000
  /\ Client.stoul (Client.to_string 129) = Client.converted 129
  /\ Client.main_args ["client"%string; Client.to_string 3000; Client.to_string 129]
     = (if (1 <=? 3000) && (3000 <=? 5000) then 3000 else Client.DEFAULT_MATRIX_SIZE,
        if (1 <=? 129) && (129 <=? 128) then 129 else Client.DEFAULT_NUM_THREADS).
Proof.
  apply (decimal_arguments_round_trip "client"%string 3000 129).
  - unfold Client.ULONG_MAX. lia.
  - unfold Client.ULONG_MAX. lia.
Defined.

(** X24. A negative argument is not refused.  [std::stoul] reads "-v"
    as 2^32 - v, so the client takes the default size for every such
    argument except the 5000 whose wrapped value lies in 1..5000: with
    "-4294967295" the matrix size is 1. *)
Theorem negative_argument_wraps program v :
  0 < v <= Client.ULONG_MAX ->
  Client.stoul (String "-" (Client.to_string v))
  = Client.converted (Client.ULONG_MAX + 1 - v)
  /\ fst (Client.main_args [program; String "-" (Client.to_string v)])
     = (if Client.ULONG_MAX + 1 - v <=? 5000
        then Client.ULONG_MAX + 1 - v else Client.DEFAULT_MATRIX_SIZE).
Proof.
  intros Hv. pose proof (stoul_minus_to_string v Hv) as Hs.
  split; [exact Hs|].
  unfold Client.main_args. cbn [length nth fst].
  change (Z.of_nat 2 >? 1) with true. cbv iota zeta. rewrite Hs.
  unfold Client.ULONG_MAX in *.
  rewrite to_u32_id by (unfold two32; lia).
  rewrite Z.gtb_ltb.
  destruct (Z.eqb_spec (4294967295 + 1 - v) 0), (Z.ltb_spec 5000 (4294967295 + 1 - v)),
    (Z.leb_spec (4294967295 + 1 - v) 5000); cbn [orb]; try reflexivity; lia.
Qed.

Lemma negative_argument_wraps_witness :
  Client.stoul (String "-" (Client.to_string 4294967295))
  = Client.converted (Client.ULONG_MAX + 1 - 4294967295)
  /\ fst (Client.main_args ["client"%string; String "-" (Client.to_string 4294967295)])
     = (if Client.ULONG_MAX + 1 - 4294967295 <=? 5000
        then Client.ULONG_MAX + 1 - 4294967295 else Client.DEFAULT_MATRIX_SIZE).
Proof.
  apply (negative_argument_wraps "client"%string 4294967295).
  unfold Client.ULONG_MAX. lia.
Defined.

(** ** Sessions that do not run to a result *)

(** X25. A client that goes away while its computation is under way:
    the handler logs the disconnect, shuts the socket down and closes
    it, and only then, in the destructor of the session, joins the
    worker; it returns when the computation has run to its end, with a
    result nobody will read. *)
Theorem abandoned_session_waits_for_worker N T data w :
  1 <= N <= 3000 -> 0 <= T < two32 ->
  length data = Z.to_nat (N * N) -> patterns data ->
  rx (sock w) = config_frame N T data ++ be_bytes CMD_START_COMP ->
  tx_ready w -> sched w = [] -> faults w = [] ->
  exists state' w' events,
    handle_client w = Some (state', w')
    /\ trace w' = events ++ [EvLog LogDisconnecting; EvShutdown; EvClose; EvJoin]
    /\ tx (sock w') = tx (sock w) ++ be_bytes RESP_ACK ++ be_bytes RESP_ACK
    /\ processingDone state' = true
    /\ resultData state' = with_row_maxima data (Z.to_nat N)
    /\ workerThread state' = NotJoinable.
Proof.
  intros HN HT Hlen Hpat Hrx Hready Hsched Hfaults.
  assert (Hfuel : exists fuel, length (rx (sock w)) = S (S fuel)).
  { rewrite Hrx. unfold config_frame. cbn. eexists. reflexivity. }
  destruct Hfuel as (fuel & Hfuel).
  rewrite <- (app_nil_r (be_bytes CMD_START_COMP)) in Hrx.
  destruct (session_prefix N T data [] w (S fuel) HN HT Hlen Hpat Hrx Hready)
    as (w2 & Hloop & Hrx2 & Htx2 & Hready2 & Hf2 & Hsc2);
    [now rewrite Hsched|now rewrite Hsched|].
  rewrite Hfaults in Hloop. cbn [hd] in Hloop.
  set (state2 := started false (received N T data initial_state)) in *.
  assert (Hs2 : hd false (sched w2) = false) by (rewrite Hsc2, Hsched; reflexivity).
  destruct (handle_command_eof state2 (after_sched w2)
              ltac:(cbn [after_sched sock]; rewrite Hrx2; unfold len; cbn; lia))
    as (w3 & Hcmd & Htx3).
  assert (Hwhole : handle_client_loop (S (length (rx (sock w)))) initial_state w
                   = Some (state2, w3)).
  { rewrite Hfuel, Hloop.
    exact (loop_stop _ _ _ _ _ _ _ (worker_progress_idle state2 w2 Hs2) Hcmd). }
  pose proof (perform_computation_closed_form state2 ltac:(exact HN) ltac:(exact HT)
                ltac:(exact Hlen)) as Hrun.
  unfold handle_client.
  rewrite (bind_Some _ _ _ _ _ (eq_refl : get_sock w = Some (sock w, w))).
  rewrite (bind_Some _ _ _ _ _ Hwhole).
  rewrite (bind_Some _ _ _ _ _ (log_eq _ _)).
  rewrite (bind_Some _ _ _ _ _ (emit_eq _ _)).
  rewrite (bind_Some _ _ _ _ _ (emit_eq _ _)).
  unfold join_worker. change (workerThread state2) with (Running false). cbv iota.
  rewrite (bind_Some _ _ _ _ _ (emit_eq _ _)). rewrite Hrun.
  eexists _, _, (trace w3). split; [reflexivity|].
  split; [cbn [noted trace]; now rewrite <- !app_assoc|].
  split; [|repeat split].
  cbn [noted sock]. rewrite Htx3. exact Htx2.
Qed.

Lemma abandoned_session_waits_for_worker_witness :
  let w := world_of (config_frame 1 1 [f7] ++ be_bytes CMD_START_COMP) in
  exists state' w' events,
    handle_client w = Some (state', w')
    /\ trace w' = events ++ [EvLog LogDisconnecting; EvShutdown; EvClose; EvJoin]
    /\ tx (sock w') = tx (sock w) ++ be_bytes RESP_ACK ++ be_bytes RESP_ACK
    /\ processingDone state' = true
    /\ resultData state' = with_row_maxima [f7] (Z.to_nat 1)
    /\ workerThread state' = NotJoinable.
Proof.
  apply (abandoned_session_waits_for_worker 1 1 [f7]
           (world_of (config_frame 1 1 [f7] ++ be_bytes CMD_START_COMP))).
  - lia.
  - unfold two32. lia.
  - reflexivity.
  - repeat constructor; unfold f7, two32; lia.
  - reflexivity.
  - split; [reflexivity|]. cbn. lia.
  - reflexivity.
  - reflexivity.
Defined.

(** X26. A computation that fails and is started again.  When the copy
    of the input throws [std::bad_alloc] the worker ends with failed
    set, and the next poll is answered with RESP_ERROR and nothing
    else; a second START_COMP is then acknowledged, clears the failure
    and runs a new worker on the same input, whose result the following
    poll returns. *)
Theorem failed_computation_restarts N T data w :
  1 <= N <= 3000 -> 0 <= T < two32 ->
  length data = Z.to_nat (N * N) -> patterns data ->
  rx (sock w) = config_frame N T data ++ be_bytes CMD_START_COMP
                ++ be_bytes CMD_GET_STATUS ++ be_bytes CMD_START_COMP
                ++ be_bytes CMD_GET_STATUS ->
  tx_ready w -> sched w = [false; false; true; false; true] ->
  faults w = [true; false] ->
  exists state' w',
    handle_client w = Some (state', w')
    /\ tx (sock w')
       = tx (sock w) ++ be_bytes RESP_ACK ++ be_bytes RESP_ACK ++ be_bytes RESP_ERROR
         ++ be_bytes RESP_ACK ++ be_bytes RESP_RESULT ++ be_bytes N
         ++ bytes_of_floats (with_row_maxima data (Z.to_nat N))
    /\ errorOccurred state' = false
    /\ processingDone state' = true.
Proof.
  intros HN HT Hlen Hpat Hrx Hready Hsched Hfaults.
  set (result := with_row_maxima data (Z.to_nat N)).
  assert (Hfuel : exists fuel, length (rx (sock w)) = S (S (S (S (S fuel))))).
  { rewrite Hrx. unfold config_frame. cbn. eexists. reflexivity. }
  destruct Hfuel as (fuel & Hfuel).
  destruct (session_prefix N T data _ w (S (S (S (S fuel)))) HN HT Hlen Hpat Hrx Hready)
    as (w2 & Hloop & Hrx2 & Htx2 & Hready2 & Hf2 & Hsc2);
    [now rewrite Hsched|now rewrite Hsched|].
  rewrite Hfaults in Hloop, Hf2. rewrite Hsched in Hsc2.
  cbn [hd tail] in Hloop, Hf2, Hsc2.
  set (state2 := started true (received N T data initial_state)) in *.
  (* the worker fails; the first poll *)
  set (state3 := set_workerThread Finished
                   (set_processingStarted false
                      (set_processingDone false (set_errorOccurred true state2)))).
  assert (Hprog2 : worker_progress state2 w2 = Some (state3, after_sched w2)).
  { unfold worker_progress. rewrite (bind_Some _ _ _ _ _ (next_sched_eq w2)).
    rewrite Hsc2. reflexivity. }
  destruct (status_turn_world state3 (after_sched w2) _ Hrx2 Hready2
              ltac:(discriminate))
    as (w3 & Hcmd3 & Hrx3 & Htx3 & Hready3 & Hf3 & Hsc3).
  cbn [after_sched sock faults sched] in Htx3, Hf3, Hsc3.
  rewrite Hf2 in Hf3. rewrite Hsc2 in Hsc3. cbn [tail] in Hsc3.
  (* the second START_COMP *)
  assert (Hs3 : hd false (sched w3) = false) by (rewrite Hsc3; reflexivity).
  destruct (start_turn_world state3 (after_sched w3) _ Hrx3 Hready3 eq_refl eq_refl
              ltac:(discriminate))
    as (w4 & Hcmd4 & Hrx4 & Htx4 & Hready4 & Hf4 & Hsc4).
  cbn [after_sched sock faults sched] in Hcmd4, Htx4, Hf4, Hsc4.
  rewrite Hf3 in Hcmd4. cbn [hd] in Hcmd4.
  rewrite Hsc3 in Hsc4. cbn [tail] in Hsc4.
  set (state4 := started false state3) in *.
  (* the new worker completes; the second poll *)
  pose proof (perform_computation_closed_form state4 ltac:(exact HN) ltac:(exact HT)
                ltac:(exact Hlen)) as Hrun.
  change (matrixData state4) with data in Hrun.
  change (matrixSize state4) with N in Hrun. fold result in Hrun.
  set (state5 := set_workerThread Finished
                   (set_processingStarted false
                      (set_errorOccurred false
                         (set_processingDone true (set_resultData result state4))))).
  assert (Hprog4 : worker_progress state4 w4 = Some (state5, after_sched w4)).
  { unfold worker_progress. rewrite (bind_Some _ _ _ _ _ (next_sched_eq w4)).
    rewrite Hsc4. cbn [hd]. unfold worker_finish.
    change (workerThread state4) with (Running false). cbv iota. now rewrite Hrun. }
  assert (Hrx4' : rx (sock (after_sched w4)) = be_bytes CMD_GET_STATUS ++ [])
    by (rewrite app_nil_r; exact Hrx4).
  assert (Hsmall : processingDone state5 = true -> 4 * len (resultData state5) < two31).
  { intros _. change (resultData state5) with result. unfold len, result.
    rewrite with_row_maxima_length, Hlen. unfold two31. nia. }
  destruct (status_turn_world state5 (after_sched w4) [] Hrx4' Hready4 Hsmall)
    as (w5 & Hcmd5 & Hrx5 & Htx5 & Hready5 & Hf5 & Hsc5).
  (* the stream has ended *)
  assert (Hprog5 : worker_progress state5 w5 = Some (state5, after_sched w5)).
  { apply worker_progress_settled. discriminate. }
  destruct (handle_command_eof state5 (after_sched w5)
              ltac:(cbn [after_sched sock]; rewrite Hrx5; unfold len; cbn; lia))
    as (w6 & Hcmd6 & Htx6).
  assert (Hwhole : handle_client_loop (S (length (rx (sock w)))) initial_state w
                   = Some (state5, w6)).
  { rewrite Hfuel, Hloop.
    rewrite (loop_step _ _ _ _ _ _ _ Hprog2 Hcmd3).
    rewrite (loop_step _ _ _ _ _ _ _ (worker_progress_idle state3 w3 Hs3) Hcmd4).
    rewrite (loop_step _ _ _ _ _ _ _ Hprog4 Hcmd5).
    exact (loop_stop _ _ _ _ _ _ _ Hprog5 Hcmd6). }
  unfold handle_client.
  rewrite (bind_Some _ _ _ _ _ (eq_refl : get_sock w = Some (sock w, w))).
  rewrite (bind_Some _ _ _ _ _ Hwhole).
  rewrite (bind_Some _ _ _ _ _ (log_eq _ _)).
  rewrite (bind_Some _ _ _ _ _ (emit_eq _ _)).
  rewrite (bind_Some _ _ _ _ _ (emit_eq _ _)).
  unfold join_worker. change (workerThread state5) with Finished. cbv iota.
  rewrite (bind_Some _ _ _ _ _ (emit_eq _ _)).
  eexists _, _. split; [reflexivity|]. split; [|split; reflexivity].
  cbn [noted sock]. rewrite Htx6. cbn [after_sched sock]. rewrite Htx5.
  cbn [after_sched sock]. rewrite Htx4, Htx3, Htx2.
  unfold status_reply.
  change (errorOccurred state3) with true.
  change (errorOccurred state5) with false. change (processingDone state5) with true.
  change (matrixSize state5) with N. change (resultData state5) with result.
  cbv iota. now rewrite <- !app_assoc.
Qed.

Lemma failed_computation_restarts_witness :
  let w := mkWorld (mkSocket (config_frame 1 1 [f7] ++ be_bytes CMD_START_COMP
                              ++ be_bytes CMD_GET_STATUS ++ be_bytes CMD_START_COMP
                              ++ be_bytes CMD_GET_STATUS)
                      PeerShutdown 1460 [] 1460 None 0)
             [true; false] [false; false; true; false; true] [] in
  exists state' w',
    handle_client w = Some (state', w')
    /\ tx (sock w')
       = tx (sock w) ++ be_bytes RESP_ACK ++ be_bytes RESP_ACK ++ be_bytes RESP_ERROR
         ++ be_bytes RESP_ACK ++ be_bytes RESP_RESULT ++ be_bytes 1
         ++ bytes_of_floats (with_row_maxima [f7] (Z.to_nat 1))
    /\ errorOccurred state' = false
    /\ processingDone state' = true.
Proof.
  apply (failed_computation_restarts 1 1 [f7]
           (mkWorld (mkSocket (config_frame 1 1 [f7] ++ be_bytes CMD_START_COMP
                               ++ be_bytes CMD_GET_STATUS ++ be_bytes CMD_START_COMP
                               ++ be_bytes CMD_GET_STATUS)
                       PeerShutdown 1460 [] 1460 None 0)
              [true; false] [false; false; true; false; true] [])).
  - lia.
  - unfold two32. lia.
  - reflexivity.
  - repeat constructor; unfold f7, two32; lia.
  - reflexivity.
  - split; [reflexivity|]. cbn. lia.
  - reflexivity.
  - reflexivity.
Defined.

(** ** The client's console output *)

Lemma print_columns_shown matrix size (i : nat) n : forall j : nat,
  1 <= size < two32 -> len matrix = size * size ->
  Z.of_nat i < size -> Z.of_nat (j + n) <= size ->
  Client.print_columns n matrix size (Z.of_nat i) (Z.of_nat j)
  = (fun j' : nat => Client.Cell (nth (i * Z.to_nat size + j') matrix 0)) <$> seq j n.
Proof.
  induction n as [|n IH]; intros j Hsize Hlen Hi Hj; [reflexivity|].
  cbn [Client.print_columns seq fmap list_fmap].
  rewrite (to_size_t_id (Z.of_nat i)) by (unfold two64, two32 in *; lia).
  rewrite to_size_t_id by (unfold two64, two32 in *; nia).
  replace (Z.of_nat i * size + Z.of_nat j <? len matrix) with true
    by (symmetry; apply Z.ltb_lt; nia).
  replace (Z.to_nat (Z.of_nat i * size + Z.of_nat j)) with (i * Z.to_nat size + j)%nat
    by nia.
  f_equal.
  rewrite to_u32_id by (unfold two32 in *; lia).
  replace (Z.of_nat j + 1) with (Z.of_nat (S j)) by lia.
  apply IH; try assumption. lia.
Qed.

Lemma print_rows_shown matrix size n : forall i : nat,
  1 <= size < two32 -> len matrix = size * size ->
  Z.of_nat (i + n) <= size ->
  Client.print_rows n matrix size (Z.of_nat i)
  = concat ((fun i' : nat =>
               shown_row matrix size i'
               ++ (if size >? Client.print_limit then [Client.Dots] else [])
               ++ [Client.EndLine]) <$> seq i n).
Proof.
  induction n as [|n IH]; intros i Hsize Hlen Hi; [reflexivity|].
  cbn [Client.print_rows seq fmap list_fmap concat].
  change 0 with (Z.of_nat 0) at 1.
  rewrite (print_columns_shown matrix size i _ 0%nat Hsize Hlen ltac:(lia))
    by (unfold Client.print_limit; lia).
  fold (shown_row matrix size i).
  rewrite <- !app_assoc. do 3 f_equal.
  rewrite to_u32_id by (unfold two32 in *; lia).
  replace (Z.of_nat i + 1) with (Z.of_nat (S i)) by lia.
  apply IH; try assumption. lia.
Qed.

(** X27. [print_matrix] on a matrix that has size * size cells never
    takes the branch that prints " Error ": after the title it writes
    the first ten rows at most and of each the first ten cells at most,
    every one read inside the vector at its row-major place, with dots
    where rows or columns are cut, and then the rule. *)
Theorem print_matrix_within_bounds matrix size title :
  1 <= size < two32 -> len matrix = size * size ->
  Client.print_matrix matrix size title
  = Client.Title title size
    :: concat ((fun i : nat =>
                  shown_row matrix size i
                  ++ (if size >? Client.print_limit then [Client.Dots] else [])
                  ++ [Client.EndLine])
                 <$> seq 0 (Z.to_nat (Z.min size Client.print_limit)))
    ++ (if size >? Client.print_limit then [Client.DotsLine] else [])
    ++ [Client.Rule]
  /\ Forall (fun p => p <> Client.ErrorCell) (Client.print_matrix matrix size title).
Proof.
  intros Hsize Hlen.
  assert (Hform : Client.print_matrix matrix size title
                  = Client.Title title size
                    :: concat ((fun i : nat =>
                                  shown_row matrix size i
                                  ++ (if size >? Client.print_limit
                                      then [Client.Dots] else [])
                                  ++ [Client.EndLine])
                                 <$> seq 0 (Z.to_nat (Z.min size Client.print_limit)))
                    ++ (if size >? Client.print_limit then [Client.DotsLine] else [])
                    ++ [Client.Rule]).
  { unfold Client.print_matrix.
    replace (size =? 0) with false by (symmetry; apply Z.eqb_neq; lia).
    replace (len matrix =? 0) with false by (symmetry; apply Z.eqb_neq; nia).
    cbn [orb]. f_equal. f_equal.
    change 0 with (Z.of_nat 0) at 1.
    apply (print_rows_shown matrix size _ 0%nat Hsize Hlen).
    unfold Client.print_limit. lia. }
  split; [exact Hform|]. rewrite Hform.
  constructor; [discriminate|].
  apply Forall_app. split.
  - apply Forall_concat, Forall_fmap, Forall_forall. intros i _.
    cbn. apply Forall_app. split.
    + unfold shown_row. apply Forall_fmap, Forall_forall. intros j _. discriminate.
    + destruct (size >? Client.print_limit); repeat constructor; discriminate.
  - destruct (size >? Client.print_limit); repeat constructor; discriminate.
Qed.

Lemma print_matrix_within_bounds_witness :
  Client.print_matrix [f1; f2; f3; f4] 2 "Result"
  = Client.Title "Result" 2
    :: concat ((fun i : nat =>
                  shown_row [f1; f2; f3; f4] 2 i
                  ++ (if 2 >? Client.print_limit then [Client.Dots] else [])
                  ++ [Client.EndLine])
                 <$> seq 0 (Z.to_nat (Z.min 2 Client.print_limit)))
    ++ (if 2 >? Client.print_limit then [Client.DotsLine] else [])
    ++ [Client.Rule]
  /\ Forall (fun p => p <> Client.ErrorCell)
       (Client.print_matrix [f1; f2; f3; f4] 2 "Result").
Proof.
  apply (print_matrix_within_bounds [f1; f2; f3; f4] 2 "Result").
  - unfold two32. lia.
  - reflexivity.
Defined.

(** ** CONFIG_DATA while the worker is under way *)


